(** * Repository workflow engine: local Git state mutation and project scaffolding

    A shallow embedding of [git_operations.py].  The Python functions are
    written in a small state-and-exception monad over a [World] made of the
    filesystem, the version-control metadata of every repository, and the log.
    The version-control tool, the filesystem and the template source are
    collaborators of the program: they are modelled by small executable
    definitions (section "Collaborators"), and everything that the outside
    world decides (environment variables, HTTP answers, the behaviour of a
    remote server, the iteration order of a Python set) is read from an
    immutable [Env].

    The second part of the definitions covers the functions of
    [git_operations.py] that read and write single files, the routes of
    [app.py] that call the functions above, and the client of [github_api.py],
    which has a state, an exception type and a server of its own. *)

From Stdlib Require Import Ascii.
From Stdlib Require String.
From stdpp Require Import base option list strings gmap fin_maps sorting.

(** ** Strings as the program uses them *)

Module Str.

Definition len (s : string) : nat := String.length s.

(** [s.endswith(suffix)] *)
Definition endswith (s suffix : string) : bool :=
  bool_decide (len suffix ≤ len s) &&
  bool_decide (String.substring (len s - len suffix) (len suffix) s = suffix).

(** [s.startswith(prefix)] *)
Definition startswith (s pre : string) : bool := String.prefix pre s.

(** [sep.join(parts)] *)
Fixpoint join (sep : string) (parts : list string) : string :=
  match parts with
  | [] => ""
  | [p] => p
  | p :: rest => p +:+ sep +:+ join sep rest
  end.

(** The ASCII characters that [str.strip()] removes. *)
Definition is_space (c : ascii) : bool :=
  let n := nat_of_ascii c in
  bool_decide (n = 32) || (bool_decide (9 ≤ n) && bool_decide (n ≤ 13))
  || (bool_decide (28 ≤ n) && bool_decide (n ≤ 31)).

Fixpoint lstrip (s : string) : string :=
  match s with
  | String c r => if is_space c then lstrip r else s
  | EmptyString => EmptyString
  end.

(** Drops trailing characters satisfying [p]. *)
Fixpoint rstrip_by (p : ascii → bool) (s : string) : string :=
  match s with
  | EmptyString => EmptyString
  | String c r =>
      match rstrip_by p r with
      | EmptyString => if p c then EmptyString else String c EmptyString
      | r' => String c r'
      end
  end.

(** [s.strip()] *)
Definition strip (s : string) : string := rstrip_by is_space (lstrip s).

Definition upper (c : ascii) : ascii :=
  let n := nat_of_ascii c in
  if bool_decide (97 ≤ n) && bool_decide (n ≤ 122) then ascii_of_nat (n - 32) else c.

Definition lower (c : ascii) : ascii :=
  let n := nat_of_ascii c in
  if bool_decide (65 ≤ n) && bool_decide (n ≤ 90) then ascii_of_nat (n + 32) else c.

Fixpoint map_chars (f : ascii → ascii) (s : string) : string :=
  match s with
  | EmptyString => EmptyString
  | String c r => String (f c) (map_chars f r)
  end.

(** [s.capitalize()] on ASCII text: first character upper-cased, the rest
    lower-cased. *)
Definition capitalize (s : string) : string :=
  match s with
  | EmptyString => EmptyString
  | String c r => String (upper c) (map_chars lower r)
  end.

(** [s[:n]] *)
Definition take (n : nat) (s : string) : string := String.substring 0 n s.

(** Decimal rendering of a natural number, as an f-string prints an [int]. *)
Definition digit (n : nat) : ascii := ascii_of_nat (48 + n `mod` 10).

Fixpoint of_nat_fuel (fuel n : nat) (acc : string) : string :=
  match fuel with
  | 0 => acc
  | S fuel' =>
      let acc' := String (digit n) acc in
      if bool_decide (n < 10) then acc' else of_nat_fuel fuel' (n `div` 10) acc'
  end.

Definition of_nat (n : nat) : string := of_nat_fuel (S n) n "".

End Str.

(** ** [os.path] on POSIX path strings *)

Module Path.

Definition slash : ascii := "/"%char.

(** Splits at the last slash: [(s[:i], s[i:])] with [i = s.rfind('/') + 1]. *)
Fixpoint cut (s : string) : string * string :=
  match s with
  | EmptyString => (EmptyString, EmptyString)
  | String c r =>
      let '(h, t) := cut r in
      match h with
      | EmptyString =>
          if bool_decide (c = slash) then (String c EmptyString, r)
          else (EmptyString, String c r)
      | _ => (String c h, t)
      end
  end.

Fixpoint all_slashes (s : string) : bool :=
  match s with
  | EmptyString => true
  | String c r => bool_decide (c = slash) && all_slashes r
  end.

(** [os.path.split] *)
Definition split (p : string) : string * string :=
  let '(h, t) := cut p in
  (if all_slashes h then h else Str.rstrip_by (λ c, bool_decide (c = slash)) h, t).

(** [os.path.basename] *)
Definition basename (p : string) : string := (split p).2.

(** [os.path.dirname] *)
Definition dirname (p : string) : string := (split p).1.

(** [os.path.join(a, b)] *)
Definition join (a b : string) : string :=
  if Str.startswith b "/" then b
  else if bool_decide (a = "") || Str.endswith a "/" then a +:+ b
  else a +:+ "/" +:+ b.

End Path.

(** ** Exceptions and the state-and-exception monad

    A Python exception leaves every effect that happened before it in place,
    so a computation returns its outcome together with the state it reached. *)

Inductive os_error :=
| FileNotFoundError | FileExistsError | NotADirectoryError
| IsADirectoryError | PermissionError.

Inductive exn :=
| GitCommandError (msg : string)
| InvalidGitRepositoryError (msg : string)
| NoSuchPathError (msg : string)
| ValueError (msg : string)
| TypeError (msg : string)
| IndexError (msg : string)
| OSError (kind : os_error) (path : string)
| RequestException (msg : string).

#[global] Instance os_error_eq_dec : EqDecision os_error.
Proof. solve_decision. Defined.

#[global] Instance exn_eq_dec : EqDecision exn.
Proof. solve_decision. Defined.

Definition os_error_str (k : os_error) : string :=
  match k with
  | FileNotFoundError => "[Errno 2] No such file or directory"
  | FileExistsError => "[Errno 17] File exists"
  | NotADirectoryError => "[Errno 20] Not a directory"
  | IsADirectoryError => "[Errno 21] Is a directory"
  | PermissionError => "[Errno 13] Permission denied"
  end.

(** [str(e)], as an f-string renders an exception. *)
Definition exn_str (e : exn) : string :=
  match e with
  | GitCommandError m | InvalidGitRepositoryError m | NoSuchPathError m
  | ValueError m | TypeError m | IndexError m | RequestException m => m
  | OSError k p => os_error_str k +:+ ": '" +:+ p +:+ "'"
  end.

(** [except git.exc.GitCommandError] *)
Definition is_GitCommandError (e : exn) : bool :=
  match e with GitCommandError _ => true | _ => false end.

(** [except FileExistsError] *)
Definition is_FileExistsError (e : exn) : bool :=
  match e with OSError FileExistsError _ => true | _ => false end.

Inductive Result (A : Type) :=
| Ok (a : A)
| Raise (e : exn).
Arguments Ok {A} a.
Arguments Raise {A} e.

Definition M (S A : Type) : Type := S → Result A * S.

Section Monad.
Context {S : Type}.

Definition ret {A} (a : A) : M S A := λ s, (Ok a, s).

Definition bind {A B} (m : M S A) (k : A → M S B) : M S B :=
  λ s, match m s with
       | (Ok a, s') => k a s'
       | (Raise e, s') => (Raise e, s')
       end.

Definition raise {A} (e : exn) : M S A := λ s, (Raise e, s).

Definition get : M S S := λ s, (Ok s, s).

Definition modify (f : S → S) : M S unit := λ s, (Ok (), f s).

(** [try: m  except Exception as e: h e] *)
Definition try_except {A} (m : M S A) (h : exn → M S A) : M S A :=
  λ s, match m s with
       | (Ok a, s') => (Ok a, s')
       | (Raise e, s') => h e s'
       end.

(** [try: m  except <class> as e: h e], the class given by [catches]. *)
Definition try_except_on {A} (catches : exn → bool) (m : M S A)
    (h : exn → M S A) : M S A :=
  try_except m (λ e, if catches e then h e else raise e).

(** Lifts the result of a pure fallible step that replaces the state. *)
Definition step (f : S → exn + S) : M S unit :=
  λ s, match f s with
       | inr s' => (Ok (), s')
       | inl e => (Raise e, s)
       end.

(** [if c: m] *)
Definition when (c : bool) (m : M S unit) : M S unit :=
  if c then m else ret ().

End Monad.

#[global] Instance M_ret {S} : MRet (M S) := @ret S.
#[global] Instance M_bind {S} : MBind (M S) := λ A B k m, bind m k.

(** ** Collaborators

    *** Filesystem

    A flat map from path strings to nodes.  A directory node carries the
    names [os.listdir] reports for it and whether the process may list it and
    create entries in it.  The names [.] and [..] are in every directory and
    in no listing.  The working directory is the node at ["."].  Paths are
    taken as written, up to trailing slashes: [.] and [..] components are not
    resolved.

    The order in which [os.listdir] reports the names is the filesystem's
    and not the program's: the list of a node stands for one such order, and
    where a new name comes to stand in it is not something the properties
    below rely on: they speak of listings up to permutation. *)

Inductive Node :=
| FileNode (content : string)
| DirNode (entries : list string) (accessible : bool).

Module FS.

(** Trailing slashes do not change which node a path names. *)
Definition norm (p : string) : string :=
  if Path.all_slashes p then (if bool_decide (p = "") then "" else "/")
  else Str.rstrip_by (λ c, bool_decide (c = Path.slash)) p.

Definition node_at (fs : gmap string Node) (p : string) : option Node :=
  if bool_decide (p = "") then None else fs !! norm p.

(** The key of the directory that holds the entry [p]. *)
Definition parent_key (p : string) : string :=
  let d := Path.dirname (norm p) in
  if bool_decide (d = "") then "." else d.

(** [os.path.exists] *)
Definition exists_ (fs : gmap string Node) (p : string) : bool :=
  bool_decide (is_Some (node_at fs p)).

(** [os.path.isdir] *)
Definition isdir (fs : gmap string Node) (p : string) : bool :=
  match node_at fs p with Some (DirNode _ _) => true | _ => false end.

(** [os.listdir] *)
Definition listdir (fs : gmap string Node) (p : string) : exn + list string :=
  match node_at fs p with
  | None => inl (OSError FileNotFoundError p)
  | Some (FileNode _) => inl (OSError NotADirectoryError p)
  | Some (DirNode es ok) => if ok then inr es else inl (OSError PermissionError p)
  end.

(** Whether [p] is a directory the process may list and create entries in. *)
Definition accessible (fs : gmap string Node) (p : string) : bool :=
  match node_at fs p with Some (DirNode _ ok) => ok | _ => false end.

(** The names every directory has: the directory itself and its parent. *)
Definition dot_name (name : string) : bool :=
  bool_decide (name = ".") || bool_decide (name = "..").

(** Creates the entry [p], absent so far, in its parent directory.  Under
    the names [.] and [..] there is a directory already: nothing is created,
    and the call fails as it does on an existing directory, [open] with
    [IsADirectoryError] and [os.mkdir] with [FileExistsError]. *)
Definition link (fs : gmap string Node) (p : string) (n : Node)
    : exn + gmap string Node :=
  if bool_decide (Path.basename (norm p) = "") then inl (OSError FileNotFoundError p)
  else
    match fs !! parent_key p with
    | Some (DirNode es true) =>
        if dot_name (Path.basename (norm p)) then
          match n with
          | FileNode _ => inl (OSError IsADirectoryError p)
          | DirNode _ _ => inl (OSError FileExistsError p)
          end
        else
          inr (<[norm p := n]>
                 (<[parent_key p := DirNode (es ++ [Path.basename (norm p)]) true]> fs))
    | Some (DirNode _ false) => inl (OSError PermissionError p)
    | Some (FileNode _) => inl (OSError NotADirectoryError p)
    | None => inl (OSError FileNotFoundError p)
    end.

(** [with open(p, 'w') as f: f.write(content)] *)
Definition write_text (fs : gmap string Node) (p content : string)
    : exn + gmap string Node :=
  match node_at fs p with
  | Some (DirNode _ _) => inl (OSError IsADirectoryError p)
  | Some (FileNode _) => inr (<[norm p := FileNode content]> fs)
  | None => link fs p (FileNode content)
  end.

(** [os.mkdir] *)
Definition mkdir (fs : gmap string Node) (p : string) : exn + gmap string Node :=
  match node_at fs p with
  | Some _ => inl (OSError FileExistsError p)
  | None => link fs p (DirNode [] true)
  end.

(** [os.makedirs(name, exist_ok=True)], following the library's recursion
    on the head of the path; the head is shorter than the name, so the
    length of the name is fuel enough. *)
Fixpoint makedirs_fuel (fuel : nat) (fs : gmap string Node) (name : string)
    : exn + gmap string Node :=
  match fuel with
  | 0 => inl (OSError FileNotFoundError name)
  | S fuel' =>
      let '(head, tail) := Path.split name in
      let '(head, tail) :=
        if bool_decide (tail = "") then Path.split head else (head, tail) in
      let finish (fs1 : gmap string Node) :=
        match mkdir fs1 name with
        | inr fs2 => inr fs2
        | inl e => if isdir fs1 name then inr fs1 else inl e
        end in
      if bool_decide (head ≠ "") && bool_decide (tail ≠ "") && negb (exists_ fs head)
      then
        match makedirs_fuel fuel' fs head with
        | inl e =>
            if is_FileExistsError e
            then (if bool_decide (tail = ".") then inr fs else finish fs)
            else inl e
        | inr fs1 => if bool_decide (tail = ".") then inr fs1 else finish fs1
        end
      else finish fs
  end.

Definition makedirs (fs : gmap string Node) (name : string) : exn + gmap string Node :=
  makedirs_fuel (S (Str.len name)) fs name.

End FS.

(** *** Version-control tool

    The repository metadata the program reads and changes through the tool:
    the commit store, the local branches, what is checked out, the paths the
    tool reports as staged and as modified or untracked, a merge in progress,
    and the configured remotes.  File contents are not part of the metadata:
    whether two commits merge cleanly, and whether local changes stand in the
    way of a checkout, is asked of the environment, and writing a file on disk
    does not by itself change [staged] or [unstaged].
    [issued] records every mutating command sent to the tool, oldest first,
    also when the command fails. *)

Record Commit := mkCommit {
  message : string;
  parents : list nat;
  changed : list string
}.

Inductive HeadRef :=
| OnBranch (b : string)
| Detached (c : nat).

Inductive MergeOutcome :=
| UpToDate
| FastForward
| Merged
| Conflict (paths : list string)
| Refuse (why : string).

Record Remote := mkRemote {
  url : string;
  refs : list string
}.

Inductive GitCmd :=
| CmdCheckout (b : string)
| CmdCheckoutNew (b : string)
| CmdBranchMove (old new : string)
| CmdCommitAllowEmpty (msg : string)
| CmdMerge (src : string)
| CmdMergeAbort
| CmdAddAll
| CmdAdd (p : string)
| CmdIndexCommit (msg : string)
| CmdPushSetUpstream (remote branch : string)
| CmdRemoteRemove (name : string)
| CmdRemoteAdd (name url : string).

Record Repo := mkRepo {
  commits : list Commit;
  heads : gmap string nat;
  HEAD : HeadRef;
  staged : list string;
  unstaged : list string;
  merge_head : option (nat * list string * list string);
  remotes : gmap string Remote;
  upstream : gmap string string;
  issued : list GitCmd
}.

#[global] Instance HeadRef_eq_dec : EqDecision HeadRef.
Proof. solve_decision. Defined.

Definition set_commits (v : list Commit) (r : Repo) : Repo :=
  mkRepo v (heads r) (HEAD r) (staged r) (unstaged r) (merge_head r)
         (remotes r) (upstream r) (issued r).
Definition set_heads (v : gmap string nat) (r : Repo) : Repo :=
  mkRepo (commits r) v (HEAD r) (staged r) (unstaged r) (merge_head r)
         (remotes r) (upstream r) (issued r).
Definition set_HEAD (v : HeadRef) (r : Repo) : Repo :=
  mkRepo (commits r) (heads r) v (staged r) (unstaged r) (merge_head r)
         (remotes r) (upstream r) (issued r).
Definition set_staged (v : list string) (r : Repo) : Repo :=
  mkRepo (commits r) (heads r) (HEAD r) v (unstaged r) (merge_head r)
         (remotes r) (upstream r) (issued r).
Definition set_unstaged (v : list string) (r : Repo) : Repo :=
  mkRepo (commits r) (heads r) (HEAD r) (staged r) v (merge_head r)
         (remotes r) (upstream r) (issued r).
Definition set_merge_head (v : option (nat * list string * list string)) (r : Repo) : Repo :=
  mkRepo (commits r) (heads r) (HEAD r) (staged r) (unstaged r) v
         (remotes r) (upstream r) (issued r).
Definition set_remotes (v : gmap string Remote) (r : Repo) : Repo :=
  mkRepo (commits r) (heads r) (HEAD r) (staged r) (unstaged r) (merge_head r)
         v (upstream r) (issued r).
Definition set_upstream (v : gmap string string) (r : Repo) : Repo :=
  mkRepo (commits r) (heads r) (HEAD r) (staged r) (unstaged r) (merge_head r)
         (remotes r) v (issued r).
Definition set_issued (v : list GitCmd) (r : Repo) : Repo :=
  mkRepo (commits r) (heads r) (HEAD r) (staged r) (unstaged r) (merge_head r)
         (remotes r) (upstream r) v.

(** What the outside world decides. *)
Record Env := mkEnv {
  (** [os.environ] *)
  environ : gmap string string;
  (** [requests.get(url)]: a transport error, or a status code and a body *)
  http_get : string → exn + (nat * string);
  (** by remote URL: the error with which the server ends a push, if any *)
  push_rejected : string → option string;
  (** by repository, locally changed paths, checked-out commit and commit to
      check out: the error with which [git checkout] refuses to overwrite the
      local changes, if it does *)
  checkout_refused : string → list string → option nat → nat → option string;
  (** by repository, locally changed paths, source commit and checked-out
      commit: how [git merge] ends *)
  merge_outcome : string → list string → nat → nat → MergeOutcome;
  (** the position at which a string comes out when a Python set is iterated *)
  set_order : string → nat;
  (** by repository and commit: the commit's hexadecimal object name *)
  hexsha : string → nat → string;
  (** the branch a freshly initialised repository starts on *)
  init_default_branch : string
}.

Module Git.

Definition issue (c : GitCmd) : M Repo unit :=
  modify (λ r, set_issued (issued r ++ [c]) r).

(** The commit that is checked out, if the current branch has one. *)
Definition tip (r : Repo) : option nat :=
  match HEAD r with
  | OnBranch b => heads r !! b
  | Detached c => Some c
  end.

(** Moves the checked-out branch (or the detached HEAD) to commit [c]. *)
Definition advance (c : nat) (r : Repo) : Repo :=
  match HEAD r with
  | OnBranch b => set_heads (<[b := c]> (heads r)) r
  | Detached _ => set_HEAD (Detached c) r
  end.

(** Stores a new commit on top of the checked-out one and moves to it. *)
Definition store_commit (msg : string) (extra_parents : list nat) (r : Repo)
    : nat * Repo :=
  let id := length (commits r) in
  let c := mkCommit msg (option_list (tip r) ++ extra_parents) (staged r) in
  (id, set_staged [] (advance id (set_commits (commits r ++ [c]) r))).

(** [[head.name for head in repo.heads]] *)
Definition head_names (r : Repo) : list string := elements (dom (heads r)).

(** [[remote.name for remote in repo.remotes]] *)
Definition remote_names (r : Repo) : list string := elements (dom (remotes r)).

(** [name in repo.heads]: the library looks the name up among the heads. *)
Definition has_head (name : string) (r : Repo) : bool :=
  bool_decide (is_Some (heads r !! name)).

(** [name in repo.remotes] *)
Definition has_remote (name : string) (r : Repo) : bool :=
  bool_decide (is_Some (remotes r !! name)).

(** [repo.remote(name).refs]: the names of the remote-tracking references,
    such as [origin/main]. *)
Definition remote_refs (name : string) : M Repo (list string) :=
  r ← get;
  match remotes r !! name with
  | Some rm => mret (refs rm)
  | None => raise (ValueError ("Remote named '" +:+ name +:+ "' didn't exist"))
  end.

(** [repo.active_branch.name] *)
Definition active_branch_name : M Repo string :=
  r ← get;
  match HEAD r with
  | OnBranch b => mret b
  | Detached _ =>
      raise (TypeError "HEAD is a detached symbolic reference as it points to a commit")
  end.

(** [repo.is_dirty(untracked_files=True)] *)
Definition is_dirty (r : Repo) : bool :=
  negb (bool_decide (staged r = [])) || negb (bool_decide (unstaged r = [])).

(** The paths with staged, modified or untracked content. *)
Definition local_changes (r : Repo) : list string := staged r ++ unstaged r.

(** The error with which a checkout of commit [c] stops because of local
    changes; without local changes there is none. *)
Definition refusal (env : Env) (path : string) (r : Repo) (c : nat) : option string :=
  if is_dirty r then checkout_refused env path (local_changes r) (tip r) c else None.

(** [repo.git.checkout(b)] in the repository at [path]; local changes that
    are not in the way are carried along. *)
Definition checkout (env : Env) (path b : string) : M Repo unit :=
  issue (CmdCheckout b);;
  r ← get;
  match merge_head r with
  | Some _ => raise (GitCommandError "error: you need to resolve your current index first")
  | None =>
      match heads r !! b with
      | Some c =>
          match refusal env path r c with
          | Some why => raise (GitCommandError why)
          | None => modify (set_HEAD (OnBranch b))
          end
      | None =>
          raise (GitCommandError
                   ("error: pathspec '" +:+ b +:+ "' did not match any file(s) known to git"))
      end
  end.

(** [repo.git.checkout("-b", b)] *)
Definition checkout_b (b : string) : M Repo unit :=
  issue (CmdCheckoutNew b);;
  r ← get;
  match heads r !! b with
  | Some _ =>
      raise (GitCommandError ("fatal: a branch named '" +:+ b +:+ "' already exists"))
  | None =>
      match tip r with
      | Some c => modify (λ r, set_HEAD (OnBranch b) (set_heads (<[b := c]> (heads r)) r))
      | None => modify (set_HEAD (OnBranch b))
      end
  end.

(** [repo.git.branch("-m", old, new)] *)
Definition branch_m (old new : string) : M Repo unit :=
  issue (CmdBranchMove old new);;
  r ← get;
  match heads r !! old, heads r !! new with
  | None, _ =>
      raise (GitCommandError ("error: refname refs/heads/" +:+ old +:+ " not found"))
  | Some _, Some _ =>
      raise (GitCommandError ("fatal: a branch named '" +:+ new +:+ "' already exists"))
  | Some c, None =>
      modify (λ r,
        let r1 := set_heads (<[new := c]> (delete old (heads r))) r in
        let r2 := if bool_decide (HEAD r = OnBranch old)
                  then set_HEAD (OnBranch new) r1 else r1 in
        match upstream r !! old with
        | Some u => set_upstream (<[new := u]> (delete old (upstream r))) r2
        | None => r2
        end)
  end.

(** [repo.git.commit("--allow-empty", "-m", msg)] *)
Definition commit_allow_empty (msg : string) : M Repo unit :=
  issue (CmdCommitAllowEmpty msg);;
  modify (λ r, (store_commit msg [] r).2).

(** [repo.git.add(A=True)] *)
Definition add_all : M Repo unit :=
  issue CmdAddAll;;
  modify (λ r, set_unstaged [] (set_staged (list_union (staged r) (unstaged r)) r)).

(** [repo.git.add(p)] *)
Definition add (p : string) : M Repo unit :=
  issue (CmdAdd p);;
  modify (λ r,
    if bool_decide (p ∈ unstaged r)
    then set_unstaged (filter (λ q, q ≠ p) (unstaged r))
           (set_staged (list_union (staged r) [p]) r)
    else r).

(** [repo.index.commit(msg)]; returns the new commit. *)
Definition index_commit (msg : string) : M Repo nat :=
  issue (CmdIndexCommit msg);;
  r ← get;
  let '(id, r') := store_commit msg [] r in
  modify (λ _, r');;
  mret id.

(** The message the tool gives a merge commit: the branch merged and, unless
    it is [main] or [master], the branch merged into; with a detached HEAD
    that is [HEAD]. *)
Definition merge_message (src : string) (r : Repo) : string :=
  let dest := match HEAD r with OnBranch b => b | Detached _ => "HEAD" end in
  "Merge branch '" +:+ src +:+ "'"
  +:+ (if bool_decide (dest = "main") || bool_decide (dest = "master")
       then "" else " into " +:+ dest).

(** [repo.git.merge(src)] in the repository at [path]. *)
Definition merge (env : Env) (path src : string) : M Repo unit :=
  issue (CmdMerge src);;
  r ← get;
  match merge_head r with
  | Some _ =>
      raise (GitCommandError "fatal: You have not concluded your merge (MERGE_HEAD exists).")
  | None =>
      match heads r !! src with
      | None =>
          raise (GitCommandError ("merge: " +:+ src +:+ " - not something we can merge"))
      | Some s =>
          match tip r with
          | None => modify (advance s)
          | Some t =>
              match (if bool_decide (s = t) then UpToDate
                     else merge_outcome env path (local_changes r) s t) with
              | UpToDate => mret ()
              | FastForward => modify (advance s)
              | Merged =>
                  modify (λ r, (store_commit (merge_message src r) [s] r).2)
              | Conflict paths =>
                  modify (λ r, set_unstaged (list_union (unstaged r) paths)
                                 (set_merge_head (Some (s, staged r, unstaged r)) r));;
                  raise (GitCommandError
                           "Automatic merge failed; fix conflicts and then commit the result.")
              | Refuse why => raise (GitCommandError why)
              end
          end
      end
  end.

(** [repo.git.merge("--abort")] *)
Definition merge_abort : M Repo unit :=
  issue CmdMergeAbort;;
  r ← get;
  match merge_head r with
  | Some (_, st, un) =>
      modify (λ r, set_merge_head None (set_unstaged un (set_staged st r)))
  | None => raise (GitCommandError "fatal: There is no merge to abort (MERGE_HEAD missing).")
  end.

(** [repo.git.push("--set-upstream", remote, branch)] *)
Definition push_set_upstream (env : Env) (remote branch : string) : M Repo unit :=
  issue (CmdPushSetUpstream remote branch);;
  r ← get;
  match remotes r !! remote with
  | None =>
      raise (GitCommandError
               ("fatal: '" +:+ remote +:+ "' does not appear to be a git repository"))
  | Some rm =>
      match heads r !! branch with
      | None =>
          raise (GitCommandError
                   ("error: src refspec " +:+ branch +:+ " does not match any"))
      | Some _ =>
          match push_rejected env (url rm) with
          | Some why => raise (GitCommandError why)
          | None =>
              let tracking := remote +:+ "/" +:+ branch in
              modify (λ r,
                set_upstream (<[branch := tracking]> (upstream r))
                  (set_remotes
                     (<[remote := mkRemote (url rm) (list_union (refs rm) [tracking])]>
                        (remotes r)) r))
          end
      end
  end.

(** [repo.delete_remote(name)] *)
Definition delete_remote (name : string) : M Repo unit :=
  issue (CmdRemoteRemove name);;
  r ← get;
  match remotes r !! name with
  | Some _ =>
      modify (λ r,
        set_upstream
          (filter (λ kv, Str.startswith kv.2 (name +:+ "/") = false) (upstream r))
          (set_remotes (delete name (remotes r)) r))
  | None => raise (GitCommandError ("error: No such remote: '" +:+ name +:+ "'"))
  end.

(** [repo.create_remote(name, url)] *)
Definition create_remote (name url : string) : M Repo unit :=
  issue (CmdRemoteAdd name url);;
  r ← get;
  match remotes r !! name with
  | Some _ => raise (GitCommandError ("error: remote " +:+ name +:+ " already exists."))
  | None => modify (λ r, set_remotes (<[name := mkRemote url []]> (remotes r)) r)
  end.

(** The metadata [git init] creates. *)
Definition fresh (env : Env) : Repo :=
  mkRepo [] ∅ (OnBranch (init_default_branch env)) [] [] None ∅ ∅ [].

End Git.

(** ** The world the program runs in *)

Inductive Level := INFO | WARNING | ERROR.

Record World := mkWorld {
  fs : gmap string Node;
  repos : gmap string Repo;
  log : list (Level * string)
}.

Definition set_fs (v : gmap string Node) (w : World) : World :=
  mkWorld v (repos w) (log w).
Definition set_repos (v : gmap string Repo) (w : World) : World :=
  mkWorld (fs w) v (log w).
Definition set_log (v : list (Level * string)) (w : World) : World :=
  mkWorld (fs w) (repos w) v.

(** [logger.info], [logger.warning], [logger.error] *)
Definition logger (l : Level) (msg : string) : M World unit :=
  modify (λ w, set_log (log w ++ [(l, msg)]) w).

(** A filesystem call that either replaces the filesystem or raises. *)
Definition fs_step (f : gmap string Node → exn + gmap string Node) : M World unit :=
  step (λ w, match f (fs w) with inr fs' => inr (set_fs fs' w) | inl e => inl e end).

(** Runs a tool action on the repository behind the handle [h]. *)
Definition on_repo {A} (h : string) (act : M Repo A) : M World A :=
  λ w, match repos w !! h with
       | Some r => let '(res, r') := act r in (res, set_repos (<[h := r']> (repos w)) w)
       | None => (Raise (InvalidGitRepositoryError h), w)
       end.

(** Reads an attribute of the repository behind the handle [h]. *)
Definition repo_attr {A} (h : string) (f : Repo → A) : M World A :=
  λ w, match repos w !! h with
       | Some r => (Ok (f r), w)
       | None => (Raise (InvalidGitRepositoryError h), w)
       end.

(** [git.Repo(path)]: the handle is the path, trailing slashes dropped. *)
Definition Repo_open (path : string) : M World string :=
  w ← get;
  match repos w !! FS.norm path with
  | Some _ => mret (FS.norm path)
  | None =>
      if FS.exists_ (fs w) path then raise (InvalidGitRepositoryError path)
      else raise (NoSuchPathError path)
  end.

(** [git.Repo.init(path)]: creates the directory when it is missing and the
    metadata when the directory is not a repository yet; an existing
    repository is left as it is.  The metadata is kept in [repos], apart from
    the filesystem.  [git init] fails on a path that is not a directory, and
    in a directory the process may not use; which error it reports there is
    not relied upon below. *)
Definition Repo_init (env : Env) (path : string) : M World string :=
  w ← get;
  (if FS.exists_ (fs w) path then mret () else fs_step (λ fs, FS.makedirs fs path));;
  w ← get;
  if negb (FS.isdir (fs w) path)
  then raise (GitCommandError ("fatal: cannot mkdir " +:+ path +:+ ": File exists"))
  else if negb (FS.accessible (fs w) path)
  then raise (GitCommandError (Path.join path ".git" +:+ ": Permission denied"))
  else
    match repos w !! FS.norm path with
    | Some _ => mret (FS.norm path)
    | None =>
        modify (λ w, set_repos (<[FS.norm path := Git.fresh env]> (repos w)) w);;
        mret (FS.norm path)
    end.

(** [requests.get(url)] *)
Definition requests_get (env : Env) (u : string) : M World (nat * string) :=
  match http_get env u with
  | inr response => mret response
  | inl e => raise e
  end.

(** The iteration order of a set is the environment's. *)
Definition set_before (env : Env) : relation string :=
  λ a b, set_order env a ≤ set_order env b.

#[global] Instance set_before_dec env : RelDecision (set_before env).
Proof. intros a b. unfold set_before. apply _. Defined.

(** [list(s)] for a set [s] given by its elements *)
Definition list_of_set (env : Env) (s : list string) : list string :=
  merge_sort (set_before env) s.

(** [s.add(x)] *)
Definition set_add (x : string) (s : list string) : list string :=
  if bool_decide (x ∈ s) then s else s ++ [x].

(** [x in l] for a list of strings *)
Definition py_in (x : string) (l : list string) : bool := bool_decide (x ∈ l).

(** [name in refs] for the list [remote.refs] of the remote [remote]: the
    library's list carries the prefix [remote/], "allowing you to omit the
    remote path portion", and a lookup by name compares the prefix followed by
    the name with the names of the references. *)
Definition prefixed_in (remote name : string) (ref_names : list string) : bool :=
  py_in (remote +:+ "/" +:+ name) ref_names.

(** ** The program

    *** Built-in ignore templates *)

Definition template_python : string := "
# Byte-compiled / optimized / DLL files
__pycache__/
*.py[cod]
*$py.class

# Virtual environment
venv/
env/
*.egg-info/
.Python
pip-log.txt
pip-delete-this-directory.txt

# IDE settings
.vscode/
.idea/
*.swp
".

Definition template_node : string := "
# Node.js dependencies
node_modules/
npm-debug.log
yarn-error.log
".

Definition template_rust : string := "
# Rust specific
/target/
**/*.rs.bk
Cargo.lock
".

Definition template_general : string := "
# Logs
logs
*.log
npm-debug.log*
yarn-debug.log*
yarn-error.log*

# OS files
.DS_Store
Thumbs.db
".

(** [GITIGNORE_TEMPLATES] *)
Definition GITIGNORE_TEMPLATES : gmap string string :=
  {[ "python" := template_python; "node" := template_node;
     "rust" := template_rust; "general" := template_general ]}.

Section GitOperations.

Variable env : Env.

(** *** [init_local_repo] *)

Definition origin_url_for (github_username repo_path : string) : string :=
  "https://github.com/" +:+ github_username +:+ "/" +:+ Path.basename repo_path +:+ ".git".

Definition init_local_repo (repo_path : string) : M World string :=
  try_except
    (fs_step (λ fs, FS.makedirs fs repo_path);;
     repo ← Repo_init env repo_path;
     match environ env !! "GITHUB_USERNAME" with
     | None | Some "" =>
         logger WARNING "GITHUB_USERNAME environment variable is not set";;
         mret repo
     | Some github_username =>
         let origin_url := origin_url_for github_username repo_path in
         try_except
           (has_origin ← repo_attr repo (Git.has_remote "origin");
            when has_origin (on_repo repo (Git.delete_remote "origin")))
           (λ remote_delete_error,
              logger WARNING
                ("Could not delete existing remote: " +:+ exn_str remote_delete_error));;
         on_repo repo (Git.create_remote "origin" origin_url);;
         logger INFO ("Remote 'origin' set to: " +:+ origin_url);;
         mret repo
     end)
    (λ e, logger ERROR ("Error initializing repository: " +:+ exn_str e);; raise e).

(** *** [ensure_main_branch]

    The module defines this name twice.  The first definition (with the
    docstring "Ensure the main branch exists and is set as default.") is
    replaced by the second when the module is loaded, so a caller of
    [ensure_main_branch] runs the second. *)

Definition ensure_main_branch_first (repo_path : string) : M World bool :=
  try_except
    (logger INFO ("Ensuring main branch exists in repository '" +:+ repo_path +:+ "'");;
     repo ← Repo_open repo_path;
     names ← repo_attr repo Git.head_names;
     when (negb (py_in "main" names))
       (names ← repo_attr repo Git.head_names;
        if py_in "master" names then
          on_repo repo (Git.branch_m "master" "main");;
          logger INFO "Renamed 'master' branch to 'main'."
        else
          names ← repo_attr repo Git.head_names;
          when (bool_decide (names = []))
            (on_repo repo (Git.commit_allow_empty "Initial commit");;
             logger INFO "Created initial empty commit.");;
          on_repo repo (Git.checkout_b "main");;
          logger INFO "Created new 'main' branch.");;
     remote_names ← repo_attr repo Git.remote_names;
     (if py_in "origin" remote_names then
        try_except_on is_GitCommandError
          (on_repo repo (Git.push_set_upstream env "origin" "main");;
           logger INFO "'main' branch is now tracking origin/main.")
          (λ e,
             logger WARNING ("Could not set upstream: " +:+ exn_str e);;
             logger INFO "You may need to create the remote repository first.")
      else
        logger WARNING "Remote 'origin' not found. Please add a remote manually.");;
     mret true)
    (λ e, logger ERROR ("Error ensuring main branch: " +:+ exn_str e);; raise e).

Definition ensure_main_branch (repo_path : string) : M World bool :=
  try_except
    (repo ← Repo_open repo_path;
     has_main ← repo_attr repo (Git.has_head "main");
     when (negb has_main)
       (on_repo repo (Git.checkout_b "main");;
        logger INFO "Created 'main' branch");;
     has_origin ← repo_attr repo (Git.has_remote "origin");
     linked ← (if (has_origin : bool)
               then remote_refs ← on_repo repo (Git.remote_refs "origin");
                    mret (prefixed_in "origin" "origin/main" remote_refs)
               else mret false);
     when linked
       (on_repo repo (Git.push_set_upstream env "origin" "main");;
        logger INFO "Linked 'main' to 'origin/main'");;
     mret true)
    (λ e, logger ERROR ("Error ensuring main branch: " +:+ exn_str e);; raise e).

(** *** [add_and_commit] *)

Definition add_and_commit (repo_path commit_message : string) : M World bool :=
  try_except
    (logger INFO ("Committing changes in repository '" +:+ repo_path
                  +:+ "' with message: " +:+ commit_message);;
     repo ← Repo_open repo_path;
     dirty ← repo_attr repo Git.is_dirty;
     if negb dirty then
       logger INFO "No changes to commit.";;
       mret false
     else
       on_repo repo Git.add_all;;
       commit ← on_repo repo (Git.index_commit commit_message);
       logger INFO ("Changes committed: " +:+ commit_message +:+ " (Commit ID: "
                    +:+ Str.take 7 (hexsha env repo commit) +:+ ")");;
       mret true)
    (λ e, logger ERROR ("Error committing changes: " +:+ exn_str e);; raise e).

(** *** [merge_branch] *)

Definition merge_branch (repo_path source_branch target_branch : string) : M World bool :=
  try_except
    (logger INFO ("Merging branch '" +:+ source_branch +:+ "' into '" +:+ target_branch
                  +:+ "' in repository '" +:+ repo_path +:+ "'");;
     repo ← Repo_open repo_path;
     names ← repo_attr repo Git.head_names;
     (if negb (py_in source_branch names) then
        let error_msg := "Source branch '" +:+ source_branch +:+ "' does not exist!" in
        logger ERROR error_msg;;
        raise (ValueError error_msg)
      else mret ());;
     names ← repo_attr repo Git.head_names;
     (if negb (py_in target_branch names) then
        let error_msg := "Target branch '" +:+ target_branch +:+ "' does not exist!" in
        logger ERROR error_msg;;
        raise (ValueError error_msg)
      else mret ());;
     current_branch ← on_repo repo Git.active_branch_name;
     on_repo repo (Git.checkout env repo target_branch);;
     logger INFO ("Checked out '" +:+ target_branch +:+ "'");;
     success ← try_except_on is_GitCommandError
                 (on_repo repo (Git.merge env repo source_branch);;
                  logger INFO ("Merged '" +:+ source_branch +:+ "' into '"
                               +:+ target_branch +:+ "' successfully!");;
                  mret true)
                 (λ e,
                    logger ERROR ("Merge failed: " +:+ exn_str e);;
                    on_repo repo Git.merge_abort;;
                    logger INFO "Merge aborted due to conflicts.";;
                    mret false);
     when (bool_decide (current_branch ≠ target_branch))
       (on_repo repo (Git.checkout env repo current_branch);;
        logger INFO ("Returned to '" +:+ current_branch +:+ "'"));;
     mret success)
    (λ e, logger ERROR ("Error during merge operation: " +:+ exn_str e);; raise e).

(** *** [detect_project_type] *)

Definition detect_project_type (repo_path : string) : M World (list string) :=
  try_except
    (logger INFO ("Detecting project type for repository at '" +:+ repo_path +:+ "'");;
     let project_types : list string := [] in
     w ← get;
     if negb (FS.exists_ (fs w) repo_path) then
       logger WARNING ("Repository path " +:+ repo_path +:+ " does not exist.");;
       mret ["general"]
     else
       match FS.listdir (fs w) repo_path with
       | inl e => raise e
       | inr files =>
           project_types ←
             (if existsb (λ f, Str.endswith f ".py") files || py_in "requirements.txt" files
              then logger INFO "Python project detected";;
                   mret (set_add "python" project_types)
              else mret project_types);
           project_types ←
             (if existsb (λ f, Str.endswith f ".js") files || py_in "package.json" files
              then logger INFO "Node.js project detected";;
                   mret (set_add "node" project_types)
              else mret project_types);
           project_types ←
             (if existsb (λ f, Str.endswith f ".rs") files || py_in "Cargo.toml" files
              then logger INFO "Rust project detected";;
                   mret (set_add "rust" project_types)
              else mret project_types);
           project_types ←
             (if bool_decide (project_types = [])
              then logger INFO "No specific project type detected, using general";;
                   mret (set_add "general" project_types)
              else mret project_types);
           logger INFO ("Detected project types: "
                        +:+ Str.join ", " (list_of_set env project_types));;
           mret (list_of_set env project_types)
       end)
    (λ e,
       logger ERROR ("Error detecting project type: " +:+ exn_str e);;
       mret ["general"]).

(** *** [generate_gitignore] *)

Definition generate_gitignore (repo_path : string) : M World string :=
  try_except
    (logger INFO ("Generating .gitignore file for repository at '" +:+ repo_path +:+ "'");;
     let gitignore_path := Path.join repo_path ".gitignore" in
     project_types ← detect_project_type repo_path;
     let gitignore_content :=
       Str.join "
" (map (λ ptype, default (GITIGNORE_TEMPLATES !!! "general")
                       (GITIGNORE_TEMPLATES !! ptype)) project_types) in
     fs_step (λ fs, FS.write_text fs gitignore_path (Str.strip gitignore_content));;
     logger INFO (".gitignore file generated for " +:+ Str.join ", " project_types
                  +:+ " projects at " +:+ gitignore_path);;
     try_except
       (repo ← Repo_open repo_path;
        on_repo repo (Git.add ".gitignore");;
        on_repo repo (Git.index_commit
                        ("Add .gitignore for " +:+ Str.join ", " project_types
                         +:+ " project"));;
        logger INFO ".gitignore committed successfully.")
       (λ e, logger WARNING ("Could not commit .gitignore: " +:+ exn_str e));;
     mret gitignore_path)
    (λ e, logger ERROR ("Error generating .gitignore: " +:+ exn_str e);; raise e).

(** *** [download_github_gitignore] *)

Definition gitignore_url_for (project_type : string) : string :=
  "https://raw.githubusercontent.com/github/gitignore/main/" +:+ project_type
  +:+ ".gitignore".

Definition download_github_gitignore (repo_path : string) (project_type : option string)
    : M World string :=
  let fall_back :=
    logger INFO "Falling back to local template generation";;
    generate_gitignore repo_path in
  try_except
    (logger INFO ("Downloading GitHub .gitignore template for repository at '"
                  +:+ repo_path +:+ "'");;
     project_type ←
       match project_type with
       | None =>
           detected_types ← detect_project_type repo_path;
           match detected_types with
           | first :: _ =>
               let project_type := Str.capitalize first in
               logger INFO ("Auto-detected project type: " +:+ project_type);;
               mret project_type
           | [] => raise (IndexError "list index out of range")
           end
       | Some project_type => mret project_type
       end;
     let gitignore_url := gitignore_url_for project_type in
     logger INFO ("Fetching .gitignore template from: " +:+ gitignore_url);;
     response ← requests_get env gitignore_url;
     if bool_decide (response.1 = 200) then
       let gitignore_path := Path.join repo_path ".gitignore" in
       fs_step (λ fs, FS.write_text fs gitignore_path response.2);;
       logger INFO (".gitignore downloaded successfully for " +:+ project_type
                    +:+ " project at " +:+ gitignore_path);;
       try_except
         (repo ← Repo_open repo_path;
          on_repo repo (Git.add ".gitignore");;
          on_repo repo (Git.index_commit
                          ("Add GitHub's " +:+ project_type +:+ " .gitignore template"));;
          logger INFO ".gitignore committed successfully")
         (λ e, logger WARNING ("Could not commit .gitignore: " +:+ exn_str e));;
       mret gitignore_path
     else
       logger WARNING ("Failed to download .gitignore template: HTTP "
                       +:+ Str.of_nat response.1);;
       fall_back)
    (λ e,
       logger ERROR ("Error downloading GitHub .gitignore: " +:+ exn_str e);;
       fall_back).

(** *** [add_multiple_files] *)

(** One entry of the batch: a dictionary with the keys ['path'] and
    ['content'], as the route layer builds it from a request. *)
Record FileInfo := mkFileInfo {
  path : string;
  content : string
}.

(** The dictionary the function returns. *)
Record BatchResult := mkBatchResult {
  success : bool;
  result_message : string;
  created_files : list string;
  errors : list string
}.

(** The body of the [for] loop, on one entry.  The first statement of the
    [try] block binds [file_path] to the entry's path, which cannot fail for
    a dictionary that has the key, so the handler always names the current
    entry. *)
Definition add_one_file (repo_path : string) (file_info : FileInfo)
    (acc : list string * list string) : M World (list string * list string) :=
  let '(created_files, errors) := acc in
  let file_path := path file_info in
  try_except
    (let content := content file_info in
     let full_path := Path.join repo_path file_path in
     fs_step (λ fs, FS.makedirs fs (Path.dirname full_path));;
     fs_step (λ fs, FS.write_text fs full_path content);;
     logger INFO ("File '" +:+ file_path +:+ "' created successfully");;
     mret (created_files ++ [file_path], errors))
    (λ e,
       let error_msg := "Failed to create file '" +:+ file_path +:+ "': " +:+ exn_str e in
       logger ERROR error_msg;;
       mret (created_files, errors ++ [error_msg])).

Fixpoint add_files_loop (repo_path : string) (files : list FileInfo)
    (acc : list string * list string) : M World (list string * list string) :=
  match files with
  | [] => mret acc
  | file_info :: rest =>
      acc' ← add_one_file repo_path file_info acc;
      add_files_loop repo_path rest acc'
  end.

Definition add_multiple_files (repo_path : string) (files : list FileInfo)
    : M World BatchResult :=
  try_except
    (logger INFO ("Adding multiple files to repository '" +:+ repo_path +:+ "'");;
     acc ← add_files_loop repo_path files ([], []);
     let '(created_files, errors) := acc in
     mret (mkBatchResult
             (bool_decide (length errors = 0))
             ("Created " +:+ Str.of_nat (length created_files) +:+ " files, "
              +:+ Str.of_nat (length errors) +:+ " errors")
             created_files errors))
    (λ e, logger ERROR ("Error in batch file creation: " +:+ exn_str e);; raise e).

End GitOperations.

(** ** Results of the functions in terms of the disk

    The definitions below describe what a function leaves behind as a
    function of the filesystem and the metadata it started from; the lemmas of
    the second part prove that the monadic code computes them. *)

Definition commit_count (r : Repo) : nat := length (commits r).

(** The repository after [merge_branch] gave up on a merge: only the record of
    the commands sent to the tool has grown. *)
Definition after_aborted_merge (source_branch target_branch current_branch : string)
    (r : Repo) : Repo :=
  set_issued
    (issued r ++ [CmdCheckout target_branch; CmdMerge source_branch; CmdMergeAbort]
     ++ (if bool_decide (current_branch ≠ target_branch)
         then [CmdCheckout current_branch] else []))
    r.


(** The types a directory listing matches, in the order in which
    [detect_project_type] adds them to its set. *)
Definition classify (files : list string) : list string :=
  let s0 : list string := [] in
  let s1 := if existsb (λ f, Str.endswith f ".py") files || py_in "requirements.txt" files
            then set_add "python" s0 else s0 in
  let s2 := if existsb (λ f, Str.endswith f ".js") files || py_in "package.json" files
            then set_add "node" s1 else s1 in
  let s3 := if existsb (λ f, Str.endswith f ".rs") files || py_in "Cargo.toml" files
            then set_add "rust" s2 else s2 in
  if bool_decide (s3 = []) then set_add "general" s3 else s3.

(** The list [detect_project_type] returns for a path. *)
Definition detect_outcome (env : Env) (fs : gmap string Node) (repo_path : string)
    : list string :=
  if FS.exists_ fs repo_path then
    match FS.listdir fs repo_path with
    | inr files => list_of_set env (classify files)
    | inl _ => ["general"]
    end
  else ["general"].

(** The text [generate_gitignore] writes for a path. *)
Definition ignore_content (env : Env) (fs : gmap string Node) (repo_path : string) : string :=
  Str.strip
    (Str.join "
" (map (λ ptype, default (GITIGNORE_TEMPLATES !!! "general")
                        (GITIGNORE_TEMPLATES !! ptype))
           (detect_outcome env fs repo_path))).

(** The commit [generate_gitignore] makes when the path holds a repository. *)
Definition ignore_committed (env : Env) (fs : gmap string Node) (repo_path : string)
    (rs : gmap string Repo) : gmap string Repo :=
  match rs !! FS.norm repo_path with
  | Some r =>
      let msg := "Add .gitignore for " +:+ Str.join ", " (detect_outcome env fs repo_path)
                 +:+ " project" in
      <[FS.norm repo_path := (Git.index_commit msg (Git.add ".gitignore" r).2).2]> rs
  | None => rs
  end.

(** The fetch of a template did not produce one: a transport error, or a
    status other than 200. *)
Definition fetch_failed (env : Env) (u : string) : Prop :=
  match http_get env u with
  | inl _ => True
  | inr response => response.1 ≠ 200
  end.

(** The project type whose template [download_github_gitignore] asks for. *)
Definition requested_type (env : Env) (fs : gmap string Node) (repo_path : string)
    (project_type : option string) : string :=
  match project_type with
  | Some t => t
  | None => Str.capitalize (hd "" (detect_outcome env fs repo_path))
  end.

(** What one entry of a batch does to the filesystem: the exception that
    stopped it, if any, and the filesystem it leaves. *)
Definition attempt (repo_path : string) (file_info : FileInfo) (fs : gmap string Node)
    : option exn * gmap string Node :=
  let full_path := Path.join repo_path (path file_info) in
  match FS.makedirs fs (Path.dirname full_path) with
  | inl e => (Some e, fs)
  | inr fs1 =>
      match FS.write_text fs1 full_path (content file_info) with
      | inl e => (Some e, fs1)
      | inr fs2 => (None, fs2)
      end
  end.

(** Every entry attempted in turn, each on the filesystem its predecessors
    left, whatever their outcome. *)
Fixpoint attempts (repo_path : string) (files : list FileInfo) (fs : gmap string Node)
    : list (FileInfo * option exn) * gmap string Node :=
  match files with
  | [] => ([], fs)
  | file_info :: rest =>
      let '(o, fs1) := attempt repo_path file_info fs in
      let '(os, fs2) := attempts repo_path rest fs1 in
      ((file_info, o) :: os, fs2)
  end.

Definition written (os : list (FileInfo * option exn)) : list string :=
  omap (λ fo, match fo.2 with None => Some (path fo.1) | Some _ => None end) os.

Definition failure_messages (os : list (FileInfo * option exn)) : list string :=
  omap (λ fo, match fo.2 with
              | Some e => Some ("Failed to create file '" +:+ path fo.1 +:+ "': "
                                +:+ exn_str e)
              | None => None
              end) os.

(** ** A small world to run the functions in *)

Module Demo.

(** How the commits of [repo] merge: [imported] shares no history with
    [main], and [topic] and [main] both changed the file [x]. *)
Definition outcome (repo_path : string) (changes : list string) (s t : nat)
    : MergeOutcome :=
  match s, t with
  | 2, 1 => Refuse "fatal: refusing to merge unrelated histories"
  | 3, 1 => Conflict ["x"]
  | _, _ => Merged
  end.

(** The account is configured; the template source cannot be reached, the
    remote server rejects every push, and local changes always stand in the
    way of a checkout. *)
Definition env : Env :=
  mkEnv {[ "GITHUB_USERNAME" := "octo" ]}
        (λ _, inl (RequestException "connection refused"))
        (λ _, Some "remote: Repository not found.")
        (λ _ _ _ _, Some "error: Your local changes would be overwritten by checkout.")
        outcome
        Str.len
        (λ _ c, "a1b2c3d4e5f6a7b8c9d" +:+ Str.of_nat c)
        "master".

Definition files : gmap string Node :=
  {[ "/" := DirNode ["srv"] true;
     "/srv" := DirNode ["demo"; "legacy"; "published"; "node"; "empty"; "locked"] true;
     "/srv/demo" := DirNode ["x"] true;
     "/srv/legacy" := DirNode [] true;
     "/srv/published" := DirNode [] true;
     "/srv/node" := DirNode ["package.json"] true;
     "/srv/node/package.json" := FileNode "{}";
     "/srv/empty" := DirNode [] true;
     "/srv/locked" := DirNode ["setup.py"] false ]}.

(** Three branches: [main] and [topic] both edited [x] after the first
    commit; [imported] starts from a root commit of its own. *)
Definition repo : Repo :=
  mkRepo [mkCommit "Initial commit" [] ["x"];
          mkCommit "Edit x on main" [0] ["x"];
          mkCommit "Import" [] ["y"];
          mkCommit "Edit x on topic" [0] ["x"]]
         {[ "main" := 1; "imported" := 2; "topic" := 3 ]}
         (OnBranch "topic") [] [] None ∅ ∅ [].

(** A repository that still calls its default branch [master]. *)
Definition legacy : Repo :=
  mkRepo [mkCommit "Initial commit" [] []] {[ "master" := 0 ]}
         (OnBranch "master") [] [] None ∅ ∅ [].

(** A repository whose [main] has been pushed to its origin before; the
    origin also has a branch that is itself called [origin/main]. *)
Definition published : Repo :=
  mkRepo [mkCommit "Initial commit" [] []] {[ "main" := 0 ]}
         (OnBranch "main") [] [] None
         {[ "origin" := mkRemote "https://github.com/octo/published.git"
                                 ["origin/main"; "origin/origin/main"] ]}
         {[ "main" := "origin/main" ]} [].

Definition world : World :=
  mkWorld files
          {[ "/srv/demo" := repo; "/srv/legacy" := legacy; "/srv/published" := published ]}
          [].

(** The filesystem once the directory [repo_path] has been created. *)
Definition created (fs : gmap string Node) (repo_path : string) : gmap string Node :=
  match FS.makedirs fs repo_path with
  | inr fs' => fs'
  | inl _ => fs
  end.

(** Work done between two initialisations: one more commit. *)
Definition work (repo_path : string) (w : World) : World :=
  (on_repo (FS.norm repo_path) (Git.commit_allow_empty "Work in progress") w).2.

(** The world after a first initialisation of a new path and some work. *)
Definition later : World :=
  work "/srv/fresh" (init_local_repo env "/srv/fresh" world).2.


End Demo.

(** ** More of the program: files on disk

    *** Text as Python prints and reads it *)

Module Py.

Definition double_quote : ascii := ascii_of_nat 34.
Definition single_quote : ascii := ascii_of_nat 39.
Definition backslash : ascii := ascii_of_nat 92.
Definition tab : ascii := ascii_of_nat 9.
Definition newline : ascii := ascii_of_nat 10.
Definition carriage_return : ascii := ascii_of_nat 13.

(** [c in s] for a character [c] *)
Fixpoint contains (c : ascii) (s : string) : bool :=
  match s with
  | EmptyString => false
  | String c' r => bool_decide (c' = c) || contains c r
  end.

(** A file opened for reading in text mode hands out ["\r\n"] and a lone
    ["\r"] as ["\n"]. *)
Fixpoint universal_newlines (s : string) : string :=
  match s with
  | EmptyString => EmptyString
  | String c r =>
      if bool_decide (c = carriage_return) then
        match r with
        | String c' r' =>
            if bool_decide (c' = newline) then String newline (universal_newlines r')
            else String newline (universal_newlines r)
        | EmptyString => String newline EmptyString
        end
      else String c (universal_newlines r)
  end.

Definition hex_digit (n : nat) : ascii :=
  if bool_decide (n < 10) then ascii_of_nat (48 + n) else ascii_of_nat (87 + n).

(** Whether [repr] prints a character as it is; the characters are the code
    points below 256. *)
Definition printable (c : ascii) : bool :=
  let n := nat_of_ascii c in
  (bool_decide (32 ≤ n) && bool_decide (n < 127))
  || (bool_decide (161 ≤ n) && negb (bool_decide (n = 173))).

Definition escape_char (quote c : ascii) : string :=
  if bool_decide (c = quote) || bool_decide (c = backslash)
  then String backslash (String c EmptyString)
  else if bool_decide (c = tab) then String backslash "t"
  else if bool_decide (c = newline) then String backslash "n"
  else if bool_decide (c = carriage_return) then String backslash "r"
  else if printable c then String c EmptyString
  else String backslash
         (String "x" (String (hex_digit (nat_of_ascii c `div` 16))
                        (String (hex_digit (nat_of_ascii c `mod` 16)) EmptyString))).

Fixpoint escape (quote : ascii) (s : string) : string :=
  match s with
  | EmptyString => EmptyString
  | String c r => escape_char quote c +:+ escape quote r
  end.

(** [repr(s)] for a string *)
Definition repr_str (s : string) : string :=
  let quote := if contains single_quote s && negb (contains double_quote s)
               then double_quote else single_quote in
  String quote (escape quote s +:+ String quote EmptyString).

(** [repr(l)] for a list of strings, as an f-string prints the list *)
Definition repr_list (l : list string) : string :=
  "[" +:+ Str.join ", " (map repr_str l) +:+ "]".

End Py.

(** [with open(p, "r") as f: f.read()] *)
Definition read_text (fs : gmap string Node) (p : string) : exn + string :=
  match FS.node_at fs p with
  | Some (FileNode text) => inr (Py.universal_newlines text)
  | Some (DirNode _ _) => inl (OSError IsADirectoryError p)
  | None => inl (OSError FileNotFoundError p)
  end.

(** A filesystem call that reads and either answers or raises. *)
Definition fs_read {A} (f : gmap string Node → exn + A) : M World A :=
  λ w, match f (fs w) with
       | inr a => (Ok a, w)
       | inl e => (Raise e, w)
       end.

(** *** [list_directory_contents] *)

Definition list_directory_contents (repo_path : string) : M World (list string) :=
  try_except
    (logger INFO ("Listing contents of directory '" +:+ repo_path +:+ "'");;
     w ← get;
     (if negb (FS.exists_ (fs w) repo_path) then
        let error_msg := "Directory '" +:+ repo_path +:+ "' does not exist." in
        logger ERROR error_msg;;
        raise (ValueError error_msg)
      else mret ());;
     contents ← fs_read (λ fs, FS.listdir fs repo_path);
     logger INFO ("Contents of '" +:+ repo_path +:+ "': " +:+ Py.repr_list contents);;
     mret contents)
    (λ e, logger ERROR ("Error listing directory contents: " +:+ exn_str e);; raise e).

(** *** [add_file_with_content]

    The module defines this name twice as well.  The first definition writes
    the file where it is; the second, which replaces it when the module is
    loaded, first creates the directory of the file. *)

Definition add_file_with_content_first (repo_path file_name content : string)
    : M World string :=
  try_except
    (logger INFO ("Creating file '" +:+ file_name +:+ "' in repository '"
                  +:+ repo_path +:+ "'");;
     let file_path := Path.join repo_path file_name in
     fs_step (λ fs, FS.write_text fs file_path content);;
     logger INFO ("File '" +:+ file_name +:+ "' created successfully");;
     mret ("File '" +:+ file_name +:+ "' created successfully"))
    (λ e, logger ERROR ("Error creating file: " +:+ exn_str e);; raise e).

Definition add_file_with_content (repo_path file_name content : string)
    : M World string :=
  try_except
    (let file_path := Path.join repo_path file_name in
     fs_step (λ fs, FS.makedirs fs (Path.dirname file_path));;
     fs_step (λ fs, FS.write_text fs file_path content);;
     logger INFO ("File " +:+ file_name +:+ " created at " +:+ repo_path);;
     mret ("File " +:+ file_name +:+ " added successfully"))
    (λ e, logger ERROR ("Error adding file: " +:+ exn_str e);; raise e).

(** *** [read_file_contents] *)

Definition read_file_contents (repo_path file_name : string) : M World string :=
  try_except
    (logger INFO ("Reading contents of file '" +:+ file_name +:+ "' in '"
                  +:+ repo_path +:+ "'");;
     let file_path := Path.join repo_path file_name in
     w ← get;
     (if negb (FS.exists_ (fs w) file_path) then
        let error_msg := "File '" +:+ file_name +:+ "' does not exist in '"
                         +:+ repo_path +:+ "'." in
        logger ERROR error_msg;;
        raise (ValueError error_msg)
      else mret ());;
     contents ← fs_read (λ fs, read_text fs file_path);
     logger INFO ("Successfully read contents of '" +:+ file_name +:+ "'");;
     mret contents)
    (λ e, logger ERROR ("Error reading file contents: " +:+ exn_str e);; raise e).

(** *** [format_response]

    The values the route layer hands to the web framework: [None], booleans,
    integers, strings, lists, and dictionaries as lists of fields in insertion
    order, with distinct keys. *)

#[warnings="-register-all"]
Inductive Json :=
| JNone
| JBool (b : bool)
| JInt (n : Z)
| JStr (s : string)
| JList (items : list Json)
| JDict (fields : list (string * Json)).

Definition format_response (success : bool) (message : string) (data : Json) : Json :=
  let response := [("success", JBool success); ("message", JStr message)] in
  match data with
  | JNone => JDict response
  | _ => JDict (response ++ [("data", data)])
  end.

(** [d.get(key)] on a dictionary *)
Definition Json_get (key : string) (j : Json) : option Json :=
  match j with
  | JDict fields => (λ found, found.2.2) <$> list_find (λ kv, kv.1 = key) fields
  | _ => None
  end.

(** ** The route layer ([app.py])

    A route either answers with a body or ends the request by raising
    [HTTPException]; every route turns whatever the operation raises into
    such an exception with status 500 and the text of the error.  The fields
    of the request model are the arguments of the route. *)

Inductive Reply :=
| Respond (body : Json)
| HTTPException (status_code : nat) (detail : string).

Module App.

Section Routes.

Variable env : Env.

Definition root : M World Reply :=
  mret (Respond (format_response true "GitHub Automation API is running" JNone)).

Definition initialize_repo (repo_path : string) : M World Reply :=
  try_except
    (repo ← init_local_repo env repo_path;
     mret (Respond (format_response true ("Repository initialized at " +:+ repo_path)
                      (JDict [("repo_path", JStr repo_path)]))))
    (λ e,
       logger ERROR ("Error initializing repository: " +:+ exn_str e);;
       mret (HTTPException 500 (exn_str e))).

Definition api_add_multiple_files (repo_path : string) (files : list FileInfo)
    : M World Reply :=
  try_except
    (let files_list := map (λ f, mkFileInfo (path f) (content f)) files in
     result ← add_multiple_files repo_path files_list;
     if success result then
       mret (Respond (format_response true (result_message result)
                        (JDict [("created_files", JList (JStr <$> created_files result))])))
     else
       mret (Respond (format_response false (result_message result)
                        (JDict [("created_files", JList (JStr <$> created_files result));
                                ("errors", JList (JStr <$> errors result))]))))
    (λ e,
       logger ERROR ("API Error: Failed to add files: " +:+ exn_str e);;
       mret (HTTPException 500 (exn_str e))).

Definition commit_changes (repo_path commit_message : string) : M World Reply :=
  try_except
    (result ← add_and_commit env repo_path commit_message;
     mret (Respond (format_response true
                      ("Changes committed with message: " +:+ commit_message) JNone)))
    (λ e,
       logger ERROR ("Error committing changes: " +:+ exn_str e);;
       mret (HTTPException 500 (exn_str e))).

Definition merge (repo_path source_branch target_branch : string) : M World Reply :=
  try_except
    (result ← merge_branch env repo_path source_branch target_branch;
     mret (Respond (format_response true
                      ("Merged " +:+ source_branch +:+ " into " +:+ target_branch
                       +:+ " successfully") JNone)))
    (λ e,
       logger ERROR ("Error merging branches: " +:+ exn_str e);;
       mret (HTTPException 500 (exn_str e))).

Definition generate (repo_path : string) : M World Reply :=
  try_except
    (path ← generate_gitignore env repo_path;
     mret (Respond (format_response true ("Gitignore file generated at " +:+ path) JNone)))
    (λ e,
       logger ERROR ("Error generating gitignore: " +:+ exn_str e);;
       mret (HTTPException 500 (exn_str e))).

Definition download_gitignore (repo_path : string) (project_type : option string)
    : M World Reply :=
  try_except
    (path ← download_github_gitignore env repo_path project_type;
     mret (Respond (format_response true
                      ("GitHub gitignore template downloaded to " +:+ path) JNone)))
    (λ e,
       logger ERROR ("Error downloading gitignore: " +:+ exn_str e);;
       mret (HTTPException 500 (exn_str e))).

Definition detect_type (repo_path : string) : M World Reply :=
  try_except
    (project_types ← detect_project_type env repo_path;
     mret (Respond (format_response true "Project type detected"
                      (JDict [("project_types", JList (JStr <$> project_types))]))))
    (λ e,
       logger ERROR ("Error detecting project type: " +:+ exn_str e);;
       mret (HTTPException 500 (exn_str e))).

Definition list_files (repo_path : string) : M World Reply :=
  try_except
    (contents ← list_directory_contents repo_path;
     mret (Respond (format_response true ("Contents of " +:+ repo_path)
                      (JDict [("contents", JList (JStr <$> contents))]))))
    (λ e,
       logger ERROR ("Error listing directory contents: " +:+ exn_str e);;
       mret (HTTPException 500 (exn_str e))).

Definition read_file (repo_path file_name : string) : M World Reply :=
  try_except
    (contents ← read_file_contents repo_path file_name;
     mret (Respond (format_response true ("Contents of " +:+ file_name)
                      (JDict [("contents", JStr contents)]))))
    (λ e,
       logger ERROR ("Error reading file: " +:+ exn_str e);;
       mret (HTTPException 500 (exn_str e))).

Definition add_file (repo_path file_name content : string) : M World Reply :=
  try_except
    (result ← add_file_with_content repo_path file_name content;
     mret (Respond (format_response true result JNone)))
    (λ e,
       logger ERROR ("Error adding file: " +:+ exn_str e);;
       mret (HTTPException 500 (exn_str e))).

End Routes.

End App.

(** ** More results of the functions in terms of the disk *)

(** The three tests [detect_project_type] makes on a listing. *)
Definition looks_python (files : list string) : bool :=
  existsb (λ f, Str.endswith f ".py") files || py_in "requirements.txt" files.
Definition looks_node (files : list string) : bool :=
  existsb (λ f, Str.endswith f ".js") files || py_in "package.json" files.
Definition looks_rust (files : list string) : bool :=
  existsb (λ f, Str.endswith f ".rs") files || py_in "Cargo.toml" files.


(** ** More worlds to run the functions in *)

Module Scenes.

(** [Demo.repo] with work in progress: an edit of [x] is staged and a new
    file is not. *)
Definition draft : Repo := set_unstaged ["notes.txt"] (set_staged ["x"] Demo.repo).

(** Two branches that merge cleanly: [feature] added a file on top of the
    first commit, and [main] has moved on since. *)
Definition tidy : Repo :=
  mkRepo [mkCommit "Initial commit" [] ["x"];
          mkCommit "Add y" [0] ["y"];
          mkCommit "Edit x on main" [0] ["x"]]
         {[ "main" := 2; "feature" := 1 ]}
         (OnBranch "feature") [] [] None ∅ ∅ [].

Definition files : gmap string Node :=
  <["/srv/draft" := DirNode ["x"; "notes.txt"] true]>
    (<["/srv/tidy" := DirNode ["x"; "y"] true]>
       (<["/srv/new" := DirNode [] true]>
          (<["/srv" := DirNode ["demo"; "legacy"; "published"; "node"; "empty"; "locked";
                                "draft"; "tidy"; "new"] true]> Demo.files))).

(** The repositories of [Demo.world], the two above, and one that has just
    been initialised and has no commit yet. *)
Definition world : World :=
  mkWorld files
          (<["/srv/draft" := draft]>
             (<["/srv/tidy" := tidy]>
                (<["/srv/new" := Git.fresh Demo.env]> (repos Demo.world))))
          [].

(** The same two lines of work seen from [main]: [main] is checked out, and
    [feature] is the branch to bring up to date. *)
Definition apart : Repo :=
  mkRepo [mkCommit "Initial commit" [] ["x"];
          mkCommit "Edit x on main" [0] ["x"];
          mkCommit "Add y" [0] ["y"]]
         {[ "main" := 1; "feature" := 2 ]}
         (OnBranch "main") [] [] None ∅ ∅ [].

(** [world] with that repository in the place of [tidy]. *)
Definition apart_world : World :=
  mkWorld files (<["/srv/tidy" := apart]> (repos world)) [].

(** No account is configured. *)
Definition anonymous : Env :=
  mkEnv ∅ (http_get Demo.env) (push_rejected Demo.env) (checkout_refused Demo.env)
        (merge_outcome Demo.env) (set_order Demo.env) (hexsha Demo.env)
        (init_default_branch Demo.env).


(** [Demo.world] after a file has been added below [/srv/node]. *)
Definition extended : World :=
  (add_file_with_content "/srv/node" "src/app.js" "run()" Demo.world).2.

End Scenes.

(** ** The GitHub client ([github_api.py])

    The client keeps the account and the token in module variables, talks to
    the server through [requests], and reports failures with an exception
    class of its own.  The server is the environment's: it answers a request
    knowing the requests sent before.  A response body is a JSON object, a
    JSON array, or text that is not JSON; numbers in it are integers.
    [urllib.parse.urljoin] is the library's and is taken as given. *)

Module GitHubAPI.

(** The function of [requests] that sends the request. *)
Inductive Verb := Get | Post | Put | Delete.

Record Request := mkRequest {
  verb : Verb;
  target : string;
  headers : list (string * string);
  json : Json;
  params : Json
}.

Inductive Body :=
| Object (fields : list (string * Json))
| Array (items : list Json).

Record Response := mkResponse {
  status_code : nat;
  (** what [response.json()] returns, or the message with which it fails *)
  body : string + Body
}.

Inductive Error :=
| GitHubAPIError (message : string) (status : option nat) (response : option Response)
| JSONDecodeError (msg : string)
| KeyError (key : string)
| AttributeError (msg : string)
| Builtin (e : exn).

(** [except requests.RequestException] *)
Definition is_RequestException (e : Error) : bool :=
  match e with Builtin (RequestException _) => true | _ => false end.

(** [str(e)] *)
Definition Error_str (e : Error) : string :=
  match e with
  | GitHubAPIError message _ _ => message
  | JSONDecodeError msg | AttributeError msg => msg
  | KeyError key => Py.repr_str key
  | Builtin e => exn_str e
  end.

(** The levels at which the client logs. *)
Inductive Severity := DEBUG | INFO | ERROR.

(** The module variables, the process environment, the requests sent so far
    (oldest first) and the records handed to the logger. *)
Record State := mkState {
  os_environ : gmap string string;
  GITHUB_USERNAME : option string;
  GITHUB_TOKEN : option string;
  sent : list Request;
  records : list (Severity * string)
}.

Definition set_os_environ (v : gmap string string) (st : State) : State :=
  mkState v (GITHUB_USERNAME st) (GITHUB_TOKEN st) (sent st) (records st).
Definition set_GITHUB_TOKEN (v : option string) (st : State) : State :=
  mkState (os_environ st) (GITHUB_USERNAME st) v (sent st) (records st).
Definition set_sent (v : list Request) (st : State) : State :=
  mkState (os_environ st) (GITHUB_USERNAME st) (GITHUB_TOKEN st) v (records st).
Definition set_records (v : list (Severity * string)) (st : State) : State :=
  mkState (os_environ st) (GITHUB_USERNAME st) (GITHUB_TOKEN st) (sent st) v.

(** The state when the module has been imported: both variables are read
    from the environment. *)
Definition imported (environ : gmap string string) : State :=
  mkState environ (environ !! "GITHUB_USERNAME") (environ !! "GITHUB_TOKEN") [] [].

(** A computation of the client: it ends with a value or an exception, and
    keeps the state it reached either way. *)
Definition Api (A : Type) : Type := State → (Error + A) * State.

#[global] Instance Api_ret : MRet Api := λ A a st, (inr a, st).
#[global] Instance Api_bind : MBind Api :=
  λ A B k m st, match m st with
                | (inr a, st') => k a st'
                | (inl e, st') => (inl e, st')
                end.

Definition throw {A} (e : Error) : Api A := λ st, (inl e, st).

Definition state : Api State := λ st, (inr st, st).

Definition update (f : State → State) : Api unit := λ st, (inr (), f st).

(** [try: m  except <class> as e: h e] *)
Definition try_on {A} (catches : Error → bool) (m : Api A) (h : Error → Api A) : Api A :=
  λ st, match m st with
        | (inr a, st') => (inr a, st')
        | (inl e, st') => if catches e then h e st' else (inl e, st')
        end.

(** [logger.debug], [logger.info], [logger.error] *)
Definition logger (l : Severity) (msg : string) : Api unit :=
  update (λ st, set_records (records st ++ [(l, msg)]) st).

(** ** Values as Python handles them *)

(** [if s:] for a string that may be [None] *)
Definition truthy (s : option string) : bool :=
  match s with
  | Some (String _ _) => true
  | _ => false
  end.

(** An optional string in an f-string *)
Definition fmt (s : option string) : string := default "None" s.

Definition of_Z (n : Z) : string :=
  match n with
  | Zneg p => "-" +:+ Str.of_nat (Pos.to_nat p)
  | _ => Str.of_nat (Z.to_nat n)
  end.

(** [repr(v)] *)
Fixpoint repr (v : Json) : string :=
  match v with
  | JNone => "None"
  | JBool b => if b then "True" else "False"
  | JInt n => of_Z n
  | JStr s => Py.repr_str s
  | JList items => "[" +:+ Str.join ", " (map repr items) +:+ "]"
  | JDict fields =>
      "{" +:+ Str.join ", " (map (λ kv, let '(k, x) := kv in
                                        Py.repr_str k +:+ ": " +:+ repr x) fields)
      +:+ "}"
  end.

(** A value in an f-string: [str(v)] *)
Definition str (v : Json) : string :=
  match v with
  | JStr s => s
  | _ => repr v
  end.

Definition value (b : Body) : Json :=
  match b with
  | Object fields => JDict fields
  | Array items => JList items
  end.

Definition lookup_field (key : string) (fields : list (string * Json)) : option Json :=
  (λ found, found.2.2) <$> list_find (λ kv, kv.1 = key) fields.

(** [b[key]] for a string [key] *)
Definition subscript (b : Body) (key : string) : Api Json :=
  match b with
  | Object fields =>
      match lookup_field key fields with
      | Some v => mret v
      | None => throw (KeyError key)
      end
  | Array _ =>
      throw (Builtin (TypeError "list indices must be integers or slices, not str"))
  end.

(** [b.get(key, default)] *)
Definition get (b : Body) (key : string) (default_value : Json) : Api Json :=
  match b with
  | Object fields => mret (default default_value (lookup_field key fields))
  | Array _ => throw (AttributeError "'list' object has no attribute 'get'")
  end.

(** [response.json()] *)
Definition json_of (response : Response) : Api Body :=
  match body response with
  | inr b => mret b
  | inl msg => throw (JSONDecodeError msg)
  end.

Section Client.

Variable urljoin : string → string → string.

(** The answer to a request, given the requests sent before it: a response,
    or the message of the [RequestException] with which [requests] gives up. *)
Variable server : list Request → Request → string + Response.

(** [requests.get], [requests.post], [requests.put], [requests.delete] *)
Definition requests_send (request : Request) : Api Response :=
  st ← state;
  update (set_sent (sent st ++ [request]));;
  match server (sent st) request with
  | inr response => mret response
  | inl msg => throw (Builtin (RequestException msg))
  end.

Definition BASE_URL : string := "https://api.github.com".

(** *** [_check_token] *)

Definition _check_token : Api unit :=
  st ← state;
  (if negb (truthy (GITHUB_TOKEN st))
   then update (set_GITHUB_TOKEN (os_environ st !! "GITHUB_TOKEN"))
   else mret ());;
  st ← state;
  if negb (truthy (GITHUB_TOKEN st))
  then throw (GitHubAPIError
                "GitHub token not found. Please set the GITHUB_TOKEN environment variable."
                None None)
  else mret ().

(** *** [_make_request] *)

Definition _make_request (method endpoint : string) (data params : Json) : Api Response :=
  _check_token;;
  st ← state;
  let url := urljoin BASE_URL endpoint in
  let headers := [("Authorization", "token " +:+ fmt (GITHUB_TOKEN st));
                  ("Accept", "application/vnd.github.v3+json")] in
  logger DEBUG ("Making " +:+ method +:+ " request to " +:+ url);;
  try_on is_RequestException
    (let lowered := Str.map_chars Str.lower method in
     response ←
       (if bool_decide (lowered = "get")
        then requests_send (mkRequest Get url headers JNone params)
        else if bool_decide (lowered = "post")
        then requests_send (mkRequest Post url headers data JNone)
        else if bool_decide (lowered = "put")
        then requests_send (mkRequest Put url headers data JNone)
        else if bool_decide (lowered = "delete")
        then requests_send (mkRequest Delete url headers JNone JNone)
        else throw (Builtin (ValueError ("Unsupported HTTP method: " +:+ method))));
     if bool_decide (400 ≤ status_code response) then
       let error_msg := "GitHub API error (" +:+ Str.of_nat (status_code response) +:+ ")" in
       error_msg ←
         try_on (λ _, true)
           (decoded ← json_of response;
            error_detail ← get decoded "message" (JStr "No details available");
            mret (error_msg +:+ ": " +:+ str error_detail))
           (λ _, mret error_msg);
       throw (GitHubAPIError error_msg (Some (status_code response)) (Some response))
     else mret response)
    (λ e, throw (GitHubAPIError ("Request failed: " +:+ Error_str e) None None)).

(** *** [create_github_repo] *)

Definition create_github_repo (repo_name : string) (private : bool)
    (description : option string) : Api Body :=
  let data := [("name", JStr repo_name); ("private", JBool private);
               ("auto_init", JBool false)] in
  let data := if truthy description
              then data ++ [("description", JStr (fmt description))] else data in
  response ← _make_request "post" "/user/repos" (JDict data) JNone;
  if bool_decide (status_code response = 201) then
    repo_info ← json_of response;
    html_url ← subscript repo_info "html_url";
    logger INFO ("Repository '" +:+ repo_name +:+ "' created successfully at "
                 +:+ str html_url);;
    mret repo_info
  else
    error_detail ← json_of response;
    logger ERROR ("GitHub API error details: " +:+ repr (value error_detail));;
    message ← get error_detail "message" (JStr "Unknown error");
    throw (GitHubAPIError ("Repository creation failed. Details: " +:+ str message)
             (Some (status_code response)) (Some response)).

(** *** [list_repositories] *)

Definition list_repositories (page per_page : Z) : Api Body :=
  let params := [("page", JInt page); ("per_page", JInt per_page);
                 ("sort", JStr "updated"); ("direction", JStr "desc")] in
  response ← _make_request "get" "/user/repos" JNone (JDict params);
  json_of response.

(** *** [get_repository] *)

Definition get_repository (repo_name : string) : Api Body :=
  st ← state;
  let endpoint := "/repos/" +:+ fmt (GITHUB_USERNAME st) +:+ "/" +:+ repo_name in
  response ← _make_request "get" endpoint JNone JNone;
  json_of response.

(** *** [delete_repository] *)

Definition delete_repository (repo_name : string) : Api bool :=
  st ← state;
  let endpoint := "/repos/" +:+ fmt (GITHUB_USERNAME st) +:+ "/" +:+ repo_name in
  response ← _make_request "delete" endpoint JNone JNone;
  mret (bool_decide (status_code response = 204)).

(** *** [list_branches] *)

Definition list_branches (repo_name : string) : Api Body :=
  st ← state;
  let endpoint := "/repos/" +:+ fmt (GITHUB_USERNAME st) +:+ "/" +:+ repo_name
                  +:+ "/branches" in
  response ← _make_request "get" endpoint JNone JNone;
  json_of response.

(** *** [create_issue] *)

Definition create_issue (repo_name title : string) (body : option string)
    (labels : option (list string)) : Api Body :=
  let data := [("title", JStr title)] in
  let data := if truthy body then data ++ [("body", JStr (fmt body))] else data in
  let data := match labels with
              | Some (label :: more) =>
                  data ++ [("labels", JList (JStr <$> label :: more))]
              | _ => data
              end in
  st ← state;
  let endpoint := "/repos/" +:+ fmt (GITHUB_USERNAME st) +:+ "/" +:+ repo_name
                  +:+ "/issues" in
  response ← _make_request "post" endpoint (JDict data) JNone;
  issue_info ← json_of response;
  html_url ← subscript issue_info "html_url";
  logger INFO ("Issue created: " +:+ str html_url);;
  mret issue_info.

(** *** [list_pull_requests] *)

Definition list_pull_requests (repo_name state_ : string) : Api Body :=
  st ← state;
  let endpoint := "/repos/" +:+ fmt (GITHUB_USERNAME st) +:+ "/" +:+ repo_name
                  +:+ "/pulls" in
  let params := [("state", JStr state_)] in
  response ← _make_request "get" endpoint JNone (JDict params);
  json_of response.

(** *** [create_pull_request] *)

Definition create_pull_request (repo_name branch_name base_branch : string)
    (title body : option string) : Api Body :=
  let title := if negb (truthy title)
               then "Merge " +:+ branch_name +:+ " into " +:+ base_branch
               else fmt title in
  let body := if negb (truthy body)
              then "Automated PR: Merging " +:+ branch_name +:+ " into " +:+ base_branch
              else fmt body in
  let data := [("title", JStr title); ("head", JStr branch_name);
               ("base", JStr base_branch); ("body", JStr body)] in
  st ← state;
  let endpoint := "/repos/" +:+ fmt (GITHUB_USERNAME st) +:+ "/" +:+ repo_name
                  +:+ "/pulls" in
  response ← _make_request "post" endpoint (JDict data) JNone;
  pr_info ← json_of response;
  html_url ← subscript pr_info "html_url";
  logger INFO ("Pull Request created: " +:+ str html_url);;
  mret pr_info.

(** *** The route [create_repo] of [app.py] *)

Definition create_repo (repo_name : string) (private : bool) (description : option string)
    : Api Reply :=
  try_on (λ _, true)
    (repo_info ← create_github_repo repo_name private description;
     mret (Respond (format_response true ("Repository " +:+ repo_name +:+ " created")
                      (JDict [("repo_info", value repo_info)]))))
    (λ e,
       logger ERROR ("Error creating GitHub repository: " +:+ Error_str e);;
       mret (HTTPException 500 (Error_str e))).

End Client.

End GitHubAPI.

(** ** Results of the client in terms of the server's answers *)

Module GitHubSpec.

Import GitHubAPI.

(** The token a call works with: the module's when it has one, otherwise
    the environment's. *)
Definition effective_token (st : State) : option string :=
  if truthy (GITHUB_TOKEN st) then GITHUB_TOKEN st else os_environ st !! "GITHUB_TOKEN".

Definition token_missing : Error :=
  GitHubAPIError "GitHub token not found. Please set the GITHUB_TOKEN environment variable."
                 None None.

(** A call stopped for want of a token, before anything was sent. *)
Definition refused {A} (st : State) (run : (Error + A) * State) : Prop :=
  run.1 = inl token_missing ∧ sent run.2 = sent st.

(** The function of [requests] that [_make_request] calls for a method. *)
Definition verb_of (method : string) : option Verb :=
  let lowered := Str.map_chars Str.lower method in
  if bool_decide (lowered = "get") then Some Get
  else if bool_decide (lowered = "post") then Some Post
  else if bool_decide (lowered = "put") then Some Put
  else if bool_decide (lowered = "delete") then Some Delete
  else None.

(** The request [_make_request] sends. *)
Definition request_for (urljoin : string → string → string) (token : string) (v : Verb)
    (endpoint : string) (data params : Json) : Request :=
  let url := urljoin BASE_URL endpoint in
  let headers := [("Authorization", "token " +:+ token);
                  ("Accept", "application/vnd.github.v3+json")] in
  match v with
  | Get => mkRequest Get url headers JNone params
  | Post => mkRequest Post url headers data JNone
  | Put => mkRequest Put url headers data JNone
  | Delete => mkRequest Delete url headers JNone JNone
  end.

(** The message of the exception raised for an answer with an error status. *)
Definition error_message (response : Response) : string :=
  let error_msg := "GitHub API error (" +:+ Str.of_nat (status_code response) +:+ ")" in
  match body response with
  | inr (Object fields) =>
      error_msg +:+ ": "
      +:+ str (default (JStr "No details available") (lookup_field "message" fields))
  | _ => error_msg
  end.

(** What [_make_request] makes of the server's answer. *)
Definition outcome (answer : string + Response) : Error + Response :=
  match answer with
  | inl msg => inl (GitHubAPIError ("Request failed: " +:+ msg) None None)
  | inr response =>
      if bool_decide (400 ≤ status_code response)
      then inl (GitHubAPIError (error_message response) (Some (status_code response))
                               (Some response))
      else inr response
  end.

(** The payload of [create_github_repo]. *)
Definition repo_payload (repo_name : string) (private : bool) (description : option string)
    : Json :=
  JDict ([("name", JStr repo_name); ("private", JBool private); ("auto_init", JBool false)]
         ++ if truthy description then [("description", JStr (fmt description))] else []).

End GitHubSpec.

(** A server and a client to run the calls with. *)
Module Hub.

Import GitHubAPI.

(** What [urljoin] gives for the base and an endpoint that starts with a
    slash and has no dot segment. *)
Definition urljoin (base endpoint : string) : string := base +:+ endpoint.

Definition conflict : Response :=
  mkResponse 422 (inr (Object [("message", JStr "Repository creation failed.");
                               ("errors", JList [JDict [("field", JStr "name")]])])).

Definition accepted : Response := mkResponse 202 (inr (Object [])).

Definition created : Response :=
  mkResponse 201 (inr (Object [("id", JInt 7);
                               ("html_url", JStr "https://github.com/octo/demo")])).

(** The server creates a repository at the first request and finds the
    name taken afterwards; it is slow to delete, and cannot be reached for
    listings. *)
Definition server (before : list Request) (request : Request) : string + Response :=
  match verb request, before with
  | Post, [] => inr created
  | Post, _ => inr conflict
  | Delete, _ => inr accepted
  | _, _ => inl "connection refused"
  end.

(** The module was imported with a token and without an account name. *)
Definition client : State := imported {[ "GITHUB_TOKEN" := "t0" ]}.

(** The module was imported without credentials. *)
Definition anonymous : State := imported ∅.

(** The credentials the application sets later. *)
Definition later : gmap string string :=
  {[ "GITHUB_USERNAME" := "octo"; "GITHUB_TOKEN" := "t1" ]}.

(** The client after it has created a repository. *)
Definition busy : State := (create_github_repo urljoin server "demo" true None client).2.

End Hub.

(** * Properties *)

#[local] Arguments String.append : simpl never.
#[local] Arguments FS.makedirs : simpl never.
#[local] Arguments FS.write_text : simpl never.
#[local] Arguments FS.listdir : simpl never.
#[local] Arguments FS.exists_ : simpl never.
#[local] Arguments FS.isdir : simpl never.
#[local] Arguments FS.accessible : simpl never.
#[local] Arguments FS.norm : simpl never.
#[local] Arguments Path.join : simpl never.
#[local] Arguments Path.dirname : simpl never.
#[local] Arguments Path.basename : simpl never.
#[local] Arguments Str.of_nat : simpl never.
#[local] Arguments Str.join : simpl never.
#[local] Arguments Str.strip : simpl never.
#[local] Arguments Str.take : simpl never.
#[local] Arguments Str.capitalize : simpl never.
#[local] Arguments Str.endswith : simpl never.
#[local] Arguments list_of_set : simpl never.
#[local] Arguments origin_url_for : simpl never.
#[local] Arguments gitignore_url_for : simpl never.
#[local] Arguments detect_project_type : simpl never.
#[local] Arguments generate_gitignore : simpl never.
#[local] Arguments Git.refusal : simpl never.

(** Unfolds the monad, so that [cbn] runs a computation up to the next
    question it has to ask of the state. *)
Ltac munfold :=
  unfold mbind, mret, M_bind, M_ret, bind, ret, raise, get, modify,
    fs_step, try_except_on, try_except, when, step, logger in *.

(** Unfolds the commands of the version-control tool. *)
Ltac gunfold :=
  unfold Git.checkout, Git.checkout_b, Git.branch_m, Git.commit_allow_empty,
    Git.add_all, Git.add, Git.index_commit, Git.merge, Git.merge_message,
    Git.merge_abort, Git.push_set_upstream, Git.delete_remote, Git.create_remote,
    Git.remote_refs, Git.active_branch_name, Git.issue in *.

(** Evaluates the set operations of [detect_project_type] on literals. *)
Ltac eval_sets :=
  repeat match goal with
    | |- context [set_add ?x ?l] =>
        let v := eval vm_compute in (set_add x l) in change (set_add x l) with v
    | |- context [bool_decide (?l = [])] =>
        let v := eval vm_compute in (bool_decide (l = [])) in
        change (bool_decide (l = [])) with v
    end.

(** Closes a goal [∃ lg, (_, set_log .. w) = (_, set_log (log w ++ lg) w)]. *)
Ltac log_tail :=
  unfold set_log; cbn; rewrite <-?app_assoc; cbn; eexists; reflexivity.

(** ** Strings and paths on examples *)

Example endswith_py : Str.endswith "setup.py" ".py" = true.
Proof. reflexivity. Qed.

Example endswith_short : Str.endswith "py" ".py" = false.
Proof. reflexivity. Qed.

Example strip_both : Str.strip "
 a b
" = "a b".
Proof. reflexivity. Qed.

Example capitalize_general : Str.capitalize "general" = "General".
Proof. reflexivity. Qed.

Example of_nat_120 : Str.of_nat 120 = "120".
Proof. reflexivity. Qed.

Example split_nested : Path.split "/srv/repos/demo" = ("/srv/repos", "demo").
Proof. reflexivity. Qed.

Example split_trailing : Path.split "/srv/demo/" = ("/srv/demo", "").
Proof. reflexivity. Qed.

Example split_root : Path.split "/demo" = ("/", "demo").
Proof. reflexivity. Qed.

Example split_plain : Path.split "demo" = ("", "demo").
Proof. reflexivity. Qed.

Example join_rel : Path.join "/srv/demo" ".gitignore" = "/srv/demo/.gitignore".
Proof. reflexivity. Qed.

Example join_abs : Path.join "/srv/demo" "/etc/x" = "/etc/x".
Proof. reflexivity. Qed.

Example basename_trailing_slash : Path.basename "/srv/demo/" = "".
Proof. reflexivity. Qed.

Example origin_url_demo :
  origin_url_for "octo" "/srv/demo" = "https://github.com/octo/demo.git".
Proof. reflexivity. Qed.

Example origin_url_trailing_slash :
  origin_url_for "octo" "/srv/demo/" = "https://github.com/octo/.git".
Proof. reflexivity. Qed.

(** ** The monad *)

Lemma try_except_bind_ok {S A B} (m : M S A) (k : A → M S B) (h : exn → M S B) s a s1 :
  m s = (Ok a, s1) → try_except (m ≫= k) h s = try_except (k a) h s1.
Proof. intros Hm. unfold try_except, mbind, M_bind, bind. by rewrite Hm. Qed.

Lemma same_disk_set_log w w' :
  fs w' = fs w → repos w' = repos w → w' = set_log (log w') w.
Proof. destruct w, w'; cbn. by intros -> ->. Qed.

(** ** Reading the repository *)

Lemma py_in_head_names r name :
  py_in name (Git.head_names r) = bool_decide (is_Some (heads r !! name)).
Proof.
  unfold py_in, Git.head_names. apply bool_decide_ext.
  rewrite elem_of_elements. apply elem_of_dom.
Qed.

Lemma py_in_head_names_None r name :
  heads r !! name = None → py_in name (Git.head_names r) = false.
Proof.
  intros H. rewrite py_in_head_names, H. apply bool_decide_eq_false. by intros [? ?].
Qed.

Lemma py_in_head_names_Some r name c :
  heads r !! name = Some c → py_in name (Git.head_names r) = true.
Proof.
  intros H. rewrite py_in_head_names, H. apply bool_decide_eq_true. eauto.
Qed.

Lemma has_remote_true r name rm :
  remotes r !! name = Some rm → Git.has_remote name r = true.
Proof. intros H. unfold Git.has_remote. rewrite H. apply bool_decide_eq_true. eauto. Qed.

Lemma has_remote_false r name :
  remotes r !! name = None → Git.has_remote name r = false.
Proof.
  intros H. unfold Git.has_remote. rewrite H. apply bool_decide_eq_false. by intros [? ?].
Qed.

Lemma has_head_true r name c :
  heads r !! name = Some c → Git.has_head name r = true.
Proof. intros H. unfold Git.has_head. rewrite H. apply bool_decide_eq_true. eauto. Qed.

Lemma has_head_false r name :
  heads r !! name = None → Git.has_head name r = false.
Proof.
  intros H. unfold Git.has_head. rewrite H. apply bool_decide_eq_false. by intros [? ?].
Qed.

(** Whether a checkout is refused depends on the local changes and on what
    is checked out, not on the rest of the metadata. *)
Lemma refusal_ext env p r r' c :
  staged r = staged r' → unstaged r = unstaged r' → HEAD r = HEAD r' →
  heads r = heads r' →
  Git.refusal env p r c = Git.refusal env p r' c.
Proof.
  unfold Git.refusal, Git.is_dirty, Git.local_changes, Git.tip.
  by intros -> -> -> ->.
Qed.

Lemma refusal_clean env p r c :
  staged r = [] → unstaged r = [] → Git.refusal env p r c = None.
Proof. unfold Git.refusal, Git.is_dirty. by intros -> ->. Qed.

Lemma py_in_remote_names r name :
  py_in name (Git.remote_names r) = Git.has_remote name r.
Proof.
  unfold py_in, Git.remote_names, Git.has_remote. apply bool_decide_ext.
  rewrite elem_of_elements. apply elem_of_dom.
Qed.

(** ** The filesystem *)

Lemma listdir_exists fs p files : FS.listdir fs p = inr files → FS.exists_ fs p = true.
Proof.
  unfold FS.listdir, FS.exists_. intros H.
  destruct (FS.node_at fs p) as [n|]; [|done].
  apply bool_decide_eq_true. eauto.
Qed.

Lemma isdir_exists fs p : FS.isdir fs p = true → FS.exists_ fs p = true.
Proof.
  unfold FS.isdir, FS.exists_. destruct (FS.node_at fs p); [|done].
  intros _. apply bool_decide_eq_true. eauto.
Qed.

Lemma accessible_isdir fs p : FS.accessible fs p = true → FS.isdir fs p = true.
Proof.
  unfold FS.accessible, FS.isdir. by destruct (FS.node_at fs p) as [[?|? ?]|].
Qed.

Lemma accessible_listdir fs p :
  FS.accessible fs p = true ↔ ∃ entries, FS.listdir fs p = inr entries.
Proof.
  unfold FS.accessible, FS.listdir.
  destruct (FS.node_at fs p) as [[?|es [|]]|]; split; try done; eauto;
    by intros [? ?].
Qed.

(** [os.path.split] never lengthens a path, so that the recursion of
    [os.makedirs] on the head of the path ends: any fuel above the length of
    the name gives the same result. *)
Lemma cut_length s : Str.len (Path.cut s).1 + Str.len (Path.cut s).2 = Str.len s.
Proof.
  unfold Str.len. induction s as [|ch s IH]; cbn; [done|].
  destruct (Path.cut s) as [h t]. cbn in IH.
  destruct h as [|ch' h]; cbn in *.
  - destruct (bool_decide (ch = Path.slash)); cbn; lia.
  - lia.
Qed.

Lemma rstrip_by_length p s : Str.len (Str.rstrip_by p s) ≤ Str.len s.
Proof.
  unfold Str.len. induction s as [|ch s IH]; cbn; [done|].
  destruct (Str.rstrip_by p s) as [|ch' s']; cbn in *.
  - destruct (p ch); cbn; lia.
  - lia.
Qed.

Lemma split_length p : Str.len (Path.split p).1 + Str.len (Path.split p).2 ≤ Str.len p.
Proof.
  unfold Path.split. pose proof (cut_length p) as Hcut.
  destruct (Path.cut p) as [h t]. cbn in *.
  pose proof (rstrip_by_length (λ c, bool_decide (c = Path.slash)) h).
  destruct (Path.all_slashes h); unfold Str.len in *; cbn; lia.
Qed.

Lemma len_pos s : s ≠ "" → 0 < Str.len s.
Proof. destruct s; [done|]. unfold Str.len. cbn. lia. Qed.

Lemma makedirs_fuel_enough n : ∀ m fs name,
  Str.len name < n → Str.len name < m →
  FS.makedirs_fuel n fs name = FS.makedirs_fuel m fs name.
Proof.
  induction n as [|n IH]; intros m fs name Hn Hm; [lia|].
  destruct m as [|m]; [lia|]. cbn [FS.makedirs_fuel].
  pose proof (split_length name) as Hsplit.
  destruct (Path.split name) as [head tail]. cbn in Hsplit.
  destruct (bool_decide (tail = "")) eqn:Htail.
  - pose proof (split_length head) as Hsplit'.
    destruct (Path.split head) as [head' tail']. cbn in Hsplit'.
    destruct (bool_decide (head' ≠ "")) eqn:Hh; cbn; [|done].
    destruct (bool_decide (tail' ≠ "")) eqn:Ht; cbn; [|done].
    destruct (FS.exists_ fs head'); cbn; [done|].
    apply bool_decide_eq_true in Ht. apply len_pos in Ht.
    rewrite (IH m fs head') by (unfold Str.len in *; lia). done.
  - destruct (bool_decide (head ≠ "")) eqn:Hh; cbn; [|done].
    destruct (bool_decide (tail ≠ "")) eqn:Ht; cbn; [|done].
    destruct (FS.exists_ fs head); cbn; [done|].
    apply bool_decide_eq_true in Ht. apply len_pos in Ht.
    rewrite (IH m fs head) by (unfold Str.len in *; lia). done.
Qed.

Lemma makedirs_fuel_makedirs n fs name :
  Str.len name < n → FS.makedirs_fuel n fs name = FS.makedirs fs name.
Proof. intros Hn. unfold FS.makedirs. apply makedirs_fuel_enough; lia. Qed.

Example makedirs_nested :
  FS.isdir (Demo.created (fs Demo.world) "/srv/a/b/c") "/srv/a/b/" = true.
Proof. vm_compute. reflexivity. Qed.

Example makedirs_below_file :
  FS.makedirs (fs Demo.world) "/srv/node/package.json/x"
  = inl (OSError NotADirectoryError "/srv/node/package.json/x").
Proof. vm_compute. reflexivity. Qed.

(** A successful write leaves a file with exactly the text written. *)
Lemma write_text_lookup fs p text fs' :
  FS.write_text fs p text = inr fs' → fs' !! FS.norm p = Some (FileNode text).
Proof.
  unfold FS.write_text, FS.link.
  destruct (FS.node_at fs p) as [[old|es ok]|].
  - intros [= <-]. apply lookup_insert_eq.
  - done.
  - destruct (bool_decide (Path.basename (FS.norm p) = "")); [done|].
    destruct (fs !! FS.parent_key p) as [[old|es [|]]|]; try done.
    destruct (FS.dot_name (Path.basename (FS.norm p))); [done|].
    intros [= <-]. apply lookup_insert_eq.
Qed.

(** ** Merge *)

(** C4.  When the source or the target branch does not exist locally,
    [merge_branch] raises a [ValueError] whose message names a missing branch
    (the source when it is missing, the target otherwise), and nothing has
    happened: the filesystem and every repository are as before, so no
    checkout and no merge was sent to the tool. *)
Theorem merge_branch_missing_branch env w repo_path r source_branch target_branch :
  repos w !! FS.norm repo_path = Some r →
  heads r !! source_branch = None ∨ heads r !! target_branch = None →
  ∃ msg w',
    merge_branch env repo_path source_branch target_branch w = (Raise (ValueError msg), w')
    ∧ msg = (if bool_decide (heads r !! source_branch = None)
             then "Source branch '" +:+ source_branch +:+ "' does not exist!"
             else "Target branch '" +:+ target_branch +:+ "' does not exist!")
    ∧ fs w' = fs w ∧ repos w' = repos w
    ∧ issued <$> repos w' !! FS.norm repo_path = Some (issued r).
Proof.
  intros Hr Hmiss.
  unfold merge_branch, Repo_open, repo_attr. munfold.
  cbn. rewrite Hr. cbn. rewrite Hr.
  destruct (heads r !! source_branch) as [c|] eqn:Hs.
  - destruct Hmiss as [|Ht]; [done|].
    rewrite (py_in_head_names_Some _ _ _ Hs). cbn. rewrite Hr. cbn.
    rewrite (py_in_head_names_None _ _ Ht). cbn.
    eexists _, _. repeat split. cbn. by rewrite Hr.
  - rewrite (py_in_head_names_None _ _ Hs). cbn.
    eexists _, _. repeat split. cbn. by rewrite Hr.
Qed.

Lemma merge_branch_missing_branch_witness :
  (repos Demo.world !! FS.norm "/srv/demo" = Some Demo.repo
   ∧ (heads Demo.repo !! "main" = None ∨ heads Demo.repo !! "gone" = None))
  ∧ (merge_branch Demo.env "/srv/demo" "main" "gone" Demo.world).1
    = Raise (ValueError "Target branch 'gone' does not exist!").
Proof.
  assert (H1 : repos Demo.world !! FS.norm "/srv/demo" = Some Demo.repo)
    by (vm_compute; reflexivity).
  assert (H2 : heads Demo.repo !! "main" = None ∨ heads Demo.repo !! "gone" = None)
    by (right; vm_compute; reflexivity).
  split; [exact (conj H1 H2)|].
  destruct (merge_branch_missing_branch Demo.env Demo.world "/srv/demo" Demo.repo
              "main" "gone" H1 H2) as (msg & w' & Hrun & Hmsg & _).
  rewrite Hrun, Hmsg. reflexivity.
Defined.

(** The conflict path of [merge_branch].  When both branches exist, a branch that has
    commits is checked out, no merge is already under way, local changes do
    not stand in the way of switching between the two branches, and the merge
    of the source into the target stops on a conflict, [merge_branch] aborts
    the merge, checks the original branch out again when it is not the
    target, and returns [False]: the branches, the checked-out branch, the
    staged and the modified paths are what they were, and the commands sent
    were the checkout, the merge, the abort and, when needed, the checkout
    back. *)
Theorem merge_branch_conflict env w repo_path r source_branch target_branch
    current_branch s t c paths :
  repos w !! FS.norm repo_path = Some r →
  heads r !! source_branch = Some s →
  heads r !! target_branch = Some t →
  HEAD r = OnBranch current_branch →
  heads r !! current_branch = Some c →
  merge_head r = None →
  Git.refusal env (FS.norm repo_path) r t = None →
  Git.refusal env (FS.norm repo_path) (set_HEAD (OnBranch target_branch) r) c = None →
  s ≠ t →
  merge_outcome env (FS.norm repo_path) (Git.local_changes r) s t = Conflict paths →
  ∃ w',
    merge_branch env repo_path source_branch target_branch w = (Ok false, w')
    ∧ fs w' = fs w
    ∧ repos w' = <[FS.norm repo_path :=
                     after_aborted_merge source_branch target_branch current_branch r]>
                   (repos w).
Proof.
  intros Hr Hs Ht Hcur Hc Hm Hgo Hback Hst Hout.
  unfold merge_branch, Repo_open, repo_attr, on_repo. munfold.
  cbn. rewrite Hr. cbn. rewrite Hr.
  rewrite (py_in_head_names_Some _ _ _ Hs). cbn. rewrite Hr.
  rewrite (py_in_head_names_Some _ _ _ Ht). cbn. rewrite Hr.
  gunfold. munfold. cbn. rewrite Hcur. cbn. rewrite lookup_insert_eq. cbn.
  rewrite Hm, Ht. cbn.
  erewrite (refusal_ext _ _ _ r t), Hgo by reflexivity. cbn.
  rewrite lookup_insert_eq. cbn.
  rewrite Hm, Hs, Ht. cbn.
  rewrite bool_decide_eq_false_2 by done. unfold Git.local_changes in *. cbn.
  rewrite Hout. cbn.
  rewrite lookup_insert_eq. cbn.
  unfold after_aborted_merge.
  destruct (bool_decide (current_branch ≠ target_branch)) eqn:Hne; cbn.
  - rewrite lookup_insert_eq. cbn. rewrite Hc. cbn.
    erewrite (refusal_ext _ _ _ (set_HEAD (OnBranch target_branch) r) c), Hback
      by reflexivity.
    cbn.
    eexists. split; [reflexivity|]. split; [reflexivity|]. cbn.
    rewrite !insert_insert_eq. f_equal.
    destruct r; cbn in *. subst. unfold set_issued; cbn.
    by rewrite <-!app_assoc.
  - eexists. split; [reflexivity|]. split; [reflexivity|]. cbn.
    rewrite !insert_insert_eq. f_equal.
    apply bool_decide_eq_false in Hne. apply dec_stable in Hne. subst.
    destruct r; cbn in *. subst. unfold set_issued; cbn.
    by rewrite <-!app_assoc.
Qed.

Lemma merge_branch_conflict_witness :
  (repos Demo.world !! FS.norm "/srv/demo" = Some Demo.repo
   ∧ heads Demo.repo !! "topic" = Some 3
   ∧ heads Demo.repo !! "main" = Some 1
   ∧ HEAD Demo.repo = OnBranch "topic"
   ∧ merge_head Demo.repo = None
   ∧ Git.refusal Demo.env (FS.norm "/srv/demo") Demo.repo 1 = None
   ∧ Git.refusal Demo.env (FS.norm "/srv/demo") (set_HEAD (OnBranch "main") Demo.repo) 3
     = None
   ∧ 3 ≠ 1
   ∧ merge_outcome Demo.env (FS.norm "/srv/demo") (Git.local_changes Demo.repo) 3 1
     = Conflict ["x"])
  ∧ (merge_branch Demo.env "/srv/demo" "topic" "main" Demo.world).1 = Ok false.
Proof.
  assert (H1 : repos Demo.world !! FS.norm "/srv/demo" = Some Demo.repo)
    by (vm_compute; reflexivity).
  assert (H2 : heads Demo.repo !! "topic" = Some 3) by (vm_compute; reflexivity).
  assert (H3 : heads Demo.repo !! "main" = Some 1) by (vm_compute; reflexivity).
  assert (H4 : HEAD Demo.repo = OnBranch "topic") by reflexivity.
  assert (H5 : merge_head Demo.repo = None) by reflexivity.
  assert (H6 : 3 ≠ 1) by lia.
  assert (H7 : merge_outcome Demo.env (FS.norm "/srv/demo") (Git.local_changes Demo.repo)
                 3 1 = Conflict ["x"])
    by reflexivity.
  assert (H8 : Git.refusal Demo.env (FS.norm "/srv/demo") Demo.repo 1 = None)
    by reflexivity.
  assert (H9 : Git.refusal Demo.env (FS.norm "/srv/demo")
                 (set_HEAD (OnBranch "main") Demo.repo) 3 = None)
    by reflexivity.
  split; [repeat split; assumption|].
  destruct (merge_branch_conflict Demo.env Demo.world "/srv/demo" Demo.repo
              "topic" "main" "topic" 3 1 3 ["x"] H1 H2 H3 H4 H2 H5 H8 H9 H6 H7)
    as (w' & Hrun & _).
  rewrite Hrun. reflexivity.
Defined.

(** X10.  A merge the tool refuses.  When the merge command fails without
    starting a merge (unrelated histories, say), there is nothing to abort:
    [merge_branch] raises the error of [git merge --abort] rather than
    returning [False], and it does not return to the branch that was checked
    out: the target stays checked out.  The commands sent are the checkout,
    the merge and the abort. *)
Lemma merge_branch_refused env w repo_path r source_branch target_branch
    current_branch s t why :
  repos w !! FS.norm repo_path = Some r →
  heads r !! source_branch = Some s →
  heads r !! target_branch = Some t →
  HEAD r = OnBranch current_branch →
  merge_head r = None →
  Git.refusal env (FS.norm repo_path) r t = None →
  s ≠ t →
  merge_outcome env (FS.norm repo_path) (Git.local_changes r) s t = Refuse why →
  ∃ w' r',
    merge_branch env repo_path source_branch target_branch w
    = (Raise (GitCommandError "fatal: There is no merge to abort (MERGE_HEAD missing)."), w')
    ∧ repos w' !! FS.norm repo_path = Some r'
    ∧ HEAD r' = OnBranch target_branch
    ∧ issued r' = issued r ++ [CmdCheckout target_branch; CmdMerge source_branch;
                               CmdMergeAbort].
Proof.
  intros Hr Hs Ht Hcur Hm Hgo Hst Hout.
  unfold merge_branch, Repo_open, repo_attr, on_repo. munfold.
  cbn. rewrite Hr. cbn. rewrite Hr.
  rewrite (py_in_head_names_Some _ _ _ Hs). cbn. rewrite Hr.
  rewrite (py_in_head_names_Some _ _ _ Ht). cbn. rewrite Hr.
  gunfold. munfold. cbn. rewrite Hcur. cbn. rewrite lookup_insert_eq. cbn.
  rewrite Hm, Ht. cbn.
  erewrite (refusal_ext _ _ _ r t), Hgo by reflexivity. cbn.
  rewrite lookup_insert_eq. cbn.
  rewrite Hm, Hs, Ht. cbn.
  rewrite bool_decide_eq_false_2 by done. unfold Git.local_changes in *. cbn.
  rewrite Hout. cbn.
  rewrite lookup_insert_eq. cbn. rewrite Hm. cbn.
  eexists _, _. split; [reflexivity|]. cbn. rewrite lookup_insert_eq.
  split; [reflexivity|]. cbn. split; [reflexivity|]. by rewrite <-!app_assoc.
Qed.

Lemma merge_branch_refused_witness :
  (repos Demo.world !! FS.norm "/srv/demo" = Some Demo.repo
   ∧ heads Demo.repo !! "imported" = Some 2
   ∧ heads Demo.repo !! "main" = Some 1
   ∧ HEAD Demo.repo = OnBranch "topic"
   ∧ merge_head Demo.repo = None
   ∧ Git.refusal Demo.env (FS.norm "/srv/demo") Demo.repo 1 = None
   ∧ 2 ≠ 1
   ∧ merge_outcome Demo.env (FS.norm "/srv/demo") (Git.local_changes Demo.repo) 2 1
     = Refuse "fatal: refusing to merge unrelated histories")
  ∧ (merge_branch Demo.env "/srv/demo" "imported" "main" Demo.world).1
    = Raise (GitCommandError "fatal: There is no merge to abort (MERGE_HEAD missing).").
Proof.
  assert (H1 : repos Demo.world !! FS.norm "/srv/demo" = Some Demo.repo)
    by (vm_compute; reflexivity).
  assert (H2 : heads Demo.repo !! "imported" = Some 2) by (vm_compute; reflexivity).
  assert (H3 : heads Demo.repo !! "main" = Some 1) by (vm_compute; reflexivity).
  assert (H4 : HEAD Demo.repo = OnBranch "topic") by reflexivity.
  assert (H5 : merge_head Demo.repo = None) by reflexivity.
  assert (H6 : Git.refusal Demo.env (FS.norm "/srv/demo") Demo.repo 1 = None) by reflexivity.
  assert (H7 : 2 ≠ 1) by lia.
  assert (H8 : merge_outcome Demo.env (FS.norm "/srv/demo") (Git.local_changes Demo.repo) 2 1
               = Refuse "fatal: refusing to merge unrelated histories") by reflexivity.
  split; [repeat split; assumption|].
  destruct (merge_branch_refused Demo.env Demo.world "/srv/demo" Demo.repo
              "imported" "main" "topic" 2 1 _ H1 H2 H3 H4 H5 H6 H7 H8)
    as (w' & r' & Hrun & _).
  rewrite Hrun. reflexivity.
Defined.

(** X9.  A clean merge.  When both branches exist, there are no local
    changes and the tool merges the two tips, [merge_branch] returns [True]:
    the target gains one merge commit whose parents are its former tip and
    the tip of the source, no other branch moves, and the branch that was
    checked out before the call is checked out again.  The message of the
    commit is the tool's: [Merge branch '<source>'], followed by
    [ into <target>] unless the target is [main] or [master]. *)
Lemma merge_branch_merged env w repo_path r source_branch target_branch
    current_branch s t c :
  repos w !! FS.norm repo_path = Some r →
  heads r !! source_branch = Some s →
  heads r !! target_branch = Some t →
  HEAD r = OnBranch current_branch →
  heads r !! current_branch = Some c →
  merge_head r = None →
  staged r = [] → unstaged r = [] →
  s ≠ t →
  merge_outcome env (FS.norm repo_path) [] s t = Merged →
  ∃ w' r',
    merge_branch env repo_path source_branch target_branch w = (Ok true, w')
    ∧ repos w' !! FS.norm repo_path = Some r'
    ∧ HEAD r' = OnBranch current_branch
    ∧ heads r' = <[target_branch := length (commits r)]> (heads r)
    ∧ commits r' = commits r
        ++ [mkCommit ("Merge branch '" +:+ source_branch +:+ "'"
                      +:+ (if bool_decide (target_branch = "main")
                              || bool_decide (target_branch = "master")
                           then "" else " into " +:+ target_branch))
                     [t; s] []].
Proof.
  intros Hr Hs Ht Hcur Hc Hm Hst1 Hst2 Hst Hout.
  unfold merge_branch, Repo_open, repo_attr, on_repo. munfold.
  cbn. rewrite Hr. cbn. rewrite Hr.
  rewrite (py_in_head_names_Some _ _ _ Hs). cbn. rewrite Hr.
  rewrite (py_in_head_names_Some _ _ _ Ht). cbn. rewrite Hr.
  gunfold. munfold. cbn. rewrite Hcur. cbn. rewrite lookup_insert_eq. cbn.
  rewrite Hm, Ht. cbn. rewrite refusal_clean by done. cbn.
  rewrite lookup_insert_eq. cbn.
  rewrite Hm, Hs, Ht. cbn.
  rewrite bool_decide_eq_false_2 by done. unfold Git.local_changes. cbn.
  rewrite Hst1, Hst2. cbn. rewrite Hout. cbn.
  destruct (bool_decide (current_branch ≠ target_branch)) eqn:Hne; cbn.
  - rewrite lookup_insert_eq. cbn.
    apply bool_decide_eq_true in Hne.
    rewrite lookup_insert_ne by done. rewrite Hc, Hm. cbn.
    rewrite refusal_clean by done. cbn.
    eexists _, _. split; [reflexivity|]. cbn. rewrite lookup_insert_eq.
    split; [reflexivity|]. cbn. unfold Git.tip. cbn. rewrite Ht, Hst1. done.
  - apply bool_decide_eq_false in Hne. apply dec_stable in Hne. subst.
    eexists _, _. split; [reflexivity|]. cbn. rewrite lookup_insert_eq.
    split; [reflexivity|]. cbn. unfold Git.tip. cbn. rewrite Ht, Hst1. done.
Qed.

Lemma merge_branch_merged_witness :
  (repos Scenes.apart_world !! FS.norm "/srv/tidy" = Some Scenes.apart
   ∧ heads Scenes.apart !! "main" = Some 1
   ∧ heads Scenes.apart !! "feature" = Some 2
   ∧ HEAD Scenes.apart = OnBranch "main"
   ∧ merge_head Scenes.apart = None
   ∧ staged Scenes.apart = [] ∧ unstaged Scenes.apart = []
   ∧ 1 ≠ 2
   ∧ merge_outcome Demo.env (FS.norm "/srv/tidy") [] 1 2 = Merged)
  ∧ (merge_branch Demo.env "/srv/tidy" "main" "feature" Scenes.apart_world).1 = Ok true
  ∧ (λ r, message <$> last (commits r))
      <$> repos (merge_branch Demo.env "/srv/tidy" "main" "feature" Scenes.apart_world).2
            !! FS.norm "/srv/tidy"
    = Some (Some "Merge branch 'main' into feature").
Proof.
  assert (H1 : repos Scenes.apart_world !! FS.norm "/srv/tidy" = Some Scenes.apart)
    by (vm_compute; reflexivity).
  assert (H2 : heads Scenes.apart !! "main" = Some 1) by (vm_compute; reflexivity).
  assert (H3 : heads Scenes.apart !! "feature" = Some 2) by (vm_compute; reflexivity).
  assert (H4 : HEAD Scenes.apart = OnBranch "main") by reflexivity.
  assert (H5 : merge_head Scenes.apart = None) by reflexivity.
  assert (H6 : staged Scenes.apart = []) by reflexivity.
  assert (H7 : unstaged Scenes.apart = []) by reflexivity.
  assert (H8 : 1 ≠ 2) by lia.
  assert (H9 : merge_outcome Demo.env (FS.norm "/srv/tidy") [] 1 2 = Merged) by reflexivity.
  split; [repeat split; assumption|].
  destruct (merge_branch_merged Demo.env Scenes.apart_world "/srv/tidy" Scenes.apart
              "main" "feature" "main" 1 2 1 H1 H2 H3 H4 H2 H5 H6 H7 H8 H9)
    as (w' & r' & Hrun & Hrepo & _ & _ & Hcommits).
  rewrite Hrun. split; [reflexivity|]. cbn [snd]. rewrite Hrepo. cbn.
  rewrite Hcommits. vm_compute. reflexivity.
Defined.

(** The message on both kinds of target. *)
Example merge_branch_messages :
  (λ r, message <$> last (commits r))
    <$> repos (merge_branch Demo.env "/srv/tidy" "feature" "main" Scenes.world).2 !! "/srv/tidy"
  = Some (Some "Merge branch 'feature'")
  ∧ Git.merge_message "topic" (set_HEAD (OnBranch "master") Demo.legacy)
    = "Merge branch 'topic'"
  ∧ Git.merge_message "topic" (set_HEAD (Detached 0) Demo.legacy)
    = "Merge branch 'topic' into HEAD".
Proof. repeat split; vm_compute; reflexivity. Qed.

(** C1, where the code departs from it.  When both branches exist, a
    branch is checked out, no merge is under way, local changes do not stand
    in the way of checking the target out, and the merge command fails
    without starting a merge (the tool refuses: unrelated histories, say),
    [merge_branch] does not return [False].  The handler of the failed merge
    sends [git merge --abort] whether or not a merge is in progress; with
    none in progress that command fails in turn, inside the handler, and its
    error leaves the function through the outer handler.  The step that
    returns to the original branch is skipped: the target stays checked out,
    also when another branch was checked out before the call.  Commits and
    branches are untouched, and the commands sent are the checkout, the merge
    and the abort. *)
Theorem merge_branch_aborts_without_merge env w repo_path r source_branch target_branch
    current_branch s t why :
  repos w !! FS.norm repo_path = Some r →
  heads r !! source_branch = Some s →
  heads r !! target_branch = Some t →
  HEAD r = OnBranch current_branch →
  merge_head r = None →
  Git.refusal env (FS.norm repo_path) r t = None →
  s ≠ t →
  merge_outcome env (FS.norm repo_path) (Git.local_changes r) s t = Refuse why →
  let run := merge_branch env repo_path source_branch target_branch w in
  (Git.merge env (FS.norm repo_path) source_branch (set_HEAD (OnBranch target_branch) r)).1
  = Raise (GitCommandError why)
  ∧ run.1 ≠ Ok false
  ∧ ∃ msg r',
      run.1 = Raise (GitCommandError msg)
      ∧ repos run.2 !! FS.norm repo_path = Some r'
      ∧ merge_head r' = None
      ∧ commits r' = commits r ∧ heads r' = heads r
      ∧ HEAD r' = OnBranch target_branch
      ∧ (current_branch ≠ target_branch → HEAD r' ≠ HEAD r)
      ∧ issued r' = issued r ++ [CmdCheckout target_branch; CmdMerge source_branch;
                                 CmdMergeAbort].
Proof.
  intros Hr Hs Ht Hcur Hm Hgo Hst Hout run.
  split.
  { gunfold. munfold. cbn. rewrite Hm, Hs. unfold Git.tip. cbn. rewrite Ht. cbn.
    rewrite bool_decide_eq_false_2 by done. unfold Git.local_changes in *. cbn.
    by rewrite Hout. }
  subst run.
  unfold merge_branch, Repo_open, repo_attr, on_repo. munfold.
  cbn. rewrite Hr. cbn. rewrite Hr.
  rewrite (py_in_head_names_Some _ _ _ Hs). cbn. rewrite Hr.
  rewrite (py_in_head_names_Some _ _ _ Ht). cbn. rewrite Hr.
  gunfold. munfold. cbn. rewrite Hcur. cbn. rewrite lookup_insert_eq. cbn.
  rewrite Hm, Ht. cbn.
  erewrite (refusal_ext _ _ _ r t), Hgo by reflexivity. cbn.
  rewrite lookup_insert_eq. cbn.
  rewrite Hm, Hs, Ht. cbn.
  rewrite bool_decide_eq_false_2 by done. unfold Git.local_changes in *. cbn.
  rewrite Hout. cbn.
  rewrite lookup_insert_eq. cbn. rewrite Hm. cbn.
  split; [done|].
  eexists _, _. split; [reflexivity|]. rewrite lookup_insert_eq.
  split; [reflexivity|]. cbn.
  split_and!; try done.
  - congruence.
  - by rewrite <-!app_assoc.
Qed.

Lemma merge_branch_aborts_without_merge_witness :
  (repos Demo.world !! FS.norm "/srv/demo" = Some Demo.repo
   ∧ heads Demo.repo !! "imported" = Some 2
   ∧ heads Demo.repo !! "main" = Some 1
   ∧ HEAD Demo.repo = OnBranch "topic"
   ∧ merge_head Demo.repo = None
   ∧ Git.refusal Demo.env (FS.norm "/srv/demo") Demo.repo 1 = None
   ∧ 2 ≠ 1
   ∧ merge_outcome Demo.env (FS.norm "/srv/demo") (Git.local_changes Demo.repo) 2 1
     = Refuse "fatal: refusing to merge unrelated histories")
  ∧ (Git.merge Demo.env "/srv/demo" "imported" (set_HEAD (OnBranch "main") Demo.repo)).1
    = Raise (GitCommandError "fatal: refusing to merge unrelated histories")
  ∧ (merge_branch Demo.env "/srv/demo" "imported" "main" Demo.world).1 ≠ Ok false
  ∧ HEAD <$> repos (merge_branch Demo.env "/srv/demo" "imported" "main" Demo.world).2
               !! FS.norm "/srv/demo"
    = Some (OnBranch "main").
Proof.
  assert (H1 : repos Demo.world !! FS.norm "/srv/demo" = Some Demo.repo)
    by (vm_compute; reflexivity).
  assert (H2 : heads Demo.repo !! "imported" = Some 2) by (vm_compute; reflexivity).
  assert (H3 : heads Demo.repo !! "main" = Some 1) by (vm_compute; reflexivity).
  assert (H4 : HEAD Demo.repo = OnBranch "topic") by reflexivity.
  assert (H5 : merge_head Demo.repo = None) by reflexivity.
  assert (H6 : Git.refusal Demo.env (FS.norm "/srv/demo") Demo.repo 1 = None) by reflexivity.
  assert (H7 : 2 ≠ 1) by lia.
  assert (H8 : merge_outcome Demo.env (FS.norm "/srv/demo") (Git.local_changes Demo.repo) 2 1
               = Refuse "fatal: refusing to merge unrelated histories") by reflexivity.
  split; [repeat split; assumption|].
  destruct (merge_branch_aborts_without_merge Demo.env Demo.world "/srv/demo" Demo.repo
              "imported" "main" "topic" 2 1 _ H1 H2 H3 H4 H5 H6 H7 H8)
    as (Hmerge & Hnot & msg & r' & _ & Hrepo & _ & _ & _ & Hhead & _).
  split; [exact Hmerge|]. split; [exact Hnot|].
  rewrite Hrepo. cbn. by rewrite Hhead.
Defined.

(** ** Commit *)

(** C5.  On a repository without staged, modified or untracked paths,
    [add_and_commit] returns [False] instead of raising, and leaves the
    filesystem and every repository as they were; in particular the number
    of commits is unchanged. *)
Theorem add_and_commit_clean env w repo_path commit_message r :
  repos w !! FS.norm repo_path = Some r →
  Git.is_dirty r = false →
  ∃ w',
    add_and_commit env repo_path commit_message w = (Ok false, w')
    ∧ fs w' = fs w ∧ repos w' = repos w
    ∧ commit_count <$> repos w' !! FS.norm repo_path = Some (commit_count r).
Proof.
  intros Hr Hclean.
  unfold add_and_commit, Repo_open, repo_attr. munfold.
  cbn. rewrite Hr. cbn. rewrite Hr. cbn. rewrite Hclean. cbn.
  eexists. repeat split. cbn. by rewrite Hr.
Qed.

Lemma add_and_commit_clean_witness :
  (repos Demo.world !! FS.norm "/srv/demo" = Some Demo.repo
   ∧ Git.is_dirty Demo.repo = false)
  ∧ (add_and_commit Demo.env "/srv/demo" "Nothing new" Demo.world).1 = Ok false.
Proof.
  assert (H1 : repos Demo.world !! FS.norm "/srv/demo" = Some Demo.repo)
    by (vm_compute; reflexivity).
  assert (H2 : Git.is_dirty Demo.repo = false) by reflexivity.
  split; [exact (conj H1 H2)|].
  destruct (add_and_commit_clean Demo.env Demo.world "/srv/demo" "Nothing new" Demo.repo
              H1 H2) as (w' & Hrun & _).
  rewrite Hrun. reflexivity.
Defined.



(** ** Default branch *)

(** C2, on the definition that callers run.  With [master] and without
    [main], [ensure_main_branch] creates [main] from the checked-out commit
    and leaves [master] in place: afterwards both branches exist. *)
Theorem ensure_main_branch_duplicates_master env w repo_path r c t :
  repos w !! FS.norm repo_path = Some r →
  heads r !! "main" = None →
  heads r !! "master" = Some c →
  Git.tip r = Some t →
  remotes r !! "origin" = None →
  ∃ w' r',
    ensure_main_branch env repo_path w = (Ok true, w')
    ∧ repos w' !! FS.norm repo_path = Some r'
    ∧ heads r' = <["main" := t]> (heads r)
    ∧ heads r' !! "master" = Some c
    ∧ heads r' !! "main" = Some t
    ∧ HEAD r' = OnBranch "main"
    ∧ issued r' = issued r ++ [CmdCheckoutNew "main"].
Proof.
  intros Hr Hmain Hmaster Htip Horigin.
  unfold ensure_main_branch, Repo_open, repo_attr, on_repo. munfold.
  cbn. rewrite Hr. cbn. rewrite Hr, (has_head_false _ _ Hmain). cbn. rewrite Hr.
  gunfold. munfold. cbn. rewrite Hmain. unfold Git.tip in *. cbn. rewrite Htip. cbn.
  rewrite lookup_insert_eq. cbn. unfold Git.has_remote. cbn. rewrite Horigin.
  rewrite bool_decide_eq_false_2 by (by intros [? ?]). cbn.
  eexists _, _. split; [reflexivity|]. cbn. rewrite lookup_insert_eq.
  split; [reflexivity|]. cbn. split; [reflexivity|].
  rewrite lookup_insert_ne by done. rewrite lookup_insert_eq. done.
Qed.

Lemma ensure_main_branch_duplicates_master_witness :
  (repos Demo.world !! FS.norm "/srv/legacy" = Some Demo.legacy
   ∧ heads Demo.legacy !! "main" = None
   ∧ heads Demo.legacy !! "master" = Some 0
   ∧ Git.tip Demo.legacy = Some 0
   ∧ remotes Demo.legacy !! "origin" = None)
  ∧ Git.head_names
      <$> repos (ensure_main_branch Demo.env "/srv/legacy" Demo.world).2
          !! FS.norm "/srv/legacy"
    = Some ["master"; "main"].
Proof.
  assert (H1 : repos Demo.world !! FS.norm "/srv/legacy" = Some Demo.legacy)
    by (vm_compute; reflexivity).
  assert (H2 : heads Demo.legacy !! "main" = None) by (vm_compute; reflexivity).
  assert (H3 : heads Demo.legacy !! "master" = Some 0) by (vm_compute; reflexivity).
  assert (H4 : Git.tip Demo.legacy = Some 0) by (vm_compute; reflexivity).
  assert (H5 : remotes Demo.legacy !! "origin" = None) by (vm_compute; reflexivity).
  split; [repeat split; assumption|].
  destruct (ensure_main_branch_duplicates_master Demo.env Demo.world "/srv/legacy"
              Demo.legacy 0 0 H1 H2 H3 H4 H5) as (w' & r' & Hrun & Hr' & Hheads & _).
  rewrite Hrun. cbn. rewrite Hr'. cbn. unfold Git.head_names. rewrite Hheads.
  vm_compute. reflexivity.
Defined.

(** X5.  The first definition of [ensure_main_branch], which the second
    replaces when the module is loaded, renames [master] in place: with
    [master] and without [main] (and without a remote [origin]) it returns
    [True], [main] points at the commit [master] pointed at, [master] is
    gone, no commit is added, and the one command sent is the rename. *)
Lemma ensure_main_branch_first_renames env w repo_path r c :
  repos w !! FS.norm repo_path = Some r →
  heads r !! "main" = None →
  heads r !! "master" = Some c →
  remotes r !! "origin" = None →
  ∃ w' r',
    ensure_main_branch_first env repo_path w = (Ok true, w')
    ∧ repos w' !! FS.norm repo_path = Some r'
    ∧ heads r' = <["main" := c]> (delete "master" (heads r))
    ∧ heads r' !! "master" = None
    ∧ commits r' = commits r
    ∧ issued r' = issued r ++ [CmdBranchMove "master" "main"].
Proof.
  intros Hr Hmain Hmaster Horigin.
  unfold ensure_main_branch_first, Repo_open, repo_attr, on_repo. munfold.
  cbn. rewrite Hr. cbn. rewrite Hr, (py_in_head_names_None _ _ Hmain). cbn. rewrite Hr.
  rewrite (py_in_head_names_Some _ _ _ Hmaster). cbn. rewrite Hr.
  gunfold. munfold. cbn. rewrite Hmaster, Hmain. cbn.
  rewrite lookup_insert_eq. rewrite py_in_remote_names.
  erewrite has_remote_false; cycle 1.
  { destruct (upstream r !! "master"), (bool_decide (HEAD r = OnBranch "master")); cbn; done. }
  cbn. eexists _, _. split; [reflexivity|]. cbn. rewrite lookup_insert_eq.
  split; [reflexivity|].
  destruct (upstream r !! "master"), (bool_decide (HEAD r = OnBranch "master")); cbn;
    (repeat split; [by rewrite lookup_insert_ne, lookup_delete_eq]).
Qed.

Lemma ensure_main_branch_first_renames_witness :
  (repos Demo.world !! FS.norm "/srv/legacy" = Some Demo.legacy
   ∧ heads Demo.legacy !! "main" = None
   ∧ heads Demo.legacy !! "master" = Some 0
   ∧ remotes Demo.legacy !! "origin" = None)
  ∧ (ensure_main_branch_first Demo.env "/srv/legacy" Demo.world).1 = Ok true.
Proof.
  assert (H1 : repos Demo.world !! FS.norm "/srv/legacy" = Some Demo.legacy)
    by (vm_compute; reflexivity).
  assert (H2 : heads Demo.legacy !! "main" = None) by (vm_compute; reflexivity).
  assert (H3 : heads Demo.legacy !! "master" = Some 0) by (vm_compute; reflexivity).
  assert (H4 : remotes Demo.legacy !! "origin" = None) by (vm_compute; reflexivity).
  split; [exact (conj H1 (conj H2 (conj H3 H4)))|].
  destruct (ensure_main_branch_first_renames Demo.env Demo.world "/srv/legacy" Demo.legacy 0
              H1 H2 H3 H4) as (w' & r' & Hrun & _).
  rewrite Hrun. reflexivity.
Defined.

(** C3, on the definition that callers run.  When [main] exists, the
    membership test on the refs of origin answers true and the server rejects
    the push, the failure is not absorbed: [ensure_main_branch] logs it as an
    error and raises it again. *)
Theorem ensure_main_branch_push_failure_raises env w repo_path r c rm why :
  repos w !! FS.norm repo_path = Some r →
  heads r !! "main" = Some c →
  remotes r !! "origin" = Some rm →
  prefixed_in "origin" "origin/main" (refs rm) = true →
  push_rejected env (url rm) = Some why →
  ∃ w',
    ensure_main_branch env repo_path w = (Raise (GitCommandError why), w')
    ∧ log w' = log w ++ [(ERROR, "Error ensuring main branch: " +:+ why)].
Proof.
  intros Hr Hmain Horigin Href Hpush.
  unfold ensure_main_branch, Repo_open, repo_attr, on_repo. munfold.
  cbn. rewrite Hr. cbn. rewrite Hr, (has_head_true _ _ _ Hmain). cbn. rewrite Hr.
  rewrite (has_remote_true _ _ _ Horigin). cbn. rewrite Hr.
  gunfold. munfold. cbn. rewrite Horigin. cbn.
  rewrite Href. cbn.
  rewrite lookup_insert_eq. cbn. rewrite Horigin, Hmain, Hpush. cbn.
  eexists. split; reflexivity.
Qed.

Lemma ensure_main_branch_push_failure_raises_witness :
  (repos Demo.world !! FS.norm "/srv/published" = Some Demo.published
   ∧ heads Demo.published !! "main" = Some 0
   ∧ remotes Demo.published !! "origin"
     = Some (mkRemote "https://github.com/octo/published.git"
                      ["origin/main"; "origin/origin/main"])
   ∧ prefixed_in "origin" "origin/main" ["origin/main"; "origin/origin/main"] = true
   ∧ push_rejected Demo.env "https://github.com/octo/published.git"
     = Some "remote: Repository not found.")
  ∧ (ensure_main_branch Demo.env "/srv/published" Demo.world).1
    = Raise (GitCommandError "remote: Repository not found.").
Proof.
  assert (H1 : repos Demo.world !! FS.norm "/srv/published" = Some Demo.published)
    by (vm_compute; reflexivity).
  assert (H2 : heads Demo.published !! "main" = Some 0) by (vm_compute; reflexivity).
  assert (H3 : remotes Demo.published !! "origin"
               = Some (mkRemote "https://github.com/octo/published.git"
                                ["origin/main"; "origin/origin/main"]))
    by (vm_compute; reflexivity).
  assert (H4 : prefixed_in "origin" "origin/main" ["origin/main"; "origin/origin/main"]
               = true) by (vm_compute; reflexivity).
  assert (H5 : push_rejected Demo.env "https://github.com/octo/published.git"
               = Some "remote: Repository not found.") by reflexivity.
  split; [repeat split; assumption|].
  destruct (ensure_main_branch_push_failure_raises Demo.env Demo.world "/srv/published"
              Demo.published 0 _ _ H1 H2 H3 H4 H5) as (w' & Hrun & _).
  rewrite Hrun. reflexivity.
Defined.

(** X6.  The first definition of [ensure_main_branch], which the second
    replaces when the module is loaded, survives a failing push: when [main]
    exists and the server rejects the push to [origin], it logs the error of
    the push as a warning and returns [True] instead of raising. *)
Lemma ensure_main_branch_first_push_failure_logged env w repo_path r c rm why :
  repos w !! FS.norm repo_path = Some r →
  heads r !! "main" = Some c →
  remotes r !! "origin" = Some rm →
  push_rejected env (url rm) = Some why →
  ∃ w',
    ensure_main_branch_first env repo_path w = (Ok true, w')
    ∧ (WARNING, "Could not set upstream: " +:+ why) ∈ log w'.
Proof.
  intros Hr Hmain Horigin Hpush.
  unfold ensure_main_branch_first, Repo_open, repo_attr, on_repo. munfold.
  cbn. rewrite Hr. cbn. rewrite Hr, (py_in_head_names_Some _ _ _ Hmain). cbn. rewrite Hr.
  rewrite py_in_remote_names, (has_remote_true _ _ _ Horigin). cbn. rewrite Hr.
  gunfold. munfold. cbn. rewrite Horigin, Hmain, Hpush. cbn.
  eexists. split; [reflexivity|]. cbn.
  rewrite !elem_of_app. left. right. apply list_elem_of_singleton. done.
Qed.

Lemma ensure_main_branch_first_push_failure_logged_witness :
  (repos Demo.world !! FS.norm "/srv/published" = Some Demo.published
   ∧ heads Demo.published !! "main" = Some 0
   ∧ remotes Demo.published !! "origin"
     = Some (mkRemote "https://github.com/octo/published.git"
                      ["origin/main"; "origin/origin/main"])
   ∧ push_rejected Demo.env "https://github.com/octo/published.git"
     = Some "remote: Repository not found.")
  ∧ (ensure_main_branch_first Demo.env "/srv/published" Demo.world).1 = Ok true.
Proof.
  assert (H1 : repos Demo.world !! FS.norm "/srv/published" = Some Demo.published)
    by (vm_compute; reflexivity).
  assert (H2 : heads Demo.published !! "main" = Some 0) by (vm_compute; reflexivity).
  assert (H3 : remotes Demo.published !! "origin"
               = Some (mkRemote "https://github.com/octo/published.git"
                                ["origin/main"; "origin/origin/main"]))
    by (vm_compute; reflexivity).
  assert (H4 : push_rejected Demo.env "https://github.com/octo/published.git"
               = Some "remote: Repository not found.") by reflexivity.
  split; [exact (conj H1 (conj H2 (conj H3 H4)))|].
  destruct (ensure_main_branch_first_push_failure_logged Demo.env Demo.world "/srv/published"
              Demo.published 0 _ _ H1 H2 H3 H4) as (w' & Hrun & _).
  rewrite Hrun. reflexivity.
Defined.

(** A remote whose only ref is [origin/main]: the membership test looks for
    [origin/origin/main], so the second definition does not push at all. *)
Example ensure_main_branch_skips_push :
  let rs := {[ "/srv/p" :=
                 mkRepo [mkCommit "Initial commit" [] []] {[ "main" := 0 ]}
                        (OnBranch "main") [] [] None
                        {[ "origin" := mkRemote "https://github.com/octo/p.git"
                                                ["origin/main"] ]} ∅ [] ]} in
  let run := ensure_main_branch Demo.env "/srv/p" (mkWorld ∅ rs []) in
  run.1 = Ok true ∧ repos run.2 = rs.
Proof. vm_compute. split; reflexivity. Qed.

(** Both definitions on the same repositories. *)
Example ensure_main_branch_first_on_legacy :
  Git.head_names
    <$> repos (ensure_main_branch_first Demo.env "/srv/legacy" Demo.world).2 !! "/srv/legacy"
  = Some ["main"].
Proof. vm_compute. reflexivity. Qed.

Example ensure_main_branch_first_on_published :
  (ensure_main_branch_first Demo.env "/srv/published" Demo.world).1 = Ok true.
Proof. vm_compute. reflexivity. Qed.

(** ** Initialisation *)






(** ** Project type detection *)

(** [detect_project_type] always returns, with the list [detect_outcome]
    describes, and only adds to the log. *)
Lemma detect_project_type_run env repo_path w :
  ∃ lg, detect_project_type env repo_path w
        = (Ok (detect_outcome env (fs w) repo_path), set_log (log w ++ lg) w).
Proof.
  unfold detect_project_type, detect_outcome. munfold. cbn.
  destruct (FS.exists_ (fs w) repo_path); cbn; [|log_tail].
  destruct (FS.listdir (fs w) repo_path) as [e|files]; cbn; [log_tail|].
  unfold classify.
  destruct (existsb (λ f, Str.endswith f ".py") files || py_in "requirements.txt" files),
    (existsb (λ f, Str.endswith f ".js") files || py_in "package.json" files),
    (existsb (λ f, Str.endswith f ".rs") files || py_in "Cargo.toml" files);
    cbn; eval_sets; cbn; log_tail.
Qed.

Lemma classify_nonempty files : classify files ≠ [].
Proof.
  unfold classify.
  destruct (existsb (λ f, Str.endswith f ".py") files || py_in "requirements.txt" files),
    (existsb (λ f, Str.endswith f ".js") files || py_in "package.json" files),
    (existsb (λ f, Str.endswith f ".rs") files || py_in "Cargo.toml" files);
    cbn; eval_sets; done.
Qed.

(** Listing a set neither drops nor invents elements. *)
Lemma list_of_set_Permutation env s : list_of_set env s ≡ₚ s.
Proof. unfold list_of_set. apply merge_sort_Permutation. Qed.

Lemma list_of_set_nonempty env s : s ≠ [] → list_of_set env s ≠ [].
Proof.
  intros Hs Hnil. apply Hs. apply Permutation_nil_r.
  rewrite <-Hnil. symmetry. apply list_of_set_Permutation.
Qed.

Lemma detect_outcome_nonempty env fs repo_path : detect_outcome env fs repo_path ≠ [].
Proof.
  unfold detect_outcome.
  destruct (FS.exists_ fs repo_path); [|done].
  destruct (FS.listdir fs repo_path); [done|].
  apply list_of_set_nonempty, classify_nonempty.
Qed.

(** The rules are independent: a listing with a Python and a Node marker
    yields both types. *)
Example classify_python_and_node :
  classify ["app.py"; "package.json"; "README.md"] = ["python"; "node"].
Proof. vm_compute. reflexivity. Qed.

Example classify_rust_manifest : classify ["Cargo.toml"] = ["rust"].
Proof. vm_compute. reflexivity. Qed.

(** C10.  [detect_project_type] returns on every path and in every state of
    the filesystem, with a list that has a first element; it changes neither
    the filesystem nor any repository; and when the directory cannot be
    listed the list is exactly [["general"]]. *)
Theorem detect_project_type_total env repo_path w :
  ∃ first rest w',
    detect_project_type env repo_path w = (Ok (first :: rest), w')
    ∧ fs w' = fs w ∧ repos w' = repos w
    ∧ (∀ e, FS.listdir (fs w) repo_path = inl e → first :: rest = ["general"]).
Proof.
  destruct (detect_project_type_run env repo_path w) as [lg Hrun].
  pose proof (detect_outcome_nonempty env (fs w) repo_path) as Hne.
  destruct (detect_outcome env (fs w) repo_path) as [|first rest] eqn:Hout; [done|].
  exists first, rest. eexists. split; [exact Hrun|]. repeat split.
  intros e He. rewrite <-Hout. unfold detect_outcome. rewrite He.
  by destruct (FS.exists_ (fs w) repo_path).
Qed.

Lemma detect_project_type_total_witness :
  FS.listdir (fs Demo.world) "/srv/locked" = inl (OSError PermissionError "/srv/locked")
  ∧ (detect_project_type Demo.env "/srv/locked" Demo.world).1 = Ok ["general"].
Proof.
  assert (H1 : FS.listdir (fs Demo.world) "/srv/locked"
               = inl (OSError PermissionError "/srv/locked"))
    by (vm_compute; reflexivity).
  split; [exact H1|].
  destruct (detect_project_type_total Demo.env "/srv/locked" Demo.world)
    as (first & rest & w' & Hrun & _ & _ & Hfail).
  rewrite Hrun. cbn. f_equal. exact (Hfail _ H1).
Defined.

(** C8.  On a directory that lists only [package.json] the result is
    [["node"]]; on a directory that lists nothing it is [["general"]]; on a
    path that does not exist it is [["general"]], returned and not raised. *)
Theorem detect_project_type_examples env repo_path w :
  (FS.listdir (fs w) repo_path = inr ["package.json"] →
   (detect_project_type env repo_path w).1 = Ok ["node"])
  ∧ (FS.listdir (fs w) repo_path = inr [] →
     (detect_project_type env repo_path w).1 = Ok ["general"])
  ∧ (FS.exists_ (fs w) repo_path = false →
     (detect_project_type env repo_path w).1 = Ok ["general"]).
Proof.
  destruct (detect_project_type_run env repo_path w) as [lg ->]. cbn.
  unfold detect_outcome. repeat split.
  - intros H. by rewrite (listdir_exists _ _ _ H), H.
  - intros H. by rewrite (listdir_exists _ _ _ H), H.
  - by intros ->.
Qed.

Lemma detect_project_type_examples_witness :
  (FS.listdir (fs Demo.world) "/srv/node" = inr ["package.json"]
   ∧ FS.listdir (fs Demo.world) "/srv/empty" = inr []
   ∧ FS.exists_ (fs Demo.world) "/srv/missing" = false)
  ∧ (detect_project_type Demo.env "/srv/node" Demo.world).1 = Ok ["node"]
  ∧ (detect_project_type Demo.env "/srv/empty" Demo.world).1 = Ok ["general"]
  ∧ (detect_project_type Demo.env "/srv/missing" Demo.world).1 = Ok ["general"].
Proof.
  assert (H1 : FS.listdir (fs Demo.world) "/srv/node" = inr ["package.json"])
    by (vm_compute; reflexivity).
  assert (H2 : FS.listdir (fs Demo.world) "/srv/empty" = inr [])
    by (vm_compute; reflexivity).
  assert (H3 : FS.exists_ (fs Demo.world) "/srv/missing" = false)
    by (vm_compute; reflexivity).
  split; [repeat split; assumption|].
  split; [|split].
  - exact (proj1 (detect_project_type_examples Demo.env "/srv/node" Demo.world) H1).
  - exact (proj1 (proj2 (detect_project_type_examples Demo.env "/srv/empty" Demo.world)) H2).
  - exact (proj2 (proj2 (detect_project_type_examples Demo.env "/srv/missing" Demo.world)) H3).
Defined.

(** ** Ignore files *)

(** [generate_gitignore] in terms of the disk: it fails exactly when the file
    cannot be written, and then leaves the disk alone; otherwise it writes
    [ignore_content] and commits when the path holds a repository. *)
Lemma generate_gitignore_run env repo_path w :
  ∃ lg,
    generate_gitignore env repo_path w =
    match FS.write_text (fs w) (Path.join repo_path ".gitignore")
            (ignore_content env (fs w) repo_path) with
    | inr fs' =>
        (Ok (Path.join repo_path ".gitignore"),
         mkWorld fs' (ignore_committed env (fs w) repo_path (repos w)) (log w ++ lg))
    | inl e => (Raise e, set_log (log w ++ lg) w)
    end.
Proof.
  unfold generate_gitignore. munfold. cbn.
  match goal with |- context [detect_project_type env repo_path ?w0] =>
    destruct (detect_project_type_run env repo_path w0) as [lg0 ->] end.
  cbn. fold (ignore_content env (fs w) repo_path).
  destruct (FS.write_text _ _ _) as [e|fs'] eqn:Hw; cbn.
  - log_tail.
  - unfold Repo_open, on_repo, ignore_committed. munfold. cbn.
    destruct (repos w !! FS.norm repo_path) as [r|] eqn:Hr; cbn.
    + rewrite ?Hr.
      destruct (Git.add ".gitignore" r) as [res1 r1] eqn:Hadd.
      assert (res1 = Ok ()) as -> by (revert Hadd; gunfold; munfold; cbn; congruence).
      cbn. rewrite lookup_insert_eq.
      destruct (Git.index_commit _ r1) as [res2 r2] eqn:Hcommit.
      assert (∃ id, res2 = Ok id) as [id ->].
      { revert Hcommit. gunfold. munfold. cbn. intros [= <- _]. eauto. }
      cbn. rewrite insert_insert_eq. log_tail.
    + rewrite ?Hr. destruct (FS.exists_ fs' repo_path); cbn; log_tail.
Qed.

Lemma generate_gitignore_log_irrelevant env repo_path w lg :
  (generate_gitignore env repo_path (set_log lg w)).1 = (generate_gitignore env repo_path w).1
  ∧ fs (generate_gitignore env repo_path (set_log lg w)).2
    = fs (generate_gitignore env repo_path w).2
  ∧ repos (generate_gitignore env repo_path (set_log lg w)).2
    = repos (generate_gitignore env repo_path w).2.
Proof.
  destruct (generate_gitignore_run env repo_path w) as [lg1 ->].
  destruct (generate_gitignore_run env repo_path (set_log lg w)) as [lg2 ->].
  cbn. by destruct (FS.write_text _ _ _).
Qed.

Lemma generate_gitignore_raise_keeps env repo_path w e w' :
  generate_gitignore env repo_path w = (Raise e, w') →
  fs w' = fs w ∧ repos w' = repos w.
Proof.
  destruct (generate_gitignore_run env repo_path w) as [lg ->].
  destruct (FS.write_text _ _ _); [|done]. by intros [= _ <-].
Qed.

(** From the fetch on: when the fetch fails, whatever precedes it in the log,
    the function ends as one run of [generate_gitignore] on the same disk. *)
Lemma fall_back_after_fetch env repo_path w u (l1 : list (Level * string))
    (k : nat * string → M World string) :
  fetch_failed env u →
  ∃ lg,
    try_except
      (response ← requests_get env u;
       if bool_decide (response.1 = 200) then k response
       else
         logger WARNING ("Failed to download .gitignore template: HTTP "
                         +:+ Str.of_nat response.1);;
         logger INFO "Falling back to local template generation";;
         generate_gitignore env repo_path)
      (λ e,
         logger ERROR ("Error downloading GitHub .gitignore: " +:+ exn_str e);;
         logger INFO "Falling back to local template generation";;
         generate_gitignore env repo_path)
      (set_log l1 w)
    = generate_gitignore env repo_path (set_log lg w).
Proof.
  unfold fetch_failed, requests_get. intros Hfail. munfold.
  destruct (http_get env u) as [e|response]; cbn.
  - eexists; reflexivity.
  - rewrite bool_decide_eq_false_2 by done. cbn.
    match goal with |- context [generate_gitignore env repo_path ?w0] =>
      destruct (generate_gitignore env repo_path w0) as [[a|e] w3] eqn:Hg end.
    + eexists. rewrite <-Hg. reflexivity.
    + apply generate_gitignore_raise_keeps in Hg as [Hfs Hrepos]. cbn in Hfs, Hrepos.
      rewrite (same_disk_set_log w w3) by done. cbn. eexists; reflexivity.
Qed.

Lemma download_runs_generate env repo_path project_type w :
  fetch_failed env (gitignore_url_for (requested_type env (fs w) repo_path project_type)) →
  ∃ lg, download_github_gitignore env repo_path project_type w
        = generate_gitignore env repo_path (set_log lg w).
Proof.
  intros Hfail. unfold download_github_gitignore.
  erewrite try_except_bind_ok by reflexivity.
  destruct project_type as [t|]; cbn in Hfail.
  - erewrite try_except_bind_ok by reflexivity.
    erewrite try_except_bind_ok by reflexivity.
    by apply (fall_back_after_fetch env repo_path w).
  - pose proof (detect_outcome_nonempty env (fs w) repo_path) as Hne.
    destruct (detect_outcome env (fs w) repo_path) as [|first rest] eqn:Hout; [done|].
    cbn in Hfail.
    match goal with |- context [try_except (?m ≫= _) _ ?s] =>
      assert (∃ lg0, m s = (Ok (Str.capitalize first), set_log lg0 w)) as [lg0 Hm] end.
    { unfold mbind at 1, M_bind, bind.
      match goal with |- context [detect_project_type env repo_path ?w0] =>
        destruct (detect_project_type_run env repo_path w0) as [lg0 ->] end.
      cbn. rewrite Hout. eexists; reflexivity. }
    rewrite (try_except_bind_ok _ _ _ _ _ _ Hm).
    erewrite try_except_bind_ok by reflexivity.
    by apply (fall_back_after_fetch env repo_path w).
Qed.

(** C7.  When the fetch of the template fails (a transport error or a status
    other than 200), [download_github_gitignore] returns what
    [generate_gitignore] returns on the same world and leaves the same
    filesystem and the same repositories.  Where the ignore file can be
    written, it returns the path of the file, which then holds exactly the
    locally synthesised text; where it cannot, the call fails the caller with
    the error of the write, as [generate_gitignore] does, and the filesystem
    is as it was. *)
Theorem download_falls_back_to_generate env repo_path project_type w :
  fetch_failed env (gitignore_url_for (requested_type env (fs w) repo_path project_type)) →
  let downloaded := download_github_gitignore env repo_path project_type w in
  let generated := generate_gitignore env repo_path w in
  downloaded.1 = generated.1
  ∧ fs downloaded.2 = fs generated.2
  ∧ repos downloaded.2 = repos generated.2
  ∧ (∀ fs',
      FS.write_text (fs w) (Path.join repo_path ".gitignore")
        (ignore_content env (fs w) repo_path) = inr fs' →
      downloaded.1 = Ok (Path.join repo_path ".gitignore")
      ∧ fs downloaded.2 !! FS.norm (Path.join repo_path ".gitignore")
        = Some (FileNode (ignore_content env (fs w) repo_path)))
  ∧ ∀ e,
      FS.write_text (fs w) (Path.join repo_path ".gitignore")
        (ignore_content env (fs w) repo_path) = inl e →
      downloaded.1 = Raise e ∧ fs downloaded.2 = fs w.
Proof.
  intros Hfail downloaded generated.
  destruct (download_runs_generate _ _ _ _ Hfail) as [lg Hrun].
  subst downloaded generated. rewrite Hrun.
  destruct (generate_gitignore_log_irrelevant env repo_path w lg) as (H1 & H2 & H3).
  split; [done|]. split; [done|]. split; [done|].
  rewrite H1, H2.
  destruct (generate_gitignore_run env repo_path w) as [lg1 ->].
  split.
  - intros fs' Hw. rewrite Hw. cbn. split; [done|]. by apply write_text_lookup in Hw.
  - intros e Hw. rewrite Hw. cbn. done.
Qed.

Lemma download_falls_back_to_generate_witness :
  fetch_failed Demo.env
    (gitignore_url_for (requested_type Demo.env (fs Demo.world) "/srv/node" None))
  ∧ (download_github_gitignore Demo.env "/srv/node" None Demo.world).1
    = Ok "/srv/node/.gitignore"
  ∧ fs (download_github_gitignore Demo.env "/srv/node" None Demo.world).2
       !! FS.norm (Path.join "/srv/node" ".gitignore")
    = Some (FileNode "# Node.js dependencies
node_modules/
npm-debug.log
yarn-error.log").
Proof.
  assert (H1 : fetch_failed Demo.env
                 (gitignore_url_for
                    (requested_type Demo.env (fs Demo.world) "/srv/node" None)))
    by exact I.
  assert (H2 : ∃ fs', FS.write_text (fs Demo.world) (Path.join "/srv/node" ".gitignore")
                        (ignore_content Demo.env (fs Demo.world) "/srv/node") = inr fs')
    by (vm_compute; eexists; reflexivity).
  destruct H2 as [fs' H2].
  split; [exact H1|].
  destruct (download_falls_back_to_generate Demo.env "/srv/node" None Demo.world H1)
    as (_ & _ & _ & Hfile & _).
  destruct (Hfile fs' H2) as [Hres Hcontent].
  split; [exact Hres|].
  rewrite Hcontent. vm_compute. reflexivity.
Defined.

(** C7, as the claim states it, fails where the ignore file cannot be
    written.  The template source is out of reach; on a path that does not
    exist, and in a directory the process may not write to, the fallback
    raises the error of the write to the caller, as [generate_gitignore]
    does there. *)
Lemma download_fallback_raises :
  fetch_failed Demo.env
    (gitignore_url_for (requested_type Demo.env (fs Demo.world) "/srv/missing" None))
  ∧ (download_github_gitignore Demo.env "/srv/missing" None Demo.world).1
    = Raise (OSError FileNotFoundError "/srv/missing/.gitignore")
  ∧ (generate_gitignore Demo.env "/srv/missing" Demo.world).1
    = Raise (OSError FileNotFoundError "/srv/missing/.gitignore")
  ∧ fetch_failed Demo.env
      (gitignore_url_for (requested_type Demo.env (fs Demo.world) "/srv/locked" (Some "Python")))
  ∧ (download_github_gitignore Demo.env "/srv/locked" (Some "Python") Demo.world).1
    = Raise (OSError PermissionError "/srv/locked/.gitignore").
Proof. repeat split; vm_compute; reflexivity. Qed.

(** Two detected types: the file holds the patterns of both templates. *)
Example ignore_content_two_types :
  ignore_content Demo.env
    {[ "/p" := DirNode ["app.py"; "package.json"] true ]} "/p"
  = Str.strip (template_node +:+ "
" +:+ template_python).
Proof. vm_compute. reflexivity. Qed.

(** ** Batch writes *)

Lemma add_one_file_run repo_path file_info created errs w :
  ∃ lg,
    add_one_file repo_path file_info (created, errs) w =
    (Ok (created ++ written [(file_info, (attempt repo_path file_info (fs w)).1)],
         errs ++ failure_messages [(file_info, (attempt repo_path file_info (fs w)).1)]),
     mkWorld (attempt repo_path file_info (fs w)).2 (repos w) (log w ++ lg)).
Proof.
  unfold add_one_file, attempt. munfold. cbn.
  destruct (FS.makedirs (fs w) _) as [e|fs1]; cbn.
  - rewrite !app_nil_r. by eexists [_].
  - destruct (FS.write_text fs1 _ _) as [e|fs2]; cbn.
    + rewrite !app_nil_r. by eexists [_].
    + rewrite !app_nil_r. by eexists [_].
Qed.

(** The loop, by induction on the batch: the accumulators grow by the
    outcomes of the entries, whatever they held before. *)
Lemma add_files_loop_run repo_path files : ∀ created errs w,
  ∃ lg,
    add_files_loop repo_path files (created, errs) w =
    (Ok (created ++ written (attempts repo_path files (fs w)).1,
         errs ++ failure_messages (attempts repo_path files (fs w)).1),
     mkWorld (attempts repo_path files (fs w)).2 (repos w) (log w ++ lg)).
Proof.
  induction files as [|file_info rest IH]; intros created errs w.
  - exists []. cbn. rewrite !app_nil_r. by destruct w.
  - cbn [add_files_loop]. unfold mbind, M_bind, bind.
    destruct (add_one_file_run repo_path file_info created errs w) as [lg1 ->].
    destruct (IH (created ++ written [(file_info, (attempt repo_path file_info (fs w)).1)])
                 (errs ++ failure_messages [(file_info, (attempt repo_path file_info (fs w)).1)])
                 (mkWorld (attempt repo_path file_info (fs w)).2 (repos w) (log w ++ lg1)))
      as [lg2 ->].
    cbn. destruct (attempt repo_path file_info (fs w)) as [o fs1]. cbn.
    destruct (attempts repo_path rest fs1) as [os fs2]. cbn.
    exists (lg1 ++ lg2). rewrite <-!app_assoc.
    destruct o; cbn; reflexivity.
Qed.

Lemma written_failures_length os :
  length (written os) + length (failure_messages os) = length os.
Proof.
  induction os as [|[fi [e|]] os IH]; cbn; [done| |]; unfold written, failure_messages in *;
    cbn; lia.
Qed.

Lemma attempts_entries repo_path files : ∀ fs,
  (attempts repo_path files fs).1.*1 = files.
Proof.
  induction files as [|fi rest IH]; intros fs; cbn; [done|].
  destruct (attempt repo_path fi fs) as [o fs1].
  specialize (IH fs1). destruct (attempts repo_path rest fs1). cbn in *.
  by rewrite IH.
Qed.

Lemma failure_messages_nil os :
  failure_messages os = [] ↔ Forall (λ fo, fo.2 = None) os.
Proof.
  induction os as [|[fi [e|]] os IH]; cbn.
  - split; [constructor|done].
  - split; [done|]. by inversion 1.
  - unfold failure_messages in *. cbn. rewrite IH. split.
    + by constructor.
    + by inversion 1.
Qed.

(** C9.  [add_multiple_files] never raises.  Every entry of the batch is
    attempted, in order, on the filesystem its predecessors left, whether they
    failed or not; the created files are the paths of the entries that
    succeeded, the errors are one message for each entry that failed; and
    [success] is true exactly when no entry failed. *)
Theorem add_multiple_files_independent repo_path files w :
  ∃ res w',
    add_multiple_files repo_path files w = (Ok res, w')
    ∧ (attempts repo_path files (fs w)).1.*1 = files
    ∧ created_files res = written (attempts repo_path files (fs w)).1
    ∧ errors res = failure_messages (attempts repo_path files (fs w)).1
    ∧ length (created_files res) + length (errors res) = length files
    ∧ (success res = true ↔ Forall (λ fo, fo.2 = None) (attempts repo_path files (fs w)).1)
    ∧ fs w' = (attempts repo_path files (fs w)).2
    ∧ repos w' = repos w.
Proof.
  unfold add_multiple_files. munfold. cbn.
  match goal with |- context [add_files_loop repo_path files ?acc ?w0] =>
    destruct (add_files_loop_run repo_path files [] [] w0) as [lg ->] end.
  cbn. eexists _, _. split; [reflexivity|]. cbn.
  split; [apply attempts_entries|].
  split; [done|]. split; [done|].
  split.
  { rewrite written_failures_length.
    rewrite <-(attempts_entries repo_path files (fs w)) at 2.
    by rewrite length_fmap. }
  split; [|done].
  rewrite bool_decide_eq_true, length_zero_iff_nil. apply failure_messages_nil.
Qed.

(** One entry below a regular file, between two that can be written: one
    failure, two files created, and the last of them is on disk. *)
Example add_multiple_files_partial :
  let run := add_multiple_files "/srv/node"
               [mkFileInfo "src/index.js" "main()";
                mkFileInfo "package.json/extra" "{}";
                mkFileInfo "README.md" "# node"] Demo.world in
  match run.1 with
  | Ok res =>
      (success res, created_files res, length (errors res))
      = (false, ["src/index.js"; "README.md"], 1)
  | Raise _ => False
  end
  ∧ fs run.2 !! "/srv/node/README.md" = Some (FileNode "# node").
Proof. vm_compute. split; reflexivity. Qed.

(** * More of the program

    ** Paths made of a directory and a plain name *)




Lemma cut_no_slash f : Py.contains Path.slash f = false → Path.cut f = ("", f).
Proof.
  induction f as [|c f IH]; [done|]. cbn.
  intros [Hc Hf]%orb_false_elim. rewrite (IH Hf), Hc. done.
Qed.


















(** ** Files *)

Lemma write_text_node_at fs p text fs' :
  FS.write_text fs p text = inr fs' → FS.node_at fs' p = Some (FileNode text).
Proof.
  intros Hw. pose proof (write_text_lookup _ _ _ _ Hw) as Hl.
  unfold FS.node_at. destruct (decide (p = "")) as [->|Hp].
  - by vm_compute in Hw.
  - by rewrite bool_decide_eq_false_2.
Qed.

Lemma universal_newlines_id text :
  Py.contains Py.carriage_return text = false → Py.universal_newlines text = text.
Proof.
  induction text as [|c text IH]; [done|]. cbn [Py.contains Py.universal_newlines].
  intros [Hc Ht]%orb_false_elim. rewrite Hc, (IH Ht). done.
Qed.

(** [add_file_with_content] does to the disk what one entry of a batch does. *)
Lemma add_file_with_content_run repo_path file_name text w :
  ∃ lg,
    add_file_with_content repo_path file_name text w =
    (match (attempt repo_path (mkFileInfo file_name text) (fs w)).1 with
     | None => Ok ("File " +:+ file_name +:+ " added successfully")
     | Some e => Raise e
     end,
     mkWorld (attempt repo_path (mkFileInfo file_name text) (fs w)).2 (repos w)
             (log w ++ lg)).
Proof.
  unfold add_file_with_content, attempt. munfold. cbn.
  destruct (FS.makedirs (fs w) _) as [e|fs1]; cbn; [by eexists [_]|].
  destruct (FS.write_text fs1 _ _) as [e|fs2]; cbn; by eexists [_].
Qed.

Lemma read_file_contents_run repo_path file_name w :
  ∃ lg,
    read_file_contents repo_path file_name w =
    (if FS.exists_ (fs w) (Path.join repo_path file_name) then
       match read_text (fs w) (Path.join repo_path file_name) with
       | inr text => Ok text
       | inl e => Raise e
       end
     else Raise (ValueError ("File '" +:+ file_name +:+ "' does not exist in '"
                             +:+ repo_path +:+ "'.")),
     set_log (log w ++ lg) w).
Proof.
  unfold read_file_contents, fs_read. munfold. cbn.
  destruct (FS.exists_ (fs w) _); cbn.
  - destruct (read_text (fs w) _); cbn; log_tail.
  - log_tail.
Qed.

Lemma list_directory_contents_run repo_path w :
  ∃ lg,
    list_directory_contents repo_path w =
    (if FS.exists_ (fs w) repo_path then
       match FS.listdir (fs w) repo_path with
       | inr contents => Ok contents
       | inl e => Raise e
       end
     else Raise (ValueError ("Directory '" +:+ repo_path +:+ "' does not exist.")),
     set_log (log w ++ lg) w).
Proof.
  unfold list_directory_contents, fs_read. munfold. cbn.
  destruct (FS.exists_ (fs w) _); cbn.
  - destruct (FS.listdir (fs w) _); cbn; log_tail.
  - log_tail.
Qed.

(** X18.  Round trip.  Once [add_file_with_content] has returned,
    [read_file_contents] with the same path and name succeeds and returns the
    text that was written, with every ["\r\n"] and every lone ["\r"] read
    as ["\n"]; a text without carriage return comes back unchanged.  The
    read changes neither the filesystem nor the repositories. *)
Theorem add_file_then_read repo_path file_name text w message w1 :
  add_file_with_content repo_path file_name text w = (Ok message, w1) →
  ∃ w2,
    read_file_contents repo_path file_name w1 = (Ok (Py.universal_newlines text), w2)
    ∧ fs w2 = fs w1 ∧ repos w2 = repos w1
    ∧ (Py.contains Py.carriage_return text = false → Py.universal_newlines text = text).
Proof.
  intros Hadd.
  destruct (add_file_with_content_run repo_path file_name text w) as [lg Hrun].
  rewrite Hrun in Hadd. unfold attempt in Hadd. cbn in Hadd.
  destruct (FS.makedirs (fs w) _) as [e|fs1]; cbn in Hadd; [done|].
  destruct (FS.write_text fs1 _ _) as [e|fs2] eqn:Hw; cbn in Hadd; [done|].
  injection Hadd as _ <-.
  apply write_text_node_at in Hw.
  destruct (read_file_contents_run repo_path file_name (mkWorld fs2 (repos w) (log w ++ lg)))
    as [lg' ->].
  unfold FS.exists_, read_text. cbn. rewrite Hw. cbn.
  eexists. split; [reflexivity|]. repeat split. apply universal_newlines_id.
Qed.

Lemma add_file_then_read_witness :
  add_file_with_content "/srv/node" "src/app.js" "run()" Demo.world
  = (Ok "File src/app.js added successfully", Scenes.extended)
  ∧ (read_file_contents "/srv/node" "src/app.js" Scenes.extended).1 = Ok "run()".
Proof.
  assert (H1 : add_file_with_content "/srv/node" "src/app.js" "run()" Demo.world
               = (Ok "File src/app.js added successfully", Scenes.extended))
    by (vm_compute; reflexivity).
  split; [exact H1|].
  destruct (add_file_then_read "/srv/node" "src/app.js" "run()" Demo.world _ _ H1)
    as (w2 & Hrun & _).
  rewrite Hrun. reflexivity.
Defined.


(** The types of a listing do not depend on the order of its names. *)
Lemma existsb_Permutation {A} (f : A → bool) (l l' : list A) :
  l ≡ₚ l' → existsb f l = existsb f l'.
Proof.
  induction 1 as [|x l l' _ IH|x y l|l l' l'' _ IH1 _ IH2]; cbn; [done| | |congruence].
  - by rewrite IH.
  - by destruct (f x), (f y).
Qed.

Lemma py_in_Permutation x (l l' : list string) : l ≡ₚ l' → py_in x l = py_in x l'.
Proof. intros H. unfold py_in. apply bool_decide_ext. by rewrite H. Qed.

Lemma classify_Permutation (l l' : list string) : l ≡ₚ l' → classify l = classify l'.
Proof.
  intros H. unfold classify.
  by rewrite !(existsb_Permutation _ _ _ H), !(py_in_Permutation _ _ _ H).
Qed.

(** Nor do the detected types depend on the order in which a directory
    lists its names. *)
Lemma detect_outcome_listing_order env fs p es es' ok :
  FS.node_at fs p = Some (DirNode es ok) → es ≡ₚ es' →
  detect_outcome env (<[FS.norm p := DirNode es' ok]> fs) p = detect_outcome env fs p.
Proof.
  intros Hnode Hperm. unfold detect_outcome, FS.exists_, FS.listdir, FS.node_at in *.
  destruct (bool_decide (p = "")); [done|].
  rewrite lookup_insert_eq, Hnode.
  rewrite !bool_decide_eq_true_2 by eauto.
  destruct ok; [|done]. by rewrite (classify_Permutation _ _ Hperm).
Qed.



(** Under the names every directory has, nothing is written. *)
Example add_file_with_content_dot :
  (add_file_with_content "/srv/empty" "." "x" Demo.world).1
  = Raise (OSError IsADirectoryError "/srv/empty/.")
  ∧ (add_file_with_content "/srv/empty" ".." "x" Demo.world).1
    = Raise (OSError IsADirectoryError "/srv/empty/..")
  ∧ fs (add_file_with_content "/srv/empty" "." "x" Demo.world).2 = fs Demo.world
  ∧ FS.mkdir (fs Demo.world) "/srv/empty/." = inl (OSError FileExistsError "/srv/empty/.").
Proof. repeat split; vm_compute; reflexivity. Qed.

(** X20.  A file name that starts with a slash is
    not confined to [repo_path]: when [add_file_with_content] returns, the
    file is at [file_name] itself, and the call would have returned the same
    message and left the same filesystem for any other [repo_path]. *)
Theorem add_file_with_content_absolute repo_path file_name text w message w' :
  Str.startswith file_name "/" = true →
  add_file_with_content repo_path file_name text w = (Ok message, w') →
  FS.node_at (fs w') file_name = Some (FileNode text)
  ∧ ∀ other_path,
      (add_file_with_content other_path file_name text w).1 = Ok message
      ∧ fs (add_file_with_content other_path file_name text w).2 = fs w'.
Proof.
  intros Habs Hadd.
  assert (∀ p, attempt p (mkFileInfo file_name text) (fs w)
               = attempt "" (mkFileInfo file_name text) (fs w)) as Hsame.
  { intros p. unfold attempt, Path.join. cbn [path content]. by rewrite Habs. }
  destruct (add_file_with_content_run repo_path file_name text w) as [lg Hrun].
  rewrite Hrun, Hsame in Hadd.
  split.
  - revert Hadd. unfold attempt, Path.join. cbn [path content]. rewrite Habs.
    destruct (FS.makedirs (fs w) _) as [e|fs1]; cbn; [done|].
    destruct (FS.write_text fs1 _ _) as [e|fs2] eqn:Hw; cbn; [done|].
    intros [= _ <-]. cbn. by apply write_text_node_at in Hw.
  - intros other_path.
    destruct (add_file_with_content_run other_path file_name text w) as [lg' ->].
    rewrite Hsame. cbn.
    destruct (attempt "" _ _) as [[e|] fs']; cbn in *; [done|].
    by injection Hadd as <- <-.
Qed.

Lemma add_file_with_content_absolute_witness :
  (Str.startswith "/srv/empty/notes.txt" "/" = true
   ∧ (add_file_with_content "/srv/demo" "/srv/empty/notes.txt" "hello" Demo.world).1
     = Ok "File /srv/empty/notes.txt added successfully")
  ∧ FS.node_at (fs (add_file_with_content "/srv/demo" "/srv/empty/notes.txt" "hello"
                      Demo.world).2) "/srv/empty/notes.txt"
    = Some (FileNode "hello").
Proof.
  assert (H1 : Str.startswith "/srv/empty/notes.txt" "/" = true) by reflexivity.
  assert (H2 : add_file_with_content "/srv/demo" "/srv/empty/notes.txt" "hello" Demo.world
               = (Ok "File /srv/empty/notes.txt added successfully",
                  (add_file_with_content "/srv/demo" "/srv/empty/notes.txt" "hello"
                     Demo.world).2))
    by (vm_compute; reflexivity).
  split; [split; [exact H1|by rewrite H2]|].
  exact (proj1 (add_file_with_content_absolute "/srv/demo" "/srv/empty/notes.txt" "hello"
                  Demo.world _ _ H1 H2)).
Defined.

(** What a batch returns and leaves, in terms of its attempts. *)
Lemma add_multiple_files_run repo_path files w :
  ∃ lg,
    add_multiple_files repo_path files w =
    (Ok (mkBatchResult
           (bool_decide (length (failure_messages (attempts repo_path files (fs w)).1) = 0))
           ("Created " +:+ Str.of_nat (length (written (attempts repo_path files (fs w)).1))
            +:+ " files, "
            +:+ Str.of_nat (length (failure_messages (attempts repo_path files (fs w)).1))
            +:+ " errors")
           (written (attempts repo_path files (fs w)).1)
           (failure_messages (attempts repo_path files (fs w)).1)),
     mkWorld (attempts repo_path files (fs w)).2 (repos w) (log w ++ lg)).
Proof.
  unfold add_multiple_files. munfold. cbn.
  match goal with |- context [add_files_loop repo_path files ?acc ?w0] =>
    destruct (add_files_loop_run repo_path files [] [] w0) as [lg ->] end.
  cbn. rewrite <-app_assoc. by eexists.
Qed.

(** X22.  A batch of one entry does to the disk what
    [add_file_with_content] does with the same path and text: both leave the
    same filesystem and the same repositories.  Where the single call
    returns, the batch reports success and lists the file as created; where
    the single call raises, the batch returns as well, reports failure, and
    its one error message carries the text of that exception. *)
Theorem add_multiple_files_single repo_path file_name text w :
  let one := add_file_with_content repo_path file_name text w in
  let batch := add_multiple_files repo_path [mkFileInfo file_name text] w in
  fs batch.2 = fs one.2 ∧ repos batch.2 = repos one.2
  ∧ match one.1, batch.1 with
    | Ok _, Ok res =>
        success res = true ∧ created_files res = [file_name] ∧ errors res = []
    | Raise e, Ok res =>
        success res = false ∧ created_files res = []
        ∧ errors res = ["Failed to create file '" +:+ file_name +:+ "': " +:+ exn_str e]
    | _, Raise _ => False
    end.
Proof.
  intros one batch. subst one batch.
  destruct (add_file_with_content_run repo_path file_name text w) as [lg ->].
  destruct (add_multiple_files_run repo_path [mkFileInfo file_name text] w) as [lg' ->].
  cbn [attempts].
  destruct (attempt repo_path _ (fs w)) as [[e|] fs']; cbn; done.
Qed.

(** X14.  [detect_project_type] looks at what
    [list_directory_contents] returns and at nothing else: when the listing
    succeeds, the detected types are the classification of the listing (in
    the iteration order of the set); whenever the listing raises (missing
    path, not a directory, no permission) the detection answers
    [["general"]]. *)
Theorem detect_reads_listing env repo_path w :
  match (list_directory_contents repo_path w).1 with
  | Ok contents =>
      (detect_project_type env repo_path w).1 = Ok (list_of_set env (classify contents))
  | Raise _ => (detect_project_type env repo_path w).1 = Ok ["general"]
  end.
Proof.
  destruct (list_directory_contents_run repo_path w) as [lg ->].
  destruct (detect_project_type_run env repo_path w) as [lg' ->].
  unfold detect_outcome. cbn.
  destruct (FS.exists_ (fs w) repo_path); [|done].
  by destruct (FS.listdir (fs w) repo_path).
Qed.

Lemma join_empty b : Path.join "" b = b.
Proof. unfold Path.join. by destruct (Str.startswith b "/"). Qed.

(** X21.  With an empty [repo_path], a file name
    without a slash cannot be added: the directory to create is the empty
    path, [os.makedirs] raises [FileNotFoundError] for it, and
    [add_file_with_content] raises that error and leaves the filesystem and
    the repositories as they were. *)
Theorem add_file_with_content_empty_repo_path file_name text w :
  Py.contains Path.slash file_name = false →
  ∃ w',
    add_file_with_content "" file_name text w = (Raise (OSError FileNotFoundError ""), w')
    ∧ fs w' = fs w ∧ repos w' = repos w.
Proof.
  intros Hf.
  destruct (add_file_with_content_run "" file_name text w) as [lg ->].
  unfold attempt. cbn [path content]. rewrite join_empty.
  unfold Path.dirname, Path.split. rewrite (cut_no_slash _ Hf). cbn.
  eexists. split; [reflexivity|]. done.
Qed.

Lemma add_file_with_content_empty_repo_path_witness :
  Py.contains Path.slash "notes.txt" = false
  ∧ (add_file_with_content "" "notes.txt" "hello" Demo.world).1
    = Raise (OSError FileNotFoundError "").
Proof.
  assert (H1 : Py.contains Path.slash "notes.txt" = false) by (vm_compute; reflexivity).
  split; [exact H1|].
  destruct (add_file_with_content_empty_repo_path "notes.txt" "hello" Demo.world H1)
    as (w' & Hrun & _).
  rewrite Hrun. reflexivity.
Defined.

(** The first definition, for contrast, writes the file where it is and
    does not create its directory. *)
Example add_file_with_content_first_nested :
  (add_file_with_content_first "/srv/node" "src/app.js" "run()" Demo.world).1
  = Raise (OSError FileNotFoundError "/srv/node/src/app.js")
  ∧ (add_file_with_content "/srv/node" "src/app.js" "run()" Demo.world).1
    = Ok "File src/app.js added successfully".
Proof. split; vm_compute; reflexivity. Qed.

(** ** The route layer *)

(** X24.  Reading a file that does not exist through the route
    [read_file] ends the request with status 500 (not 404); the detail is
    the message of the [ValueError] that [read_file_contents] raised, which
    names the file and the directory.  Nothing on disk changes. *)
Theorem read_file_route_missing repo_path file_name w :
  FS.exists_ (fs w) (Path.join repo_path file_name) = false →
  ∃ w',
    App.read_file repo_path file_name w
    = (Ok (HTTPException 500 ("File '" +:+ file_name +:+ "' does not exist in '"
                              +:+ repo_path +:+ "'.")), w')
    ∧ fs w' = fs w ∧ repos w' = repos w.
Proof.
  intros Hmiss. unfold App.read_file.
  destruct (read_file_contents_run repo_path file_name w) as [lg Hrun].
  rewrite Hmiss in Hrun. munfold. rewrite Hrun. cbn.
  eexists. split; [reflexivity|]. done.
Qed.

Lemma read_file_route_missing_witness :
  FS.exists_ (fs Demo.world) (Path.join "/srv/empty" "README.md") = false
  ∧ (App.read_file "/srv/empty" "README.md" Demo.world).1
    = Ok (HTTPException 500 "File 'README.md' does not exist in '/srv/empty'.").
Proof.
  assert (H1 : FS.exists_ (fs Demo.world) (Path.join "/srv/empty" "README.md") = false)
    by (vm_compute; reflexivity).
  split; [exact H1|].
  destruct (read_file_route_missing "/srv/empty" "README.md" Demo.world H1)
    as (w' & Hrun & _).
  rewrite Hrun. reflexivity.
Defined.

(** X8.  The route [commit_changes] does not look at what [add_and_commit]
    returns: whenever [add_and_commit] returns, with [True] or with [False],
    the route answers [success: True] and "Changes committed with message:
    ...".  So on a clean repository, where [add_and_commit] returns [False],
    the route reports a commit although none was made and the repositories
    are exactly as before. *)
Theorem commit_route_reports_success env w repo_path commit_message :
  let committed :=
    Respond (format_response true
               ("Changes committed with message: " +:+ commit_message) JNone) in
  (∀ result w1,
     add_and_commit env repo_path commit_message w = (Ok result, w1) →
     App.commit_changes env repo_path commit_message w = (Ok committed, w1))
  ∧ (∀ r,
       repos w !! FS.norm repo_path = Some r → Git.is_dirty r = false →
       ∃ w',
         add_and_commit env repo_path commit_message w = (Ok false, w')
         ∧ App.commit_changes env repo_path commit_message w = (Ok committed, w')
         ∧ fs w' = fs w ∧ repos w' = repos w).
Proof.
  intros committed.
  assert (∀ result w1,
            add_and_commit env repo_path commit_message w = (Ok result, w1) →
            App.commit_changes env repo_path commit_message w = (Ok committed, w1))
    as Hany.
  { intros result w1 Hrun. unfold App.commit_changes. munfold. by rewrite Hrun. }
  split; [exact Hany|].
  intros r Hr Hclean.
  assert (∃ w', add_and_commit env repo_path commit_message w = (Ok false, w')
                ∧ fs w' = fs w ∧ repos w' = repos w) as (w' & Hrun & Hfs & Hrepos).
  { unfold add_and_commit, Repo_open, repo_attr. munfold.
    cbn. rewrite Hr. cbn. rewrite Hr. cbn. rewrite Hclean. cbn.
    eexists. split; [reflexivity|]. done. }
  exists w'. split; [exact Hrun|]. split; [exact (Hany _ _ Hrun)|]. done.
Qed.

Lemma commit_route_reports_success_witness :
  (repos Demo.world !! FS.norm "/srv/demo" = Some Demo.repo
   ∧ Git.is_dirty Demo.repo = false)
  ∧ (add_and_commit Demo.env "/srv/demo" "Nothing new" Demo.world).1 = Ok false
  ∧ (App.commit_changes Demo.env "/srv/demo" "Nothing new" Demo.world).1
    = Ok (Respond (JDict [("success", JBool true);
                          ("message", JStr "Changes committed with message: Nothing new")]))
  ∧ repos (App.commit_changes Demo.env "/srv/demo" "Nothing new" Demo.world).2
    = repos Demo.world.
Proof.
  assert (H1 : repos Demo.world !! FS.norm "/srv/demo" = Some Demo.repo)
    by (vm_compute; reflexivity).
  assert (H2 : Git.is_dirty Demo.repo = false) by reflexivity.
  split; [exact (conj H1 H2)|].
  destruct (proj2 (commit_route_reports_success Demo.env Demo.world "/srv/demo" "Nothing new")
              Demo.repo H1 H2) as (w' & Hrun & Hroute & _ & Hsame).
  rewrite Hrun, Hroute. split; [reflexivity|]. split; [reflexivity|]. exact Hsame.
Defined.

(** X11.  The route [merge] does not look at what [merge_branch] returns.
    When the merge stops on a conflict and is aborted, [merge_branch] returns
    [False] and the route still answers [success: True] with "Merged ... into
    ... successfully", while the commits, the branches and the checked-out
    branch are what they were and the failure is only in the log. *)
Theorem merge_route_reports_conflict_as_success env w repo_path r source_branch
    target_branch current_branch s t c paths :
  repos w !! FS.norm repo_path = Some r →
  heads r !! source_branch = Some s →
  heads r !! target_branch = Some t →
  HEAD r = OnBranch current_branch →
  heads r !! current_branch = Some c →
  merge_head r = None →
  Git.refusal env (FS.norm repo_path) r t = None →
  Git.refusal env (FS.norm repo_path) (set_HEAD (OnBranch target_branch) r) c = None →
  s ≠ t →
  merge_outcome env (FS.norm repo_path) (Git.local_changes r) s t = Conflict paths →
  ∃ w' r',
    merge_branch env repo_path source_branch target_branch w = (Ok false, w')
    ∧ App.merge env repo_path source_branch target_branch w
      = (Ok (Respond (format_response true
                        ("Merged " +:+ source_branch +:+ " into " +:+ target_branch
                         +:+ " successfully") JNone)), w')
    ∧ repos w' !! FS.norm repo_path = Some r'
    ∧ commits r' = commits r ∧ heads r' = heads r ∧ HEAD r' = HEAD r
    ∧ ∃ why, (ERROR, "Merge failed: " +:+ why) ∈ log w'.
Proof.
  intros Hr Hs Ht Hcur Hc Hm Hgo Hback Hst Hout.
  assert (∃ w' r',
            merge_branch env repo_path source_branch target_branch w = (Ok false, w')
            ∧ repos w' !! FS.norm repo_path = Some r'
            ∧ commits r' = commits r ∧ heads r' = heads r ∧ HEAD r' = HEAD r
            ∧ ∃ why, (ERROR, "Merge failed: " +:+ why) ∈ log w')
    as (w' & r' & Hrun & Hrest).
  { unfold merge_branch, Repo_open, repo_attr, on_repo. munfold.
    cbn. rewrite Hr. cbn. rewrite Hr.
    rewrite (py_in_head_names_Some _ _ _ Hs). cbn. rewrite Hr.
    rewrite (py_in_head_names_Some _ _ _ Ht). cbn. rewrite Hr.
    gunfold. munfold. cbn. rewrite Hcur. cbn. rewrite lookup_insert_eq. cbn.
    rewrite Hm, Ht. cbn.
    erewrite (refusal_ext _ _ _ r t), Hgo by reflexivity. cbn.
    rewrite lookup_insert_eq. cbn.
    rewrite Hm, Hs, Ht. cbn.
    rewrite bool_decide_eq_false_2 by done. unfold Git.local_changes in *. cbn.
    rewrite Hout. cbn.
    rewrite lookup_insert_eq. cbn.
    destruct (bool_decide (current_branch ≠ target_branch)) eqn:Hne; cbn.
    - rewrite lookup_insert_eq. cbn. rewrite Hc. cbn.
      erewrite (refusal_ext _ _ _ (set_HEAD (OnBranch target_branch) r) c), Hback
        by reflexivity.
      cbn.
      eexists _, _. split; [reflexivity|]. cbn. rewrite lookup_insert_eq.
      split; [reflexivity|]. cbn. split; [done|]. split; [done|].
      split; [done|].
      exists "Automatic merge failed; fix conflicts and then commit the result.".
      set_solver.
    - apply bool_decide_eq_false in Hne. apply dec_stable in Hne. subst.
      eexists _, _. split; [reflexivity|]. cbn. rewrite lookup_insert_eq.
      split; [reflexivity|]. cbn. split; [done|]. split; [done|].
      split; [done|].
      exists "Automatic merge failed; fix conflicts and then commit the result.".
      set_solver. }
  exists w', r'. split; [exact Hrun|]. split; [|exact Hrest].
  unfold App.merge. munfold. by rewrite Hrun.
Qed.

Lemma merge_route_reports_conflict_as_success_witness :
  (repos Demo.world !! FS.norm "/srv/demo" = Some Demo.repo
   ∧ heads Demo.repo !! "topic" = Some 3
   ∧ heads Demo.repo !! "main" = Some 1
   ∧ HEAD Demo.repo = OnBranch "topic"
   ∧ merge_head Demo.repo = None
   ∧ Git.refusal Demo.env (FS.norm "/srv/demo") Demo.repo 1 = None
   ∧ Git.refusal Demo.env (FS.norm "/srv/demo") (set_HEAD (OnBranch "main") Demo.repo) 3
     = None
   ∧ 3 ≠ 1
   ∧ merge_outcome Demo.env (FS.norm "/srv/demo") (Git.local_changes Demo.repo) 3 1
     = Conflict ["x"])
  ∧ (merge_branch Demo.env "/srv/demo" "topic" "main" Demo.world).1 = Ok false
  ∧ (App.merge Demo.env "/srv/demo" "topic" "main" Demo.world).1
    = Ok (Respond (JDict [("success", JBool true);
                          ("message", JStr "Merged topic into main successfully")])).
Proof.
  assert (H1 : repos Demo.world !! FS.norm "/srv/demo" = Some Demo.repo)
    by (vm_compute; reflexivity).
  assert (H2 : heads Demo.repo !! "topic" = Some 3) by (vm_compute; reflexivity).
  assert (H3 : heads Demo.repo !! "main" = Some 1) by (vm_compute; reflexivity).
  assert (H4 : HEAD Demo.repo = OnBranch "topic") by reflexivity.
  assert (H5 : merge_head Demo.repo = None) by reflexivity.
  assert (H6 : 3 ≠ 1) by lia.
  assert (H7 : merge_outcome Demo.env (FS.norm "/srv/demo") (Git.local_changes Demo.repo)
                 3 1 = Conflict ["x"])
    by reflexivity.
  assert (H8 : Git.refusal Demo.env (FS.norm "/srv/demo") Demo.repo 1 = None)
    by reflexivity.
  assert (H9 : Git.refusal Demo.env (FS.norm "/srv/demo")
                 (set_HEAD (OnBranch "main") Demo.repo) 3 = None)
    by reflexivity.
  split; [repeat split; assumption|].
  destruct (merge_route_reports_conflict_as_success Demo.env Demo.world "/srv/demo" Demo.repo
              "topic" "main" "topic" 3 1 3 ["x"] H1 H2 H3 H4 H2 H5 H8 H9 H6 H7)
    as (w' & r' & Hrun & Hroute & _).
  rewrite Hrun, Hroute. split; reflexivity.
Defined.

Lemma FileInfo_eta files : map (λ f, mkFileInfo (path f) (content f)) files = files.
Proof. induction files as [|[p c] files IH]; [done|]. cbn. by rewrite IH. Qed.

(** X23.  The route [api_add_multiple_files] always answers with a
    body, never with an error status.  Its [success] field tells whether
    every entry was written; [data] holds [created_files], and [errors] as
    well exactly when some entry failed.  The filesystem is the one the
    attempts left, and the repositories are untouched. *)
Theorem add_files_route repo_path files w :
  let tried := (attempts repo_path files (fs w)).1 in
  ∃ body w',
    App.api_add_multiple_files repo_path files w = (Ok (Respond body), w')
    ∧ Json_get "success" body = Some (JBool (bool_decide (failure_messages tried = [])))
    ∧ Json_get "data" body
      = Some (JDict (("created_files", JList (JStr <$> written tried))
                     :: if bool_decide (failure_messages tried = []) then []
                        else [("errors", JList (JStr <$> failure_messages tried))]))
    ∧ fs w' = (attempts repo_path files (fs w)).2
    ∧ repos w' = repos w.
Proof.
  intros tried. subst tried.
  unfold App.api_add_multiple_files. munfold. rewrite FileInfo_eta.
  destruct (add_multiple_files_run repo_path files w) as [lg ->]. cbn.
  destruct (failure_messages (attempts repo_path files (fs w)).1) as [|m ms] eqn:Hf; cbn.
  - eexists _, _. split; [reflexivity|]. done.
  - eexists _, _. split; [reflexivity|]. done.
Qed.

(** X15.  The route [detect_type] never ends in an error status:
    for every path and every state of the disk it answers [success: True] with
    a non-empty list of project types, and changes neither the filesystem nor
    the repositories. *)
Theorem detect_type_route_answers env repo_path w :
  ∃ first rest w',
    App.detect_type env repo_path w
    = (Ok (Respond (format_response true "Project type detected"
                      (JDict [("project_types", JList (JStr <$> first :: rest))]))), w')
    ∧ fs w' = fs w ∧ repos w' = repos w.
Proof.
  unfold App.detect_type. munfold.
  destruct (detect_project_type_run env repo_path w) as [lg ->].
  pose proof (detect_outcome_nonempty env (fs w) repo_path) as Hne.
  destruct (detect_outcome env (fs w) repo_path) as [|first rest]; [done|].
  eexists _, _, _. split; [reflexivity|]. done.
Qed.

(** ** Default branch, initialisation and ignore files, again *)

(** X3.  [ensure_main_branch] (the definition that runs) is
    idempotent on a repository that has a commit checked out and no remote
    [origin]: the first call returns [True] and leaves a branch [main]; a
    second call returns [True] and leaves the whole state, log included,
    exactly as the first call left it. *)
Theorem ensure_main_branch_idempotent env w repo_path r t :
  repos w !! FS.norm repo_path = Some r →
  Git.tip r = Some t →
  remotes r !! "origin" = None →
  ∃ w1 r1,
    ensure_main_branch env repo_path w = (Ok true, w1)
    ∧ repos w1 !! FS.norm repo_path = Some r1
    ∧ is_Some (heads r1 !! "main")
    ∧ ensure_main_branch env repo_path w1 = (Ok true, w1).
Proof.
  intros Hr Htip Ho.
  assert (∀ w0 r0 c,
            repos w0 !! FS.norm repo_path = Some r0 → heads r0 !! "main" = Some c →
            remotes r0 !! "origin" = None →
            ensure_main_branch env repo_path w0 = (Ok true, w0)) as Hsettled.
  { intros w0 r0 c Hr0 Hmain Ho0.
    unfold ensure_main_branch, Repo_open, repo_attr, on_repo. munfold.
    cbn. rewrite Hr0. cbn. rewrite Hr0. cbn.
    rewrite (has_head_true _ _ _ Hmain). cbn. rewrite Hr0. cbn.
    rewrite (has_remote_false _ _ Ho0). cbn. done. }
  destruct (heads r !! "main") as [c|] eqn:Hmain.
  - exists w, r. rewrite (Hsettled w r c) by done. eauto.
  - unfold ensure_main_branch at 1. unfold Repo_open, repo_attr, on_repo. munfold.
    cbn. rewrite Hr. cbn. rewrite Hr. cbn.
    rewrite (has_head_false _ _ Hmain). cbn. rewrite Hr. cbn.
    gunfold. munfold. cbn. rewrite Hmain. unfold Git.tip in *. cbn. rewrite Htip. cbn.
    rewrite lookup_insert_eq. cbn. unfold Git.has_remote. cbn. rewrite Ho.
    rewrite bool_decide_eq_false_2 by (by intros [? ?]). cbn.
    eexists _, _. split; [reflexivity|]. cbn. rewrite lookup_insert_eq.
    split; [reflexivity|]. cbn. rewrite lookup_insert_eq. split; [eauto|].
    eapply Hsettled; cbn; [apply lookup_insert_eq|..]; cbn; [apply lookup_insert_eq|done].
Qed.

Lemma ensure_main_branch_idempotent_witness :
  (repos Demo.world !! FS.norm "/srv/legacy" = Some Demo.legacy
   ∧ Git.tip Demo.legacy = Some 0
   ∧ remotes Demo.legacy !! "origin" = None)
  ∧ ∃ w1,
      ensure_main_branch Demo.env "/srv/legacy" Demo.world = (Ok true, w1)
      ∧ ensure_main_branch Demo.env "/srv/legacy" w1 = (Ok true, w1).
Proof.
  assert (H1 : repos Demo.world !! FS.norm "/srv/legacy" = Some Demo.legacy)
    by (vm_compute; reflexivity).
  assert (H2 : Git.tip Demo.legacy = Some 0) by (vm_compute; reflexivity).
  assert (H3 : remotes Demo.legacy !! "origin" = None) by (vm_compute; reflexivity).
  split; [exact (conj H1 (conj H2 H3))|].
  destruct (ensure_main_branch_idempotent Demo.env Demo.world "/srv/legacy" Demo.legacy 0
              H1 H2 H3) as (w1 & r1 & Hrun & _ & _ & Hagain).
  exists w1. exact (conj Hrun Hagain).
Defined.

(** X4.  On a repository without any commit,
    [ensure_main_branch] (the definition that runs) returns [True] and puts
    [main] in [HEAD], but creates neither a commit nor a branch: afterwards
    [main] is still not among [repo.heads]. *)
Theorem ensure_main_branch_without_commits env w repo_path r :
  repos w !! FS.norm repo_path = Some r →
  Git.tip r = None →
  heads r !! "main" = None →
  remotes r !! "origin" = None →
  ∃ w' r',
    ensure_main_branch env repo_path w = (Ok true, w')
    ∧ repos w' !! FS.norm repo_path = Some r'
    ∧ HEAD r' = OnBranch "main"
    ∧ heads r' = heads r ∧ commits r' = commits r
    ∧ Git.has_head "main" r' = false.
Proof.
  intros Hr Htip Hmain Ho.
  unfold ensure_main_branch, Repo_open, repo_attr, on_repo. munfold.
  cbn. rewrite Hr. cbn. rewrite Hr. cbn.
  rewrite (has_head_false _ _ Hmain). cbn. rewrite Hr. cbn.
  gunfold. munfold. cbn. rewrite Hmain. unfold Git.tip in *. cbn. rewrite Htip. cbn.
  rewrite lookup_insert_eq. cbn. unfold Git.has_remote. cbn. rewrite Ho.
  rewrite bool_decide_eq_false_2 by (by intros [? ?]). cbn.
  eexists _, _. split; [reflexivity|]. cbn. rewrite lookup_insert_eq.
  split; [reflexivity|]. cbn. repeat split. by apply has_head_false.
Qed.

Lemma ensure_main_branch_without_commits_witness :
  (repos Scenes.world !! FS.norm "/srv/new" = Some (Git.fresh Demo.env)
   ∧ Git.tip (Git.fresh Demo.env) = None
   ∧ heads (Git.fresh Demo.env) !! "main" = None
   ∧ remotes (Git.fresh Demo.env) !! "origin" = None)
  ∧ (ensure_main_branch Demo.env "/srv/new" Scenes.world).1 = Ok true
  ∧ Git.head_names <$> repos (ensure_main_branch Demo.env "/srv/new" Scenes.world).2
                         !! FS.norm "/srv/new"
    = Some [].
Proof.
  assert (H1 : repos Scenes.world !! FS.norm "/srv/new" = Some (Git.fresh Demo.env))
    by (vm_compute; reflexivity).
  assert (H2 : Git.tip (Git.fresh Demo.env) = None) by (vm_compute; reflexivity).
  assert (H3 : heads (Git.fresh Demo.env) !! "main" = None) by (vm_compute; reflexivity).
  assert (H4 : remotes (Git.fresh Demo.env) !! "origin" = None) by (vm_compute; reflexivity).
  split; [exact (conj H1 (conj H2 (conj H3 H4)))|].
  destruct (ensure_main_branch_without_commits Demo.env Scenes.world "/srv/new"
              (Git.fresh Demo.env) H1 H2 H3 H4) as (w' & r' & Hrun & Hrepo & _ & Hheads & _).
  rewrite Hrun. split; [reflexivity|]. cbn [snd]. rewrite Hrepo. cbn.
  unfold Git.head_names. rewrite Hheads. reflexivity.
Defined.

(** X1.  Without [GITHUB_USERNAME] (unset or empty), and in a directory
    the process can create, or finds, and may use, [init_local_repo] still
    returns the repository, in a directory that exists, logs one warning and
    touches no remote: a repository that was already there is left exactly as
    it was, a new one has the metadata of [git init], and the other
    repositories are unchanged. *)
Theorem init_local_repo_without_account env repo_path w fs1 :
  environ env !! "GITHUB_USERNAME" = None ∨ environ env !! "GITHUB_USERNAME" = Some "" →
  FS.makedirs (fs w) repo_path = inr fs1 →
  FS.accessible fs1 repo_path = true →
  ∃ w',
    init_local_repo env repo_path w = (Ok (FS.norm repo_path), w')
    ∧ FS.isdir (fs w') repo_path = true
    ∧ repos w' !! FS.norm repo_path
      = Some (default (Git.fresh env) (repos w !! FS.norm repo_path))
    ∧ (∀ other, other ≠ FS.norm repo_path → repos w' !! other = repos w !! other)
    ∧ log w' = log w ++ [(WARNING, "GITHUB_USERNAME environment variable is not set")].
Proof.
  intros Huser Hmk Hacc. pose proof (accessible_isdir _ _ Hacc) as Hdir.
  unfold init_local_repo, Repo_init, repo_attr, on_repo. munfold. cbn.
  rewrite Hmk. cbn. rewrite (isdir_exists _ _ Hdir). cbn. rewrite Hdir. cbn.
  rewrite Hacc. cbn.
  destruct (repos w !! FS.norm repo_path) as [r|] eqn:Hr; cbn.
  - destruct Huser as [-> | ->]; cbn; (eexists; split; [reflexivity|]; cbn; rewrite Hr; done).
  - destruct Huser as [-> | ->]; cbn;
      (eexists; split; [reflexivity|]; cbn; rewrite lookup_insert_eq;
       split_and!; try done; intros other Hother; by rewrite lookup_insert_ne).
Qed.

Lemma init_local_repo_without_account_witness :
  ((environ Scenes.anonymous !! "GITHUB_USERNAME" = None
    ∨ environ Scenes.anonymous !! "GITHUB_USERNAME" = Some "")
   ∧ FS.makedirs (fs Demo.world) "/srv/fresh" = inr (Demo.created (fs Demo.world) "/srv/fresh")
   ∧ FS.accessible (Demo.created (fs Demo.world) "/srv/fresh") "/srv/fresh" = true)
  ∧ (init_local_repo Scenes.anonymous "/srv/fresh" Demo.world).1 = Ok "/srv/fresh"
  ∧ remotes <$> repos (init_local_repo Scenes.anonymous "/srv/fresh" Demo.world).2
                  !! "/srv/fresh"
    = Some ∅.
Proof.
  assert (H1 : environ Scenes.anonymous !! "GITHUB_USERNAME" = None
               ∨ environ Scenes.anonymous !! "GITHUB_USERNAME" = Some "")
    by (left; vm_compute; reflexivity).
  assert (H2 : FS.makedirs (fs Demo.world) "/srv/fresh"
               = inr (Demo.created (fs Demo.world) "/srv/fresh"))
    by (vm_compute; reflexivity).
  assert (H3 : FS.accessible (Demo.created (fs Demo.world) "/srv/fresh") "/srv/fresh" = true)
    by (vm_compute; reflexivity).
  split; [exact (conj H1 (conj H2 H3))|].
  destruct (init_local_repo_without_account Scenes.anonymous "/srv/fresh" Demo.world _
              H1 H2 H3) as (w' & Hrun & _ & Hrepo & _).
  rewrite Hrun. split; [reflexivity|]. cbn [snd].
  change "/srv/fresh" with (FS.norm "/srv/fresh") at 1. rewrite Hrepo. reflexivity.
Defined.

(** X2.  When the directory cannot be created, the route
    [initialize_repo] ends the request with status 500 and the text of the
    error [os.makedirs] raised; no repository is registered and the
    filesystem is unchanged. *)
Theorem initialize_repo_route_failure env repo_path w e :
  FS.makedirs (fs w) repo_path = inl e →
  ∃ w',
    App.initialize_repo env repo_path w = (Ok (HTTPException 500 (exn_str e)), w')
    ∧ fs w' = fs w ∧ repos w' = repos w.
Proof.
  intros Hmk. unfold App.initialize_repo, init_local_repo. munfold. cbn.
  rewrite Hmk. cbn. eexists. split; [reflexivity|]. done.
Qed.

Lemma initialize_repo_route_failure_witness :
  FS.makedirs (fs Demo.world) "/srv/node/package.json"
  = inl (OSError FileExistsError "/srv/node/package.json")
  ∧ (App.initialize_repo Demo.env "/srv/node/package.json" Demo.world).1
    = Ok (HTTPException 500 "[Errno 17] File exists: '/srv/node/package.json'").
Proof.
  assert (H1 : FS.makedirs (fs Demo.world) "/srv/node/package.json"
               = inl (OSError FileExistsError "/srv/node/package.json"))
    by (vm_compute; reflexivity).
  split; [exact H1|].
  destruct (initialize_repo_route_failure Demo.env "/srv/node/package.json" Demo.world _ H1)
    as (w' & Hrun & _).
  rewrite Hrun. reflexivity.
Defined.

(** X16.  In a directory that is not a
    repository, [generate_gitignore] still writes the ignore file and returns
    its path: the failure of the commit step is logged as a warning and
    swallowed, and no repository is touched. *)
Theorem generate_gitignore_without_repository env repo_path w fs' :
  repos w !! FS.norm repo_path = None →
  FS.write_text (fs w) (Path.join repo_path ".gitignore")
    (ignore_content env (fs w) repo_path) = inr fs' →
  ∃ w',
    generate_gitignore env repo_path w = (Ok (Path.join repo_path ".gitignore"), w')
    ∧ fs w' = fs' ∧ repos w' = repos w
    ∧ ∃ why, (WARNING, "Could not commit .gitignore: " +:+ why) ∈ log w'.
Proof.
  intros Hr Hw.
  unfold generate_gitignore. munfold. cbn.
  match goal with |- context [detect_project_type env repo_path ?w0] =>
    destruct (detect_project_type_run env repo_path w0) as [lg0 ->] end.
  cbn. fold (ignore_content env (fs w) repo_path). rewrite Hw. cbn.
  unfold Repo_open. munfold. cbn. rewrite Hr.
  destruct (FS.exists_ fs' repo_path); cbn.
  - eexists. split; [reflexivity|]. cbn. repeat split.
    exists (exn_str (InvalidGitRepositoryError repo_path)). set_solver.
  - eexists. split; [reflexivity|]. cbn. repeat split.
    exists (exn_str (NoSuchPathError repo_path)). set_solver.
Qed.

Lemma generate_gitignore_without_repository_witness :
  (repos Demo.world !! FS.norm "/srv/node" = None
   ∧ FS.write_text (fs Demo.world) (Path.join "/srv/node" ".gitignore")
       (ignore_content Demo.env (fs Demo.world) "/srv/node")
     = inr (fs (generate_gitignore Demo.env "/srv/node" Demo.world).2))
  ∧ (generate_gitignore Demo.env "/srv/node" Demo.world).1 = Ok "/srv/node/.gitignore"
  ∧ repos (generate_gitignore Demo.env "/srv/node" Demo.world).2 = repos Demo.world.
Proof.
  assert (H1 : repos Demo.world !! FS.norm "/srv/node" = None) by (vm_compute; reflexivity).
  assert (H2 : FS.write_text (fs Demo.world) (Path.join "/srv/node" ".gitignore")
                 (ignore_content Demo.env (fs Demo.world) "/srv/node")
               = inr (fs (generate_gitignore Demo.env "/srv/node" Demo.world).2))
    by (vm_compute; reflexivity).
  split; [exact (conj H1 H2)|].
  destruct (generate_gitignore_without_repository Demo.env "/srv/node" Demo.world _ H1 H2)
    as (w' & Hrun & _ & Hrepos & _).
  rewrite Hrun. split; [reflexivity|]. exact Hrepos.
Defined.



(** ** Project types, again *)

Lemma classify_tags files :
  NoDup (classify files)
  ∧ ("python" ∈ classify files ↔ looks_python files = true)
  ∧ ("node" ∈ classify files ↔ looks_node files = true)
  ∧ ("rust" ∈ classify files ↔ looks_rust files = true)
  ∧ ("general" ∈ classify files ↔
       looks_python files = false ∧ looks_node files = false ∧ looks_rust files = false)
  ∧ (∀ t, t ∈ classify files → t ∈ ["python"; "node"; "rust"; "general"]).
Proof.
  unfold classify, looks_python, looks_node, looks_rust.
  destruct (existsb (λ f, Str.endswith f ".py") files || py_in "requirements.txt" files),
    (existsb (λ f, Str.endswith f ".js") files || py_in "package.json" files),
    (existsb (λ f, Str.endswith f ".rs") files || py_in "Cargo.toml" files);
    vm_compute set_add; vm_compute bool_decide;
    (split; [by apply (bool_decide_unpack _)|]);
    rewrite ?elem_of_cons, ?elem_of_nil;
    (repeat split; try (intros t; rewrite ?elem_of_cons, ?elem_of_nil);
     intuition congruence).
Qed.

Lemma list_of_set_tags env s t : t ∈ list_of_set env s ↔ t ∈ s.
Proof. by rewrite (list_of_set_Permutation env s). Qed.

Lemma list_of_set_NoDup env s : NoDup s → NoDup (list_of_set env s).
Proof. by rewrite (list_of_set_Permutation env s). Qed.

Lemma list_of_set_single env x : list_of_set env [x] = [x].
Proof. apply Permutation_singleton_r, list_of_set_Permutation. Qed.

(** X12.  [detect_project_type] always returns a list without
    duplicates whose elements are among [python], [node], [rust] and
    [general]; [general] never comes with another type. *)
Theorem detect_project_type_tags env repo_path w :
  ∃ types w',
    detect_project_type env repo_path w = (Ok types, w')
    ∧ NoDup types
    ∧ (∀ t, t ∈ types → t ∈ ["python"; "node"; "rust"; "general"])
    ∧ ("general" ∈ types → types = ["general"]).
Proof.
  destruct (detect_project_type_run env repo_path w) as [lg ->].
  eexists _, _. split; [reflexivity|].
  unfold detect_outcome.
  assert (NoDup ["general"] ∧ (∀ t, t ∈ ["general"] → t ∈ ["python"; "node"; "rust"; "general"])
          ∧ ("general" ∈ ["general"] → ["general"] = ["general"])) as Hgeneral.
  { split; [by apply (bool_decide_unpack _)|]. split; [|done].
    intros t. rewrite !elem_of_cons. tauto. }
  destruct (FS.exists_ (fs w) repo_path); [|done].
  destruct (FS.listdir (fs w) repo_path) as [e|files]; [done|].
  destruct (classify_tags files) as (Hnd & Hpy & Hnode & Hrust & Hgen & Hall).
  split; [by apply list_of_set_NoDup|].
  split; [intros t; rewrite list_of_set_tags; apply Hall|].
  rewrite list_of_set_tags. intros Hin.
  assert (classify files = ["general"]) as ->; [|apply list_of_set_single].
  apply Hgen in Hin as (H1 & H2 & H3).
  unfold classify. fold (looks_python files) (looks_node files) (looks_rust files).
  by rewrite H1, H2, H3.
Qed.

(** X13.  For a directory that can be listed, the detected
    types follow the entries of the directory itself (no recursion): [python]
    is detected exactly when an entry ends in [.py] or is [requirements.txt],
    [node] exactly when an entry ends in [.js] or is [package.json], [rust]
    exactly when an entry ends in [.rs] or is [Cargo.toml], and [general]
    exactly when none of the three is. *)
Theorem detect_project_type_rules env repo_path w files :
  FS.listdir (fs w) repo_path = inr files →
  ∃ types w',
    detect_project_type env repo_path w = (Ok types, w')
    ∧ ("python" ∈ types ↔
         (∃ f, f ∈ files ∧ Str.endswith f ".py" = true) ∨ "requirements.txt" ∈ files)
    ∧ ("node" ∈ types ↔
         (∃ f, f ∈ files ∧ Str.endswith f ".js" = true) ∨ "package.json" ∈ files)
    ∧ ("rust" ∈ types ↔
         (∃ f, f ∈ files ∧ Str.endswith f ".rs" = true) ∨ "Cargo.toml" ∈ files)
    ∧ ("general" ∈ types ↔ ¬ ("python" ∈ types ∨ "node" ∈ types ∨ "rust" ∈ types)).
Proof.
  intros Hls.
  destruct (detect_project_type_run env repo_path w) as [lg ->].
  eexists _, _. split; [reflexivity|].
  unfold detect_outcome. rewrite (listdir_exists _ _ _ Hls), Hls.
  rewrite !list_of_set_tags.
  destruct (classify_tags files) as (_ & Hpy & Hnode & Hrust & Hgen & _).
  assert (∀ suffix name,
            existsb (λ f, Str.endswith f suffix) files || py_in name files = true
            ↔ (∃ f, f ∈ files ∧ Str.endswith f suffix = true) ∨ name ∈ files) as Htest.
  { intros suffix name. rewrite orb_true_iff, existsb_exists. unfold py_in.
    rewrite bool_decide_eq_true.
    split; (intros [(f & Hf & He)|Hn]; [left; exists f; split; [|done]|by right]);
      by apply list_elem_of_In. }
  split; [by rewrite Hpy; apply Htest|].
  split; [by rewrite Hnode; apply Htest|].
  split; [by rewrite Hrust; apply Htest|].
  rewrite Hpy, Hnode, Hrust, Hgen.
  destruct (looks_python files), (looks_node files), (looks_rust files); intuition congruence.
Qed.

Lemma detect_project_type_rules_witness :
  FS.listdir (fs Demo.world) "/srv/node" = inr ["package.json"]
  ∧ ∃ types,
      (detect_project_type Demo.env "/srv/node" Demo.world).1 = Ok types
      ∧ "node" ∈ types ∧ "general" ∉ types.
Proof.
  assert (H1 : FS.listdir (fs Demo.world) "/srv/node" = inr ["package.json"])
    by (vm_compute; reflexivity).
  split; [exact H1|].
  destruct (detect_project_type_rules Demo.env "/srv/node" Demo.world _ H1)
    as (types & w' & Hrun & _ & Hnode & _ & Hgen).
  exists types. rewrite Hrun. split; [reflexivity|].
  assert ("node" ∈ types) as Hin by (apply Hnode; right; apply list_elem_of_here).
  split; [exact Hin|]. rewrite Hgen. tauto.
Defined.

(** ** The GitHub client *)

(** Unfolds the monad of the client. *)
Ltac aunfold :=
  unfold mbind, mret, GitHubAPI.Api_bind, GitHubAPI.Api_ret, GitHubAPI.throw,
    GitHubAPI.state, GitHubAPI.update, GitHubAPI.try_on, GitHubAPI.logger,
    GitHubAPI.requests_send, GitHubAPI.json_of in *.

Section ClientRuns.

Import GitHubAPI GitHubSpec.

Variable urljoin : string → string → string.
Variable server : list Request → Request → string + Response.

Lemma truthy_Some s : truthy (Some s) = true ↔ s ≠ "".
Proof. destruct s; cbn; split; done. Qed.

Lemma check_token_run st :
  _check_token st =
  (if truthy (effective_token st) then inr () else inl token_missing,
   set_GITHUB_TOKEN (effective_token st) st).
Proof.
  unfold _check_token, effective_token. aunfold. cbn.
  destruct (truthy (GITHUB_TOKEN st)) eqn:Hm; cbn.
  - rewrite Hm. by destruct st.
  - by destruct (truthy (os_environ st !! "GITHUB_TOKEN")).
Qed.

(** What [_make_request] does with a token and a method it knows: one
    request, and the server's answer sorted into a response or an error. *)
Lemma make_request_run st token method v endpoint data params :
  effective_token st = Some token → token ≠ "" → verb_of method = Some v →
  let request := request_for urljoin token v endpoint data params in
  _make_request urljoin server method endpoint data params st =
  (outcome (server (sent st) request),
   mkState (os_environ st) (GITHUB_USERNAME st) (Some token) (sent st ++ [request])
           (records st ++ [(DEBUG, "Making " +:+ method +:+ " request to "
                                   +:+ urljoin BASE_URL endpoint)])).
Proof.
  intros Htok Hne Hverb request. subst request.
  unfold _make_request. unfold mbind at 1, Api_bind at 1.
  rewrite check_token_run, Htok, (proj2 (truthy_Some token) Hne).
  unfold verb_of in Hverb. cbn in Hverb.
  assert (∀ request st0,
            try_on is_RequestException
              (response ← requests_send server request;
               if bool_decide (400 ≤ status_code response) then
                 let error_msg := "GitHub API error (" +:+ Str.of_nat (status_code response)
                                  +:+ ")" in
                 error_msg ←
                   try_on (λ _, true)
                     (decoded ← json_of response;
                      error_detail ← get decoded "message" (JStr "No details available");
                      mret (error_msg +:+ ": " +:+ str error_detail))
                     (λ _, mret error_msg);
                 throw (GitHubAPIError error_msg (Some (status_code response))
                                       (Some response))
               else mret response)
              (λ e, throw (GitHubAPIError ("Request failed: " +:+ Error_str e) None None))
              st0
            = (outcome (server (sent st0) request), set_sent (sent st0 ++ [request]) st0))
    as Hsend.
  { intros request st0. unfold outcome, error_message. repeat (aunfold; cbn).
    destruct (server (sent st0) request) as [msg|response]; cbn; [done|].
    destruct (bool_decide (400 ≤ status_code response)); cbn; [|done].
    destruct (body response) as [why|[fields|items]]; cbn; done. }
  repeat (aunfold; cbn).
  destruct (bool_decide (Str.map_chars Str.lower method = "get")).
  { injection Hverb as <-. apply Hsend. }
  destruct (bool_decide (Str.map_chars Str.lower method = "post")).
  { injection Hverb as <-. apply Hsend. }
  destruct (bool_decide (Str.map_chars Str.lower method = "put")).
  { injection Hverb as <-. apply Hsend. }
  destruct (bool_decide (Str.map_chars Str.lower method = "delete")); [|done].
  injection Hverb as <-. apply Hsend.
Qed.

Lemma make_request_refused st method endpoint data params :
  truthy (effective_token st) = false →
  _make_request urljoin server method endpoint data params st
  = (inl token_missing, set_GITHUB_TOKEN (effective_token st) st).
Proof.
  intros Hno. unfold _make_request. unfold mbind at 1, Api_bind at 1.
  by rewrite check_token_run, Hno.
Qed.

End ClientRuns.

Section ClientProperties.

Import GitHubAPI GitHubSpec.

Variable urljoin : string → string → string.
Variable server : list Request → Request → string + Response.

(** X25.  Without a token, nothing is sent.  When neither the module
    variable nor the environment holds a non-empty [GITHUB_TOKEN], every
    function of the client raises [GitHubAPIError] with the message "GitHub
    token not found. Please set the GITHUB_TOKEN environment variable." and
    does so before any request goes out. *)
Theorem no_token_no_request st :
  truthy (effective_token st) = false →
  (∀ method endpoint data params,
     refused st (_make_request urljoin server method endpoint data params st))
  ∧ (∀ repo_name private description,
       refused st (create_github_repo urljoin server repo_name private description st))
  ∧ (∀ page per_page, refused st (list_repositories urljoin server page per_page st))
  ∧ (∀ repo_name, refused st (get_repository urljoin server repo_name st))
  ∧ (∀ repo_name, refused st (delete_repository urljoin server repo_name st))
  ∧ (∀ repo_name, refused st (list_branches urljoin server repo_name st))
  ∧ (∀ repo_name title body labels,
       refused st (create_issue urljoin server repo_name title body labels st))
  ∧ (∀ repo_name state_, refused st (list_pull_requests urljoin server repo_name state_ st))
  ∧ (∀ repo_name branch_name base_branch title body,
       refused st (create_pull_request urljoin server repo_name branch_name base_branch
                     title body st)).
Proof.
  intros Hno.
  pose proof (make_request_refused urljoin server st) as Hreq.
  repeat split; intros;
    unfold create_github_repo, list_repositories, get_repository, delete_repository,
      list_branches, create_issue, list_pull_requests, create_pull_request;
    unfold mbind, Api_bind, state; rewrite ?Hreq by done; done.
Qed.

(** X26.  The client keeps the credentials it has.  Once the module
    variable holds a token, a call sends that token whatever the environment
    holds at the time of the call; and the account name in the path is the
    one the module read when it was imported ([None] prints as "None"), not
    the one in the environment.  Changing [os.environ] afterwards, as the
    route [setup_credentials] does, changes neither. *)
Theorem client_keeps_credentials st token repo_name environ :
  GITHUB_TOKEN st = Some token → token ≠ "" →
  sent (list_branches urljoin server repo_name (set_os_environ environ st)).2
  = sent st
    ++ [mkRequest Get
          (urljoin BASE_URL ("/repos/" +:+ fmt (GITHUB_USERNAME st) +:+ "/" +:+ repo_name
                             +:+ "/branches"))
          [("Authorization", "token " +:+ token);
           ("Accept", "application/vnd.github.v3+json")]
          JNone JNone].
Proof.
  intros Htok Hne.
  assert (effective_token (set_os_environ environ st) = Some token) as Heff.
  { unfold effective_token. cbn. by rewrite Htok, (proj2 (truthy_Some token) Hne). }
  unfold list_branches. unfold mbind, Api_bind, state.
  rewrite (make_request_run urljoin server _ token "get" Get _ _ _ Heff Hne eq_refl).
  cbn. destruct (outcome _) as [e|response]; cbn; [done|].
  unfold json_of. by destruct (body response).
Qed.

(** X27.  What [_make_request] makes of an answer.  With a token and one
    of the four methods (in any letter case) it sends exactly one request.
    It returns a response only if the status is below 400; a failure of the
    transport is raised as [GitHubAPIError] "Request failed: ..." without
    status; a status of 400 or more is raised as [GitHubAPIError] with that
    status, and the message "GitHub API error (status)" followed by the
    [message] field of the answer when the answer is a JSON object, by "No
    details available" when the object has no such field, and by nothing when
    the answer is not a JSON object. *)
Theorem make_request_errors st token method v endpoint data params :
  effective_token st = Some token → token ≠ "" → verb_of method = Some v →
  let request := request_for urljoin token v endpoint data params in
  let run := _make_request urljoin server method endpoint data params st in
  sent run.2 = sent st ++ [request]
  ∧ (∀ response, run.1 = inr response →
       server (sent st) request = inr response ∧ status_code response < 400)
  ∧ (∀ msg, server (sent st) request = inl msg →
       run.1 = inl (GitHubAPIError ("Request failed: " +:+ msg) None None))
  ∧ (∀ response, server (sent st) request = inr response → 400 ≤ status_code response →
       ∃ message,
         run.1 = inl (GitHubAPIError message (Some (status_code response)) (Some response))
         ∧ let prefix := "GitHub API error (" +:+ Str.of_nat (status_code response) +:+ ")" in
           match body response with
           | inr (Object fields) =>
               match lookup_field "message" fields with
               | Some (JStr detail) => message = prefix +:+ ": " +:+ detail
               | Some other => message = prefix +:+ ": " +:+ repr other
               | None => message = prefix +:+ ": No details available"
               end
           | _ => message = prefix
           end).
Proof.
  intros Htok Hne Hverb request run. subst run.
  rewrite (make_request_run urljoin server st token method v _ _ _ Htok Hne Hverb).
  fold request. cbn [fst snd sent]. split; [done|].
  unfold outcome. split; [|split].
  - intros response. destruct (server (sent st) request) as [msg|response']; [done|].
    destruct (bool_decide (400 ≤ status_code response')) eqn:Hst; [done|].
    intros [= <-]. apply bool_decide_eq_false in Hst. split; [done|lia].
  - by intros msg ->.
  - intros response -> Hst. rewrite (bool_decide_eq_true_2 _ Hst).
    eexists. split; [reflexivity|]. unfold error_message. cbn.
    destruct (body response) as [why|[fields|items]]; [done| |done].
    destruct (lookup_field "message" fields) as [[| | | | |]|]; done.
Qed.

(** What [create_github_repo] returns for an answer without error status
    that carries a JSON object. *)
Lemma create_github_repo_run st token repo_name private description response fields :
  effective_token st = Some token → token ≠ "" →
  server (sent st)
    (request_for urljoin token Post "/user/repos"
       (repo_payload repo_name private description) JNone) = inr response →
  status_code response < 400 →
  body response = inr (Object fields) →
  (create_github_repo urljoin server repo_name private description st).1
  = if bool_decide (status_code response = 201) then
      match lookup_field "html_url" fields with
      | Some _ => inr (Object fields)
      | None => inl (KeyError "html_url")
      end
    else inl (GitHubAPIError
                ("Repository creation failed. Details: "
                 +:+ str (default (JStr "Unknown error") (lookup_field "message" fields)))
                (Some (status_code response)) (Some response)).
Proof.
  intros Htok Hne Hanswer Hstatus Hbody.
  unfold create_github_repo. unfold mbind at 1, Api_bind at 1.
  assert (JDict (if truthy description
                 then [("name", JStr repo_name); ("private", JBool private);
                       ("auto_init", JBool false)] ++ [("description", JStr (fmt description))]
                 else [("name", JStr repo_name); ("private", JBool private);
                       ("auto_init", JBool false)])
          = repo_payload repo_name private description) as ->.
  { unfold repo_payload. destruct (truthy description); by rewrite ?app_nil_r. }
  rewrite (make_request_run urljoin server st token "post" Post _ _ _ Htok Hne eq_refl).
  cbn [request_for]. unfold request_for in Hanswer. rewrite Hanswer.
  unfold outcome. rewrite bool_decide_eq_false_2 by lia.
  repeat (aunfold; cbn). rewrite Hbody.
  destruct (bool_decide (status_code response = 201)); cbn; [|done].
  unfold subscript. by destruct (lookup_field "html_url" fields).
Qed.

(** X28.  [create_github_repo] accepts nothing but status 201.  For an
    answer below 400 that carries a JSON object: with status 201 and a field
    [html_url] it returns the object; with status 201 and no such field it
    raises [KeyError] although the server has created the repository; with
    any other status (200, 202, ...) it raises [GitHubAPIError] "Repository
    creation failed. Details: ..." with the [message] field of the answer, or
    "Unknown error". *)
Theorem create_github_repo_needs_201 st token repo_name private description response fields :
  effective_token st = Some token → token ≠ "" →
  server (sent st)
    (request_for urljoin token Post "/user/repos"
       (repo_payload repo_name private description) JNone) = inr response →
  status_code response < 400 →
  body response = inr (Object fields) →
  let run := create_github_repo urljoin server repo_name private description st in
  (status_code response = 201 → is_Some (lookup_field "html_url" fields) →
   run.1 = inr (Object fields))
  ∧ (status_code response = 201 → lookup_field "html_url" fields = None →
     run.1 = inl (KeyError "html_url"))
  ∧ (status_code response ≠ 201 →
     run.1 = inl (GitHubAPIError
                    ("Repository creation failed. Details: "
                     +:+ str (default (JStr "Unknown error") (lookup_field "message" fields)))
                    (Some (status_code response)) (Some response))).
Proof.
  intros Htok Hne Hanswer Hstatus Hbody run. subst run.
  rewrite (create_github_repo_run st token repo_name private description response fields)
    by done.
  split; [|split].
  - intros H201 [v Hv]. by rewrite (bool_decide_eq_true_2 _ H201), Hv.
  - intros H201 Hv. by rewrite (bool_decide_eq_true_2 _ H201), Hv.
  - intros Hother. by rewrite (bool_decide_eq_false_2 _ Hother).
Qed.

(** X29.  [delete_repository] returns whether the status is exactly 204:
    for any other status below 400 (a 202, say) it returns [False] without
    raising. *)
Theorem delete_repository_result st token repo_name response :
  effective_token st = Some token → token ≠ "" →
  server (sent st)
    (request_for urljoin token Delete
       ("/repos/" +:+ fmt (GITHUB_USERNAME st) +:+ "/" +:+ repo_name) JNone JNone)
  = inr response →
  status_code response < 400 →
  (delete_repository urljoin server repo_name st).1
  = inr (bool_decide (status_code response = 204)).
Proof.
  intros Htok Hne Hanswer Hstatus.
  unfold delete_repository. unfold mbind, Api_bind, state.
  rewrite (make_request_run urljoin server st token "delete" Delete _ _ _ Htok Hne eq_refl).
  cbn [request_for]. unfold request_for in Hanswer. rewrite Hanswer.
  unfold outcome. by rewrite bool_decide_eq_false_2 by lia.
Qed.

(** X30.  The route [create_repo] hides the status of the server: when
    GitHub answers the creation with a status of 400 or more, the route ends
    the request with status 500, and the status of the server appears only
    inside the detail text "GitHub API error (status)...". *)
Theorem create_repo_route_status st token repo_name private description response :
  effective_token st = Some token → token ≠ "" →
  server (sent st)
    (request_for urljoin token Post "/user/repos"
       (repo_payload repo_name private description) JNone) = inr response →
  400 ≤ status_code response →
  (create_repo urljoin server repo_name private description st).1
  = inr (HTTPException 500 (error_message response)).
Proof.
  intros Htok Hne Hanswer Hstatus.
  unfold create_repo, create_github_repo, try_on. unfold mbind at 2, Api_bind at 2.
  assert (JDict (if truthy description
                 then [("name", JStr repo_name); ("private", JBool private);
                       ("auto_init", JBool false)] ++ [("description", JStr (fmt description))]
                 else [("name", JStr repo_name); ("private", JBool private);
                       ("auto_init", JBool false)])
          = repo_payload repo_name private description) as ->.
  { unfold repo_payload. destruct (truthy description); by rewrite ?app_nil_r. }
  unfold mbind at 1, Api_bind at 1.
  rewrite (make_request_run urljoin server st token "post" Post _ _ _ Htok Hne eq_refl).
  cbn [request_for]. unfold request_for in Hanswer. rewrite Hanswer.
  unfold outcome. rewrite bool_decide_eq_true_2 by done. done.
Qed.

End ClientProperties.

Section ClientWitnesses.

Import GitHubAPI GitHubSpec.

Lemma no_token_no_request_witness :
  truthy (effective_token Hub.anonymous) = false
  ∧ (list_branches Hub.urljoin Hub.server "demo" Hub.anonymous).1 = inl token_missing
  ∧ sent (list_branches Hub.urljoin Hub.server "demo" Hub.anonymous).2 = [].
Proof.
  assert (H1 : truthy (effective_token Hub.anonymous) = false) by (vm_compute; reflexivity).
  split; [exact H1|].
  destruct (no_token_no_request Hub.urljoin Hub.server Hub.anonymous H1)
    as (_ & _ & _ & _ & _ & Hbranches & _).
  exact (Hbranches "demo").
Defined.

Lemma client_keeps_credentials_witness :
  (GITHUB_TOKEN Hub.client = Some "t0" ∧ "t0" ≠ "")
  ∧ sent (list_branches Hub.urljoin Hub.server "demo"
            (set_os_environ Hub.later Hub.client)).2
    = [mkRequest Get "https://api.github.com/repos/None/demo/branches"
         [("Authorization", "token t0"); ("Accept", "application/vnd.github.v3+json")]
         JNone JNone].
Proof.
  assert (H1 : GITHUB_TOKEN Hub.client = Some "t0") by (vm_compute; reflexivity).
  assert (H2 : "t0" ≠ "") by (apply (bool_decide_unpack _); vm_compute; exact I).
  split; [exact (conj H1 H2)|].
  rewrite (client_keeps_credentials Hub.urljoin Hub.server Hub.client "t0" "demo" Hub.later
             H1 H2).
  vm_compute. reflexivity.
Defined.

Lemma make_request_errors_witness :
  (effective_token Hub.client = Some "t0" ∧ "t0" ≠ "" ∧ verb_of "GET" = Some Get)
  ∧ (_make_request Hub.urljoin Hub.server "GET" "/user/repos" JNone JNone Hub.client).1
    = inl (GitHubAPIError "Request failed: connection refused" None None).
Proof.
  assert (H1 : effective_token Hub.client = Some "t0") by (vm_compute; reflexivity).
  assert (H2 : "t0" ≠ "") by (apply (bool_decide_unpack _); vm_compute; exact I).
  assert (H3 : verb_of "GET" = Some Get) by (vm_compute; reflexivity).
  split; [exact (conj H1 (conj H2 H3))|].
  destruct (make_request_errors Hub.urljoin Hub.server Hub.client "t0" "GET" Get
              "/user/repos" JNone JNone H1 H2 H3) as (_ & _ & Hfail & _).
  apply Hfail. vm_compute. reflexivity.
Defined.

Lemma create_github_repo_needs_201_witness :
  (effective_token Hub.client = Some "t0" ∧ "t0" ≠ ""
   ∧ Hub.server (sent Hub.client)
       (request_for Hub.urljoin "t0" Post "/user/repos" (repo_payload "demo" true None) JNone)
     = inr Hub.created
   ∧ status_code Hub.created < 400
   ∧ body Hub.created
     = inr (Object [("id", JInt 7); ("html_url", JStr "https://github.com/octo/demo")]))
  ∧ (create_github_repo Hub.urljoin Hub.server "demo" true None Hub.client).1
    = inr (Object [("id", JInt 7); ("html_url", JStr "https://github.com/octo/demo")]).
Proof.
  assert (H1 : effective_token Hub.client = Some "t0") by (vm_compute; reflexivity).
  assert (H2 : "t0" ≠ "") by (apply (bool_decide_unpack _); vm_compute; exact I).
  assert (H3 : Hub.server (sent Hub.client)
                 (request_for Hub.urljoin "t0" Post "/user/repos"
                    (repo_payload "demo" true None) JNone) = inr Hub.created)
    by (vm_compute; reflexivity).
  assert (H4 : status_code Hub.created < 400) by (vm_compute; lia).
  assert (H5 : body Hub.created
               = inr (Object [("id", JInt 7);
                              ("html_url", JStr "https://github.com/octo/demo")]))
    by reflexivity.
  split; [repeat split; assumption|].
  destruct (create_github_repo_needs_201 Hub.urljoin Hub.server Hub.client "t0" "demo" true
              None Hub.created _ H1 H2 H3 H4 H5) as (Hcreated & _).
  apply Hcreated; [reflexivity|]. vm_compute. eauto.
Defined.

Lemma delete_repository_result_witness :
  (effective_token Hub.client = Some "t0" ∧ "t0" ≠ ""
   ∧ Hub.server (sent Hub.client)
       (request_for Hub.urljoin "t0" Delete
          ("/repos/" +:+ fmt (GITHUB_USERNAME Hub.client) +:+ "/" +:+ "demo") JNone JNone)
     = inr Hub.accepted
   ∧ status_code Hub.accepted < 400)
  ∧ (delete_repository Hub.urljoin Hub.server "demo" Hub.client).1 = inr false.
Proof.
  assert (H1 : effective_token Hub.client = Some "t0") by (vm_compute; reflexivity).
  assert (H2 : "t0" ≠ "") by (apply (bool_decide_unpack _); vm_compute; exact I).
  assert (H3 : Hub.server (sent Hub.client)
                 (request_for Hub.urljoin "t0" Delete
                    ("/repos/" +:+ fmt (GITHUB_USERNAME Hub.client) +:+ "/" +:+ "demo")
                    JNone JNone) = inr Hub.accepted)
    by (vm_compute; reflexivity).
  assert (H4 : status_code Hub.accepted < 400) by (vm_compute; lia).
  split; [repeat split; assumption|].
  rewrite (delete_repository_result Hub.urljoin Hub.server Hub.client "t0" "demo"
             Hub.accepted H1 H2 H3 H4).
  reflexivity.
Defined.

Lemma create_repo_route_status_witness :
  (effective_token Hub.busy = Some "t0" ∧ "t0" ≠ ""
   ∧ Hub.server (sent Hub.busy)
       (request_for Hub.urljoin "t0" Post "/user/repos" (repo_payload "demo" true None) JNone)
     = inr Hub.conflict
   ∧ 400 ≤ status_code Hub.conflict)
  ∧ (create_repo Hub.urljoin Hub.server "demo" true None Hub.busy).1
    = inr (HTTPException 500 "GitHub API error (422): Repository creation failed.").
Proof.
  assert (H1 : effective_token Hub.busy = Some "t0") by (vm_compute; reflexivity).
  assert (H2 : "t0" ≠ "") by (apply (bool_decide_unpack _); vm_compute; exact I).
  assert (H3 : Hub.server (sent Hub.busy)
                 (request_for Hub.urljoin "t0" Post "/user/repos"
                    (repo_payload "demo" true None) JNone) = inr Hub.conflict)
    by (vm_compute; reflexivity).
  assert (H4 : 400 ≤ status_code Hub.conflict) by (vm_compute; lia).
  split; [repeat split; assumption|].
  rewrite (create_repo_route_status Hub.urljoin Hub.server Hub.busy "t0" "demo" true None
             Hub.conflict H1 H2 H3 H4).
  vm_compute. reflexivity.
Defined.

End ClientWitnesses.
